(** * LLM benchmarking toolkit: comparator, aggregator, cost and runners

    A shallow embedding of the Python scripts under [scripts/]
    ([utils.py], [compare_outputs.py], [run_prompts_openai.py],
    [run_prompts_local.py]) and the properties their specification states.

    Conventions of the embedding.
    - A Python [str] is a [string]; a character is an [ascii], that is a code
      point below 256.  [len] is [String.length] and [<] on strings is the
      lexicographic order on code points.
    - A Python [int] is a [Z].  A Python [float] is idealised as an exact
      rational [Q]: IEEE rounding, infinities and NaN are outside the model.
      [/] is Python's true division and raises [ZeroDivisionError] on a zero
      divisor.
    - A dictionary read with [d[k]] has [k] as a mandatory record field; a
      dictionary read with [d.get(k, default)] has [k] as an [option] field,
      [None] standing for an absent key.
    - Exceptions are values of [Py.exn] carried by the [Py.outcome] monad.
    - A value that is a [str] or [None] is an [option string].  The body of
      an API reply follows the chat-completions schema: the [content] of a
      message is a string or [null], a token count is an integer, and any
      key may be absent.
    - Paths are POSIX path names.  The file system accepts every directory
      it is asked to make and every file it is asked to write, unless the
      path itself names a directory.
    - [print] and [time.sleep] do not influence any returned value and are
      left out: the console is taken to accept what is printed, and the
      error log to accept what is appended.
    - What has been written is a map from path strings to what was written
      there; two spellings of one file are two keys. *)

From Stdlib Require Import QArith Qround Qabs Qminmax Lqa OrdersEx.
From stdpp Require Import gmap strings list fin_maps sorting pretty.

Local Open Scope string_scope.
#[local] Set Warnings "-clear-no-such-hyp".

(** ** Python primitives used by the scripts *)

Module Py.

Inductive exn : Type :=
| ZeroDivisionError
| KeyError (key : string)
| FileNotFoundError (path : string)
| JSONDecodeError (msg : string)
| TypeError (msg : string)
| IsADirectoryError (path : string).

Inductive outcome (A : Type) : Type :=
| Return (a : A)
| Raise (e : exn).
Arguments Return {A} a.
Arguments Raise {A} e.

#[global] Instance outcome_ret : MRet outcome := λ A a, Return a.
#[global] Instance outcome_bind : MBind outcome := λ A B f m,
  match m with
  | Return a => f a
  | Raise e => Raise e
  end.

(** [a / b] on numbers. *)
Definition true_div (a b : Q) : outcome Q :=
  if Qeq_bool b 0 then Raise ZeroDivisionError else Return (a / b)%Q.

(** [max(a, b)]: the first argument unless the second is strictly larger. *)
Definition max (a b : Q) : Q :=
  if Qle_bool b a then a else b.

(** [abs(x)]. *)
Definition abs (x : Q) : Q := Qabs x.

(** [len(l)] as a Python int. *)
Definition len {A} (l : list A) : Z := Z.of_nat (length l).

(** [len(s)] on a string. *)
Definition strlen (s : string) : Z := Z.of_nat (String.length s).

(** [sum(l)]: left to right, starting from 0. *)
Definition sum (l : list Q) : Q := foldl Qplus 0%Q l.

(** Nearest integer, ties to the even neighbour. *)
Definition round_half_even (x : Q) : Z :=
  let f := Qfloor x in
  match (x - inject_Z f ?= 1 # 2)%Q with
  | Lt => f
  | Gt => (f + 1)%Z
  | Eq => if Z.even f then f else (f + 1)%Z
  end.

Definition pow10 (n : nat) : positive := Z.to_pos (10 ^ Z.of_nat n).

(** [round(x, ndigits)]. *)
Definition round (x : Q) (ndigits : nat) : Q :=
  (round_half_even (x * inject_Z (Zpos (pow10 ndigits))) # pow10 ndigits)%Q.

(** [d[k]] on a dictionary. *)
Definition getitem {V} (d : gmap string V) (k : string) : outcome V :=
  match d !! k with
  | Some v => Return v
  | None => Raise (KeyError k)
  end.

(** [str.isspace] on one character (code points below 256). *)
Definition isspace (c : Ascii.ascii) : bool :=
  let n := Ascii.N_of_ascii c in
  ((9 <=? n) && (n <=? 13) || (28 <=? n) && (n <=? 32)
   || (n =? 133) || (n =? 160))%N.

(** [s.split()]: [word] is the token being read. *)
Fixpoint split_from (word s : string) : list string :=
  match s with
  | EmptyString =>
      match word with EmptyString => [] | _ => [word] end
  | String c s' =>
      if isspace c then
        match word with
        | EmptyString => split_from "" s'
        | _ => word :: split_from "" s'
        end
      else split_from (word +:+ String c "") s'
  end.

Definition split (s : string) : list string := split_from "" s.

(** The order of [sorted] on strings. *)
Definition str_le : relation string := λ a b, (a <=? b)%string.
Definition str_lt : relation string := λ a b, (a ?= b)%string = Lt.

#[global] Instance str_le_dec a b : Decision (str_le a b).
Proof. unfold str_le. apply _. Defined.

(** [sorted(l)]. *)
Definition sorted (l : list string) : list string := merge_sort str_le l.

(** [k] written with at least [width] digits. *)
Definition zero_pad (width : nat) (s : string) : string :=
  String.concat "" (replicate (width - String.length s) "0") +:+ s.

(** [f"{x:.<ndigits>f}"]. *)
Definition format_fixed (x : Q) (ndigits : nat) : string :=
  let k := round_half_even (Qabs x * inject_Z (Zpos (pow10 ndigits))) in
  let sign := if Qle_bool 0 x then "" else "-" in
  let whole := pretty (k / Zpos (pow10 ndigits))%Z in
  match ndigits with
  | O => sign +:+ whole
  | _ => sign +:+ whole +:+ "."
         +:+ zero_pad ndigits (pretty (k mod Zpos (pow10 ndigits))%Z)
  end.

End Py.

(** ** Data model *)

(** A prompt as stored in [data/prompts/<category>.json]. *)
Module Prompt.
Record t : Type := mk {
  id : string;
  content : string;
  category : option string
}.
End Prompt.

(** A result record: one per prompt and model.  The comparator subscripts
    [prompt_id], [model], [response], [latency_seconds] and
    [response_length]; every other key is read with [.get] or not at all. *)
Module Result.
Record t : Type := mk {
  prompt_id : string;
  model : string;
  response : string;
  latency_seconds : Q;
  input_tokens : option Z;
  output_tokens : option Z;
  total_tokens : option Z;
  cost_usd : option Q;
  timestamp : option string;
  response_length : Z;
  words_count : option Z;
  category : option string;
  error : option bool
}.

(** The record with its [category] key replaced, or removed. *)
Definition with_category (c : option string) (r : t) : t :=
  mk (prompt_id r) (model r) (response r) (latency_seconds r)
     (input_tokens r) (output_tokens r) (total_tokens r) (cost_usd r)
     (timestamp r) (response_length r) (words_count r) c (error r).

(** [result['category'] = c] *)
Definition set_category (c : string) (r : t) : t := with_category (Some c) r.

(** [result['error'] = b] *)
Definition set_error (b : bool) (r : t) : t :=
  mk (prompt_id r) (model r) (response r) (latency_seconds r)
     (input_tokens r) (output_tokens r) (total_tokens r) (cost_usd r)
     (timestamp r) (response_length r) (words_count r) (category r) (Some b).
End Result.

(** The ["openai"] and ["local"] halves of a comparison record. *)
Module Side.
Record t : Type := mk {
  model : string;
  response : string;
  latency_seconds : Q;
  total_tokens : Z;
  cost_usd : Q;
  response_length : Z;
  words_count : Z;
  has_error : bool
}.
End Side.

Module Metrics.
Record t : Type := mk {
  latency_ratio : Q;
  length_ratio : Q;
  cost_savings : Q;
  both_successful : bool
}.
End Metrics.

Module Comparison.
Record t : Type := mk {
  prompt_id : string;
  category : string;
  openai : Side.t;
  local : Side.t;
  comparison_metrics : Metrics.t
}.
End Comparison.

(** One entry of ["category_breakdown"]. *)
Module CategoryStats.
Record t : Type := mk {
  count : Z;
  avg_latency_ratio : Q;
  avg_length_ratio : Q;
  total_cost_savings : Q
}.
End CategoryStats.

Module Overview.
Record t : Type := mk {
  total_comparisons : Z;
  successful_comparisons : Z;
  success_rate : Q;
  avg_latency_ratio : Q;
  avg_response_length_ratio : Q;
  total_cost_savings : Q
}.
End Overview.

Module Summary.
Record t : Type := mk {
  local_vs_openai_speed : string;
  local_vs_openai_length : string;
  cost_efficiency : string
}.
End Summary.

(** What [generate_performance_analysis] returns: [{"error": msg}] or the
    three-part analysis.  [category_breakdown] keeps the insertion order of the
    dictionary. *)
Inductive analysis : Type :=
| AnalysisError (error : string)
| Analysis (overview : Overview.t) (performance_summary : Summary.t)
           (category_breakdown : list (string * CategoryStats.t)).

(** What [open] followed by [json.load] finds at a path. *)
Inductive file (A : Type) : Type :=
| NoSuchFile
| Malformed (msg : string)
| Document (v : A).
Arguments NoSuchFile {A}.
Arguments Malformed {A} msg.
Arguments Document {A} v.

(** ** utils.py *)

Module Utils.
Import Py.

Definition load_prompts (fs : string → file (list Prompt.t))
    (file_path : string) : outcome (list Prompt.t) :=
  match fs file_path with
  | NoSuchFile => Raise (FileNotFoundError file_path)
  | Malformed msg => Raise (JSONDecodeError msg)
  | Document v => Return v
  end.

(** Price per 1K tokens: [(input, output)]. *)
Definition pricing : gmap string (Q * Q) :=
  <["gpt-4o" := (5 # 1000, 15 # 1000)%Q]>
  (<["gpt-4-turbo" := (1 # 100, 3 # 100)%Q]>
  (<["gpt-4" := (3 # 100, 6 # 100)%Q]> ∅)).

Definition calculate_tokens_cost (input_tokens output_tokens : Z)
    (model : string) : outcome Q :=
  let model := if decide (model ∈ dom pricing) then model else "gpt-4" in
  per_k_in ← true_div (inject_Z input_tokens) 1000;
  rates_in ← getitem pricing model;
  let input_cost := (per_k_in * rates_in.1)%Q in
  per_k_out ← true_div (inject_Z output_tokens) 1000;
  rates_out ← getitem pricing model;
  let output_cost := (per_k_out * rates_out.2)%Q in
  mret (input_cost + output_cost)%Q.

(** [now] is the value of [datetime.now().isoformat()] at the call. *)
Definition format_response_data (now : string) (prompt_id response : string)
    (latency : Q) (input_tokens output_tokens : Z) (cost : Q)
    (model : string) : Result.t :=
  {| Result.prompt_id := prompt_id;
     Result.model := model;
     Result.response := response;
     Result.latency_seconds := round latency 3;
     Result.input_tokens := Some input_tokens;
     Result.output_tokens := Some output_tokens;
     Result.total_tokens := Some (input_tokens + output_tokens)%Z;
     Result.cost_usd := Some (round cost 6);
     Result.timestamp := Some now;
     Result.response_length := strlen response;
     Result.words_count := Some (len (split response));
     Result.category := None;
     Result.error := None |}.

(** The line appended to the log file at [now]. *)
Definition log_error (now : string) (error_msg : string)
    (prompt_id : option string) (log : string) : string :=
  let log_entry := "[" +:+ now +:+ "] Error" in
  let log_entry :=
    match prompt_id with
    | Some (String _ _ as p) => log_entry +:+ " (Prompt: " +:+ p +:+ ")"
    | _ => log_entry
    end in
  let log_entry := log_entry +:+ ": " +:+ error_msg +:+ String (Ascii.ascii_of_nat 10) "" in
  log +:+ log_entry.

End Utils.

(** ** compare_outputs.py *)

Module Compare.
Import Py.

Definition load_results (fs : string → file (list Result.t))
    (file_path : string) : outcome (list Result.t) :=
  match fs file_path with
  | NoSuchFile => Return []
  | Malformed msg => Return []
  | Document v => Return v
  end.

(** [d[result['prompt_id']] = result] *)
Definition insert_result (d : gmap string Result.t) (result : Result.t)
    : gmap string Result.t :=
  <[Result.prompt_id result := result]> d.

(** [{result['prompt_id']: result for result in results}] *)
Definition lookup_table (results : list Result.t) : gmap string Result.t :=
  foldl insert_result ∅ results.

(** The body of the loop over the common prompt ids. *)
Definition compare_pair (prompt_id : string)
    (openai_result local_result : Result.t) : outcome Comparison.t :=
  latency_ratio ←
    true_div (Result.latency_seconds local_result)
             (max (Result.latency_seconds openai_result) (1 # 1000));
  length_ratio ←
    true_div (inject_Z (Result.response_length local_result))
             (inject_Z (Z.max (Result.response_length openai_result) 1));
  mret
    {| Comparison.prompt_id := prompt_id;
       Comparison.category :=
         default "unknown" (Result.category openai_result);
       Comparison.openai :=
         {| Side.model := Result.model openai_result;
            Side.response := Result.response openai_result;
            Side.latency_seconds := Result.latency_seconds openai_result;
            Side.total_tokens := default 0%Z (Result.total_tokens openai_result);
            Side.cost_usd := default 0%Q (Result.cost_usd openai_result);
            Side.response_length := Result.response_length openai_result;
            Side.words_count := default 0%Z (Result.words_count openai_result);
            Side.has_error := default false (Result.error openai_result) |};
       Comparison.local :=
         {| Side.model := Result.model local_result;
            Side.response := Result.response local_result;
            Side.latency_seconds := Result.latency_seconds local_result;
            Side.total_tokens := default 0%Z (Result.total_tokens local_result);
            Side.cost_usd := 0%Q;
            Side.response_length := Result.response_length local_result;
            Side.words_count := default 0%Z (Result.words_count local_result);
            Side.has_error := default false (Result.error local_result) |};
       Comparison.comparison_metrics :=
         {| Metrics.latency_ratio := latency_ratio;
            Metrics.length_ratio := length_ratio;
            Metrics.cost_savings := default 0%Q (Result.cost_usd openai_result);
            Metrics.both_successful :=
              negb (default false (Result.error openai_result)
                    || default false (Result.error local_result)) |} |}.

Definition create_side_by_side_comparison
    (openai_results local_results : list Result.t)
    : outcome (list Comparison.t) :=
  let openai_lookup := lookup_table openai_results in
  let local_lookup := lookup_table local_results in
  let common_prompts : gset string := dom openai_lookup ∩ dom local_lookup in
  if decide (common_prompts = ∅) then mret []
  else
    mapM (λ prompt_id,
            openai_result ← getitem openai_lookup prompt_id;
            local_result ← getitem local_lookup prompt_id;
            compare_pair prompt_id openai_result local_result)
         (sorted (elements common_prompts)).

Definition empty_stats : CategoryStats.t :=
  CategoryStats.mk 0 0 0 0.

(** One pass of the accumulation loop for an entry already present. *)
Definition accumulate (comparison : Comparison.t) (s : CategoryStats.t)
    : CategoryStats.t :=
  let m := Comparison.comparison_metrics comparison in
  {| CategoryStats.count := (CategoryStats.count s + 1)%Z;
     CategoryStats.avg_latency_ratio :=
       (CategoryStats.avg_latency_ratio s + Metrics.latency_ratio m)%Q;
     CategoryStats.avg_length_ratio :=
       (CategoryStats.avg_length_ratio s + Metrics.length_ratio m)%Q;
     CategoryStats.total_cost_savings :=
       (CategoryStats.total_cost_savings s + Metrics.cost_savings m)%Q |}.

(** [if category not in d: d[category] = zeros] then the four [+=], on a
    dictionary kept in insertion order. *)
Fixpoint add_to_category (category : string) (comparison : Comparison.t)
    (d : list (string * CategoryStats.t)) : list (string * CategoryStats.t) :=
  match d with
  | [] => [(category, accumulate comparison empty_stats)]
  | (k, s) :: d' =>
      if decide (k = category) then (k, accumulate comparison s) :: d'
      else (k, s) :: add_to_category category comparison d'
  end.

(** The accumulation loop over the successful comparisons. *)
Definition category_totals (successful_comparisons : list Comparison.t)
    : list (string * CategoryStats.t) :=
  foldl (λ d comparison,
           add_to_category (Comparison.category comparison) comparison d)
        [] successful_comparisons.

(** [[c for c in comparisons if c['comparison_metrics']['both_successful']]] *)
Definition successful (comparisons : list Comparison.t)
    : list Comparison.t :=
  filter (λ c, Metrics.both_successful (Comparison.comparison_metrics c)
               = true) comparisons.

(** The two [/= count] of the second loop. *)
Definition average (entry : string * CategoryStats.t)
    : outcome (string * CategoryStats.t) :=
  let s := entry.2 in
  let count := CategoryStats.count s in
  lat ← true_div (CategoryStats.avg_latency_ratio s) (inject_Z count);
  len ← true_div (CategoryStats.avg_length_ratio s) (inject_Z count);
  mret (entry.1,
        {| CategoryStats.count := count;
           CategoryStats.avg_latency_ratio := lat;
           CategoryStats.avg_length_ratio := len;
           CategoryStats.total_cost_savings :=
             CategoryStats.total_cost_savings s |}).

Definition generate_performance_analysis (comparisons : list Comparison.t)
    : outcome analysis :=
  match comparisons with
  | [] => mret (AnalysisError "No comparisons available")
  | _ =>
    let successful_comparisons := successful comparisons in
    match successful_comparisons with
    | [] => mret (AnalysisError "No successful comparisons available")
    | _ =>
      let total_comparisons := len comparisons in
      successful_rate ←
        true_div (inject_Z (len successful_comparisons))
                 (inject_Z total_comparisons);
      let latency_ratios :=
        map (λ c, Metrics.latency_ratio (Comparison.comparison_metrics c))
            successful_comparisons in
      avg_latency_ratio ←
        true_div (sum latency_ratios) (inject_Z (len latency_ratios));
      let length_ratios :=
        map (λ c, Metrics.length_ratio (Comparison.comparison_metrics c))
            successful_comparisons in
      avg_length_ratio ←
        true_div (sum length_ratios) (inject_Z (len length_ratios));
      let total_openai_cost :=
        sum (map (λ c, Side.cost_usd (Comparison.openai c))
                 successful_comparisons) in
      let category_analysis := category_totals successful_comparisons in
      category_analysis ← mapM average category_analysis;
      mret (Analysis
        {| Overview.total_comparisons := total_comparisons;
           Overview.successful_comparisons := len successful_comparisons;
           Overview.success_rate := round (successful_rate * 100) 1;
           Overview.avg_latency_ratio := round avg_latency_ratio 2;
           Overview.avg_response_length_ratio := round avg_length_ratio 2;
           Overview.total_cost_savings := round total_openai_cost 4 |}
        {| Summary.local_vs_openai_speed :=
             (if Qle_bool 1 avg_latency_ratio then "Slower" else "Faster")
             +:+ " by " +:+ format_fixed (abs (1 - avg_latency_ratio)) 1
             +:+ "x";
           Summary.local_vs_openai_length :=
             (if Qle_bool 1 avg_length_ratio then "Longer" else "Shorter")
             +:+ " by " +:+ format_fixed (abs (1 - avg_length_ratio)) 1
             +:+ "x";
           Summary.cost_efficiency :=
             "$" +:+ format_fixed total_openai_cost 4
             +:+ " saved with local inference" |}
        category_analysis)
    end
  end.

End Compare.

(** ** The category runners *)

(** The dictionary [send_prompt] returns.  Both clients catch every exception
    of the request and report it as a failure.  The [response] of a success
    is the [content] of the reply as it came: a [str], or [None] for a JSON
    [null]. *)
Inductive api_result : Type :=
| Success (response : option string) (latency : Q)
          (input_tokens output_tokens : Z) (cost : Q)
| Failure (error : string) (latency : Q).

(** The environment of a run: the outcome of the n-th request for a given
    prompt text, and the n-th reading of the clock. *)
Record environment : Type := {
  send_prompt : nat → string → api_result;
  isoformat_now : nat → string
}.

(** What a run has consumed and written so far: the prompts it has posted
    ([requests.post] in [send_prompt]), the probes it has sent
    ([requests.get] in [test_connection]), the readings of the clock and the
    content of the error log. *)
Record world : Type := {
  requests : nat;
  probes : nat;
  clock_reads : nat;
  error_log : string
}.

Definition initial_world : world :=
  {| requests := 0; probes := 0; clock_reads := 0; error_log := "" |}.

Definition after_request (w : world) : world :=
  {| requests := S (requests w); probes := probes w;
     clock_reads := clock_reads w; error_log := error_log w |}.

Definition after_probe (w : world) : world :=
  {| requests := requests w; probes := S (probes w);
     clock_reads := clock_reads w; error_log := error_log w |}.

Definition after_clock (w : world) : world :=
  {| requests := requests w; probes := probes w;
     clock_reads := S (clock_reads w); error_log := error_log w |}.

Definition with_log (log : string) (w : world) : world :=
  {| requests := requests w; probes := probes w;
     clock_reads := clock_reads w; error_log := log |}.

(** [format_response_data(prompt_id, response, ...)] on the response of a
    success, which is a [str] or [None].  The dictionary display of the
    function reads the clock and then evaluates [len(response)], which raises
    [TypeError] on [None]. *)
Definition format_response_data_call (now prompt_id : string)
    (response : option string) (latency : Q) (input_tokens output_tokens : Z)
    (cost : Q) (model : string) : Py.outcome Result.t :=
  match response with
  | Some text =>
      Py.Return (Utils.format_response_data now prompt_id text latency
                   input_tokens output_tokens cost model)
  | None => Py.Raise (Py.TypeError "object of type 'NoneType' has no len()")
  end.

(** run_prompts_openai.py *)
Module RunOpenAI.
Import Py Utils.

Record OpenAIClient : Type := {
  api_key : string;
  model : string
}.

(** One iteration of the loop over the prompts.  The state is the list
    [results] or the exception that has left the loop, with the world. *)
Definition process_prompt (env : environment) (client : OpenAIClient)
    (category : string) (state : outcome (list Result.t) * world)
    (prompt : Prompt.t) : outcome (list Result.t) * world :=
  match state with
  | (Raise e, w) => (Raise e, w)
  | (Return results, w) =>
    let api_result := send_prompt env (requests w) (Prompt.content prompt) in
    let w := after_request w in
    match api_result with
    | Success response latency input_tokens output_tokens cost =>
        let formatted :=
          format_response_data_call (isoformat_now env (clock_reads w))
            (Prompt.id prompt) response latency input_tokens output_tokens
            cost (model client) in
        let w := after_clock w in
        match formatted with
        | Raise e => (Raise e, w)
        | Return result =>
            let result := Result.set_category category result in
            (Return (results ++ [result])%list, w)
        end
    | Failure error latency =>
        let error_msg :=
          "Failed to process prompt " +:+ Prompt.id prompt +:+ ": " +:+ error in
        let w :=
          after_clock
            (with_log (log_error (isoformat_now env (clock_reads w)) error_msg
                                 (Some (Prompt.id prompt)) (error_log w)) w) in
        let result :=
          format_response_data (isoformat_now env (clock_reads w))
            (Prompt.id prompt) ("ERROR: " +:+ error) latency 0 0 0
            (model client) in
        let w := after_clock w in
        let result := Result.set_category category result in
        let result := Result.set_error true result in
        (Return (results ++ [result])%list, w)
    end
  end.

(** The list of records, or the exception a formatting call raised, which
    nothing in the loop catches. *)
Definition run_prompt_category (env : environment) (client : OpenAIClient)
    (prompts : list Prompt.t) (category : string) (w : world)
    : outcome (list Result.t) * world :=
  foldl (process_prompt env client category) (Return [], w) prompts.

End RunOpenAI.

(** run_prompts_local.py *)
Module RunLocal.
Import Py Utils.

Record LocalLMClient : Type := {
  base_url : string;
  model_name : string
}.

(** One iteration of the loop over the prompts.  The state is the list
    [results] or the exception that has left the loop, with the world. *)
Definition process_prompt (env : environment) (client : LocalLMClient)
    (category : string) (state : outcome (list Result.t) * world)
    (prompt : Prompt.t) : outcome (list Result.t) * world :=
  match state with
  | (Raise e, w) => (Raise e, w)
  | (Return results, w) =>
    let api_result := send_prompt env (requests w) (Prompt.content prompt) in
    let w := after_request w in
    match api_result with
    | Success response latency input_tokens output_tokens cost =>
        let formatted :=
          format_response_data_call (isoformat_now env (clock_reads w))
            (Prompt.id prompt) response latency input_tokens output_tokens
            cost (model_name client) in
        let w := after_clock w in
        match formatted with
        | Raise e => (Raise e, w)
        | Return result =>
            let result := Result.set_category category result in
            (Return (results ++ [result])%list, w)
        end
    | Failure error latency =>
        let error_msg :=
          "Failed to process prompt " +:+ Prompt.id prompt +:+ ": " +:+ error in
        let w :=
          after_clock
            (with_log (log_error (isoformat_now env (clock_reads w)) error_msg
                                 (Some (Prompt.id prompt)) (error_log w)) w) in
        let result :=
          format_response_data (isoformat_now env (clock_reads w))
            (Prompt.id prompt) ("ERROR: " +:+ error) latency 0 0 0
            (model_name client) in
        let w := after_clock w in
        let result := Result.set_category category result in
        let result := Result.set_error true result in
        (Return (results ++ [result])%list, w)
    end
  end.

(** The list of records, or the exception a formatting call raised, which
    nothing in the loop catches. *)
Definition run_prompt_category (env : environment) (client : LocalLMClient)
    (prompts : list Prompt.t) (category : string) (w : world)
    : outcome (list Result.t) * world :=
  foldl (process_prompt env client category) (Return [], w) prompts.

End RunLocal.

(** ** Reference definitions, in the words of the specification *)

Module Reference.

(** A character starts a token when it is not whitespace and follows
    whitespace or the start of the string. *)
Fixpoint token_starts (after_space : bool) (s : string) : nat :=
  match s with
  | EmptyString => 0
  | String c s' =>
      (if after_space && negb (Py.isspace c) then 1 else 0)
      + token_starts (Py.isspace c) s'
  end.

(** The number of whitespace-delimited tokens of [s]. *)
Definition whitespace_tokens (s : string) : nat := token_starts true s.

(** The price table entry of a model, the default model's for a model the
    table does not list. *)
Definition rates (model : string) : Q * Q :=
  match Utils.pricing !! model with
  | Some r => r
  | None => (3 # 100, 6 # 100)%Q
  end.

Definition cost (input_tokens output_tokens : Z) (model : string) : Q :=
  (inject_Z input_tokens / 1000 * (rates model).1
   + inject_Z output_tokens / 1000 * (rates model).2)%Q.

(** [error] with a missing field counting as false. *)
Definition failed (r : Result.t) : bool :=
  match Result.error r with
  | Some b => b
  | None => false
  end.

Definition latency_ratio (hosted local : Result.t) : Q :=
  (Result.latency_seconds local
   / Qmax (Result.latency_seconds hosted) (1 # 1000))%Q.

Definition length_ratio (hosted local : Result.t) : Q :=
  (inject_Z (Result.response_length local)
   / inject_Z (Z.max (Result.response_length hosted) 1))%Q.

Definition cost_savings (hosted : Result.t) : Q :=
  match Result.cost_usd hosted with
  | Some c => c
  | None => 0%Q
  end.

Definition both_successful (hosted local : Result.t) : bool :=
  negb (failed hosted || failed local).

(** The set of prompt ids of a result set. *)
Definition prompt_ids (results : list Result.t) : gset string :=
  list_to_set (map Result.prompt_id results).

End Reference.

(** The success rate an analysis reports, when it is not an error object. *)
Definition reported_success_rate (a : Py.outcome analysis) : option Q :=
  match a with
  | Py.Return (Analysis overview _ _) => Some (Overview.success_rate overview)
  | _ => None
  end.

(** ** Notions used by the statements *)

(** A results file whose content is not JSON. *)
Definition broken_results_fs : string → file (list Result.t) :=
  λ _, Malformed "Expecting value: line 1 column 1 (char 0)".

Definition broken_prompts_fs : string → file (list Prompt.t) :=
  λ _, Malformed "Expecting value: line 1 column 1 (char 0)".

(** How a comparison of the output relates to the id it was built for. *)
Definition built_for (openai_results local_results : list Result.t)
    (id : string) (c : Comparison.t) : Prop :=
  ∃ hr lr,
    Compare.lookup_table openai_results !! id = Some hr
    ∧ Compare.lookup_table local_results !! id = Some lr
    ∧ Compare.compare_pair id hr lr = Py.Return c.

(** Every entry of the dictionary has counted at least one comparison. *)
Definition counted (d : list (string * CategoryStats.t)) : Prop :=
  Forall (λ e, (1 ≤ CategoryStats.count e.2)%Z) d.

(** The category the hosted record filed under [id] gives a comparison. *)
Definition hosted_category (openai_results : list Result.t) (id : string)
    : string :=
  match Compare.lookup_table openai_results !! id with
  | Some hosted =>
      match Result.category hosted with
      | Some k => k
      | None => "unknown"
      end
  | None => "unknown"
  end.

(** What a run over [prompts], started in world [w], owes for each prompt:
    one record, at the prompt's position, for the prompt's id and the
    category, that reports the outcome of the request made for it. *)
Definition one_record_per_prompt (env : environment) (category : string)
    (w : world) (prompts : list Prompt.t) (results : list Result.t) : Prop :=
  length results = length prompts
  ∧ ∀ (i : nat) (p : Prompt.t),
      prompts !! i = Some p →
      ∃ r, results !! i = Some r
        ∧ Result.prompt_id r = Prompt.id p
        ∧ Result.category r = Some category
        ∧ match send_prompt env (requests w + i) (Prompt.content p) with
          | Failure error _ =>
              Result.error r = Some true
              ∧ Result.response r = "ERROR: " +:+ error
              ∧ Result.response r ≠ ""
          | Success response _ _ _ _ =>
              Result.error r = None ∧ Some (Result.response r) = response
          end.

(** A request reported as a success although the reply had no text. *)
Definition null_content (a : api_result) : bool :=
  match a with
  | Success None _ _ _ _ => true
  | _ => false
  end.

(** The position of the first prompt of [prompts] whose request is reported
    as a success without text, when the requests are numbered from [n]. *)
Fixpoint first_null (env : environment) (n : nat) (prompts : list Prompt.t)
    : option nat :=
  match prompts with
  | [] => None
  | p :: prompts' =>
      if null_content (send_prompt env n (Prompt.content p)) then Some 0%nat
      else S <$> first_null env (S n) prompts'
  end.

(** What the formatting call raises on such a success. *)
Definition no_len : Py.exn :=
  Py.TypeError "object of type 'NoneType' has no len()".

(** The records of a run, and none when the run raised. *)
Definition records (out : Py.outcome (list Result.t) * world)
    : list Result.t :=
  match out.1 with
  | Py.Return results => results
  | Py.Raise _ => []
  end.

(** ** Sample runs *)

(** Prompts [p0 .. p(n-1)] of one category file. *)
Definition sample_prompts (n : nat) : list Prompt.t :=
  map (λ i, Prompt.mk ("p" +:+ pretty i) ("Question " +:+ pretty i) None)
      (seq 0 n).

(** A hosted endpoint that answers every request. *)
Definition hosted_env : environment :=
  {| send_prompt := λ _ _, Success (Some "Four.") (12 # 10) 12 3 (54 # 100000);
     isoformat_now := λ _, "2024-05-01T12:00:00" |}.

(** A local endpoint that answers its first [k] requests and then times
    out. *)
Definition flaky_env (k : nat) : environment :=
  {| send_prompt := λ i _,
       if (i <? k)%nat then Success (Some "4") 3 0 0 0
       else Failure "Read timed out." 120;
     isoformat_now := λ _, "2024-05-01T13:00:00" |}.

(** A local endpoint whose reply to request [k] has a [null] content. *)
Definition silent_env (k : nat) : environment :=
  {| send_prompt := λ i _,
       if (i =? k)%nat then Success None 3 5 0 0
       else Success (Some "4") 3 5 1 0;
     isoformat_now := λ _, "2024-05-01T14:00:00" |}.

Definition hosted_run (n : nat) : list Result.t :=
  records
    (RunOpenAI.run_prompt_category hosted_env
       {| RunOpenAI.api_key := "sk-test"; RunOpenAI.model := "gpt-4" |}
       (sample_prompts n) "reasoning" initial_world).

Definition local_run (n k : nat) : list Result.t :=
  records
    (RunLocal.run_prompt_category (flaky_env k)
       {| RunLocal.base_url := "http://127.0.0.1:1234";
          RunLocal.model_name := "gpt-oss-20b" |}
       (sample_prompts n) "reasoning" initial_world).

(** The analysis of the two runs, as [main] of the comparator chains them. *)
Definition compare_runs (n k : nat) : Py.outcome analysis :=
  Compare.create_side_by_side_comparison (hosted_run n) (local_run n k)
  ≫= Compare.generate_performance_analysis.

(** The comparisons of the two sample runs. *)
Definition sample_comparisons (n k : nat) : list Comparison.t :=
  match Compare.create_side_by_side_comparison (hosted_run n) (local_run n k)
  with
  | Py.Return out => out
  | Py.Raise _ => []
  end.

(** A result record as it is read back from a results file. *)
Definition stored_result (id model : string) (latency : Q) (length : Z)
    (cost : option Q) (failed : option bool) : Result.t :=
  {| Result.prompt_id := id;
     Result.model := model;
     Result.response := "";
     Result.latency_seconds := latency;
     Result.input_tokens := None;
     Result.output_tokens := None;
     Result.total_tokens := None;
     Result.cost_usd := cost;
     Result.timestamp := None;
     Result.response_length := length;
     Result.words_count := None;
     Result.category := None;
     Result.error := failed |}.

Definition scenario_hosted : list Result.t :=
  [stored_result "p1" "gpt-4" 2 100 (Some (5 # 100)%Q) (Some false)].

Definition scenario_local : list Result.t :=
  [stored_result "p1" "gpt-oss-20b" 4 50 None (Some false)].

(** The metrics of the comparisons, in order. *)
Definition metrics_of (out : Py.outcome (list Comparison.t))
    : option (list Metrics.t) :=
  match out with
  | Py.Return l => Some (map Comparison.comparison_metrics l)
  | Py.Raise _ => None
  end.

(** ** utils.py: aggregate statistics and saving *)

(** The dictionary of [calculate_response_stats]. *)
Module Stats.
Record t : Type := mk {
  total_responses : Z;
  avg_latency_seconds : Q;
  total_tokens : Z;
  avg_tokens_per_response : Q;
  total_cost_usd : Q;
  avg_response_length : Q;
  min_response_length : Z;
  max_response_length : Z
}.
End Stats.

(** The ["comparison"] part of [create_comparison_summary]. *)
Module RunComparison.
Record t : Type := mk {
  latency_ratio : Q;
  token_efficiency : Q;
  cost_savings : Q;
  response_length_ratio : Q
}.
End RunComparison.

(** One row of the CSV export. *)
Module Row.
Record t : Type := mk {
  prompt_id : string;
  category : string;
  openai_model : string;
  local_model : string;
  openai_latency : Q;
  local_latency : Q;
  openai_tokens : Z;
  local_tokens : Z;
  openai_cost : Q;
  openai_response_length : Z;
  local_response_length : Z;
  openai_words : Z;
  local_words : Z;
  latency_ratio : Q;
  length_ratio : Q;
  cost_savings : Q;
  both_successful : bool;
  openai_has_error : bool;
  local_has_error : bool
}.
End Row.

(** What the scripts write to a path: the value handed to [json.dump], or
    the rows handed to [DataFrame.to_csv]. *)
Inductive artefact : Type :=
| ResultsFile (results : list Result.t)
| ComparisonFile (comparisons : list Comparison.t)
| AnalysisFile (a : analysis)
| CsvFile (rows : list Row.t).

Module Posix.

Definition is_slash (c : Ascii.ascii) : bool :=
  bool_decide (c = Ascii.ascii_of_nat 47).

Fixpoint has_slash (p : string) : bool :=
  match p with
  | EmptyString => false
  | String c p' => is_slash c || has_slash p'
  end.

(** [p[:p.rfind('/') + 1]] *)
Fixpoint upto_last_slash (p : string) : string :=
  match p with
  | EmptyString => ""
  | String c p' =>
      if has_slash p then String c (upto_last_slash p') else ""
  end.

(** [head.rstrip('/')] *)
Fixpoint rstrip_slash (head : string) : string :=
  match head with
  | EmptyString => ""
  | String c head' =>
      match rstrip_slash head' with
      | EmptyString => if is_slash c then "" else String c ""
      | rest => String c rest
      end
  end.

Fixpoint all_slashes (head : string) : bool :=
  match head with
  | EmptyString => true
  | String c head' => is_slash c && all_slashes head'
  end.

(** [os.path.dirname(p)] *)
Definition dirname (p : string) : string :=
  let head := upto_last_slash p in
  if all_slashes head then head else rstrip_slash head.

Fixpoint endswith_slash (a : string) : bool :=
  match a with
  | EmptyString => false
  | String c EmptyString => is_slash c
  | String _ a' => endswith_slash a'
  end.

(** [p[p.rfind('/') + 1:]], that is [os.path.basename(p)] *)
Fixpoint basename (p : string) : string :=
  match p with
  | EmptyString => ""
  | String _ p' => if has_slash p then basename p' else p
  end.

(** A path whose last component is empty, [.] or [..] names a directory. *)
Definition names_directory (p : string) : bool :=
  bool_decide (basename p = "") || bool_decide (basename p = ".")
  || bool_decide (basename p = "..").

(** [os.path.join(a, b)] *)
Definition join (a b : string) : string :=
  match b with
  | String c _ =>
      if is_slash c then b
      else if bool_decide (a = "") || endswith_slash a then a +:+ b
      else a +:+ "/" +:+ b
  | EmptyString =>
      if bool_decide (a = "") || endswith_slash a then a else a +:+ "/"
  end.

End Posix.

Module UtilsFiles.
Import Py.

(** [os.makedirs(os.path.dirname(file_path), exist_ok=True)] raises on the
    empty directory name.  After it [open(file_path, 'w')] raises when the
    path names a directory, and otherwise the file is written. *)
Definition save_results (results : list Result.t) (file_path : string)
    (disk : gmap string artefact) : outcome (gmap string artefact) :=
  match Posix.dirname file_path with
  | EmptyString => Raise (FileNotFoundError "")
  | _ =>
      if Posix.names_directory file_path
      then Raise (IsADirectoryError file_path)
      else Return (<[file_path := ResultsFile results]> disk)
  end.

(** [sum] on Python ints. *)
Definition sum_int (l : list Z) : Z := foldl Z.add 0%Z l.

(** [min] and [max] of the non-empty list [x :: l]. *)
Definition min_of (x : Z) (l : list Z) : Z := foldl Z.min x l.
Definition max_of (x : Z) (l : list Z) : Z := foldl Z.max x l.

(** [{}] is [None]. *)
Definition calculate_response_stats (responses : list Result.t)
    : outcome (option Stats.t) :=
  match responses with
  | [] => mret None
  | first :: rest =>
    let total_latency := sum (map Result.latency_seconds responses) in
    let total_tokens :=
      sum_int (map (λ r, default 0%Z (Result.total_tokens r)) responses) in
    let total_cost :=
      sum (map (λ r, default 0%Q (Result.cost_usd r)) responses) in
    let response_lengths := map Result.response_length responses in
    avg_latency ← true_div total_latency (inject_Z (len responses));
    avg_tokens ←
      true_div (inject_Z total_tokens) (inject_Z (len responses));
    avg_length ←
      true_div (inject_Z (sum_int response_lengths))
               (inject_Z (len responses));
    mret (Some
      {| Stats.total_responses := len responses;
         Stats.avg_latency_seconds := round avg_latency 3;
         Stats.total_tokens := total_tokens;
         Stats.avg_tokens_per_response := round avg_tokens 1;
         Stats.total_cost_usd := round total_cost 4;
         Stats.avg_response_length := round avg_length 1;
         Stats.min_response_length :=
           min_of (Result.response_length first)
                  (map Result.response_length rest);
         Stats.max_response_length :=
           max_of (Result.response_length first)
                  (map Result.response_length rest) |})
  end.

(** [stats.get(key, default)] *)
Definition stat {A} (key : Stats.t → A) (default : A)
    (stats : option Stats.t) : A :=
  match stats with
  | Some s => key s
  | None => default
  end.

Definition create_comparison_summary
    (openai_results local_results : list Result.t)
    : outcome (option Stats.t * option Stats.t * RunComparison.t) :=
  openai_stats ← calculate_response_stats openai_results;
  local_stats ← calculate_response_stats local_results;
  latency_ratio ←
    true_div (stat Stats.avg_latency_seconds 0%Q local_stats)
             (max (stat Stats.avg_latency_seconds 1%Q openai_stats) (1 # 1000));
  token_efficiency ←
    true_div (stat Stats.avg_tokens_per_response 0%Q local_stats)
             (max (stat Stats.avg_tokens_per_response 1%Q openai_stats) 1%Q);
  response_length_ratio ←
    true_div (stat Stats.avg_response_length 0%Q local_stats)
             (max (stat Stats.avg_response_length 1%Q openai_stats) 1%Q);
  mret (openai_stats, local_stats,
        {| RunComparison.latency_ratio := round latency_ratio 2;
           RunComparison.token_efficiency := round token_efficiency 2;
           RunComparison.cost_savings :=
             stat Stats.total_cost_usd 0%Q openai_stats;
           RunComparison.response_length_ratio :=
             round response_length_ratio 2 |}).

End UtilsFiles.

(** ** compare_outputs.py: the CSV export and [main] *)

Module CompareMain.
Import Py.

(** The row built for one comparison. *)
Definition flatten (comp : Comparison.t) : Row.t :=
  {| Row.prompt_id := Comparison.prompt_id comp;
     Row.category := Comparison.category comp;
     Row.openai_model := Side.model (Comparison.openai comp);
     Row.local_model := Side.model (Comparison.local comp);
     Row.openai_latency := Side.latency_seconds (Comparison.openai comp);
     Row.local_latency := Side.latency_seconds (Comparison.local comp);
     Row.openai_tokens := Side.total_tokens (Comparison.openai comp);
     Row.local_tokens := Side.total_tokens (Comparison.local comp);
     Row.openai_cost := Side.cost_usd (Comparison.openai comp);
     Row.openai_response_length :=
       Side.response_length (Comparison.openai comp);
     Row.local_response_length :=
       Side.response_length (Comparison.local comp);
     Row.openai_words := Side.words_count (Comparison.openai comp);
     Row.local_words := Side.words_count (Comparison.local comp);
     Row.latency_ratio :=
       Metrics.latency_ratio (Comparison.comparison_metrics comp);
     Row.length_ratio :=
       Metrics.length_ratio (Comparison.comparison_metrics comp);
     Row.cost_savings :=
       Metrics.cost_savings (Comparison.comparison_metrics comp);
     Row.both_successful :=
       Metrics.both_successful (Comparison.comparison_metrics comp);
     Row.openai_has_error := Side.has_error (Comparison.openai comp);
     Row.local_has_error := Side.has_error (Comparison.local comp) |}.

Definition generate_csv_export (comparisons : list Comparison.t)
    (output_file : string) (disk : gmap string artefact)
    : gmap string artefact :=
  match comparisons with
  | [] => disk
  | _ => <[output_file := CsvFile (map flatten comparisons)]> disk
  end.

(** The parsed command line. *)
Record args : Type := {
  openai_results : string;
  local_results : string;
  output_dir : string;
  export_csv : bool
}.

(** [fs] is what the two input paths hold, [disk] what has been written so
    far; the output directory is taken to exist. *)
Definition main (fs : string → file (list Result.t)) (a : args)
    (disk : gmap string artefact) : outcome (gmap string artefact) :=
  openai ← Compare.load_results fs (openai_results a);
  local ← Compare.load_results fs (local_results a);
  match openai, local with
  | [], [] => mret disk
  | _, _ =>
    comparisons ← Compare.create_side_by_side_comparison openai local;
    match comparisons with
    | [] => mret disk
    | _ =>
      analysis ← Compare.generate_performance_analysis comparisons;
      let comparison_file := output_dir a +:+ "/detailed_comparison.json" in
      let disk := <[comparison_file := ComparisonFile comparisons]> disk in
      let analysis_file := output_dir a +:+ "/performance_analysis.json" in
      let disk := <[analysis_file := AnalysisFile analysis]> disk in
      let disk :=
        if export_csv a then
          generate_csv_export comparisons
            (output_dir a +:+ "/comparison_data.csv") disk
        else disk in
      mret disk
    end
  end.

End CompareMain.

(** ** The HTTP exchange behind [send_prompt] *)

Module Http.

(** What a client hands to [requests.post]. *)
Record request : Type := {
  url : string;
  authorization : option string;
  model : string;
  content : string;
  max_tokens : Z;
  temperature : Q;
  stream : option bool;
  timeout : Z
}.

(** The decoded body, as far as the clients read it.  An absent key is
    [None]. *)
Record usage : Type := {
  prompt_tokens : option Z;
  completion_tokens : option Z
}.

(** [message_content] is [None] for a message without the key, [Some None]
    for ["content": null] and [Some (Some text)] for a string. *)
Record message : Type := { message_content : option (option string) }.

Record choice : Type := { choice_message : option message }.

Record payload : Type := {
  choices : option (list choice);
  payload_usage : option usage
}.

(** [response.json()] *)
Inductive body : Type :=
| NotJson (msg : string)
| Json (data : payload).

(** [requests.post(...)]: an exception with its [str], or a response. *)
Inductive reply : Type :=
| NoResponse (msg : string)
| Response (status_code : Z) (text : string) (json : body).

(** A reply with the readings of [time.time()] around it: before the
    request, after [post] returned, and in the exception handler. *)
Record exchange : Type := {
  reply_of : reply;
  start_time : Q;
  end_time : Q;
  failure_time : Q
}.

(** The [try] block: its value, or [str(e)] of the exception caught. *)
Inductive attempt (A : Type) : Type :=
| Got (a : A)
| Caught (message : string).
Arguments Got {A} a.
Arguments Caught {A} message.

#[global] Instance attempt_ret : MRet attempt := λ A a, Got a.
#[global] Instance attempt_bind : MBind attempt := λ A B f m,
  match m with
  | Got a => f a
  | Caught e => Caught e
  end.

(** [str(e)] of an exception of the model. *)
Definition exn_message (e : Py.exn) : string :=
  match e with
  | Py.ZeroDivisionError => "division by zero"
  | Py.KeyError key => "'" +:+ key +:+ "'"
  | Py.FileNotFoundError path =>
      "[Errno 2] No such file or directory: '" +:+ path +:+ "'"
  | Py.JSONDecodeError msg => msg
  | Py.TypeError msg => msg
  | Py.IsADirectoryError path =>
      "[Errno 21] Is a directory: '" +:+ path +:+ "'"
  end.

Definition of_outcome {A} (o : Py.outcome A) : attempt A :=
  match o with
  | Py.Return a => Got a
  | Py.Raise e => Caught (exn_message e)
  end.

(** [x['message']['content']] on a choice: the value under the key, a [str]
    or [None]. *)
Definition content_of (c : choice) : attempt (option string) :=
  match choice_message c with
  | None => Caught "'message'"
  | Some m =>
      match message_content m with
      | None => Caught "'content'"
      | Some value => Got value
      end
  end.

(** [usage.get('prompt_tokens', 0)] and [usage.get('completion_tokens', 0)]
    on [data.get('usage', {})]. *)
Definition tokens_of (data : payload) : Z * Z :=
  match payload_usage data with
  | None => (0, 0)%Z
  | Some u =>
      (default 0%Z (prompt_tokens u), default 0%Z (completion_tokens u))
  end.

(** [replace_from old new skip s]: [s.replace(old, new)] for a non-empty
    [old], with [skip] characters of a match still to drop. *)
Fixpoint replace_from (old new : string) (skip : nat) (s : string) : string :=
  match s with
  | EmptyString => ""
  | String c s' =>
      match skip with
      | S k => replace_from old new k s'
      | O =>
          if String.prefix old s
          then new +:+ replace_from old new (String.length old - 1) s'
          else String c (replace_from old new 0 s')
      end
  end.

Definition replace (old new s : string) : string := replace_from old new 0 s.

End Http.

(** How a main program ends, and what it leaves behind. *)
Inductive ending : Type :=
| Finished
| SystemExit (code : Z)
| Uncaught (e : Py.exn).

Record run : Type := {
  ending_of : ending;
  world_of : world;
  disk_of : gmap string artefact
}.

(** ** run_prompts_openai.py: the client and [main] *)

Module MainOpenAI.
Import Py Http.

(** [data['choices'][0]['message']['content']] *)
Definition response_text (data : payload) : attempt (option string) :=
  match choices data with
  | None => Caught "'choices'"
  | Some [] => Caught "list index out of range"
  | Some (c :: _) => content_of c
  end.

(** The URL, headers, payload and timeout of [requests.post]. *)
Definition request_for (client : RunOpenAI.OpenAIClient)
    (prompt_content : string) (max_tokens : Z) : request :=
  {| url := "https://api.openai.com/v1/chat/completions";
     authorization := Some ("Bearer " +:+ RunOpenAI.api_key client);
     model := RunOpenAI.model client;
     content := prompt_content;
     Http.max_tokens := max_tokens;
     temperature := 7 # 10;
     stream := None;
     timeout := 60 |}.

Definition send_prompt (client : RunOpenAI.OpenAIClient)
    (network : nat → request → exchange) (n : nat)
    (prompt_content : string) (max_tokens : Z) : api_result :=
  let x := network n (request_for client prompt_content max_tokens) in
  let tried : attempt (option string * Z * Z * Q) :=
    match reply_of x with
    | NoResponse msg => Caught msg
    | Response status_code text json =>
        if bool_decide (status_code ≠ 200%Z) then
          Caught ("API request failed: " +:+ pretty status_code
                  +:+ " - " +:+ text)
        else
          match json with
          | NotJson msg => Caught msg
          | Json data =>
              text ← response_text data;
              let '(input_tokens, output_tokens) := tokens_of data in
              cost ← of_outcome
                (Utils.calculate_tokens_cost input_tokens output_tokens
                   (RunOpenAI.model client));
              mret (text, input_tokens, output_tokens, cost)
          end
    end in
  match tried with
  | Got (text, input_tokens, output_tokens, cost) =>
      Success text (end_time x - start_time x) input_tokens output_tokens cost
  | Caught e => Failure e (failure_time x - start_time x)
  end.

(** The environment a client and a network make for the category runner,
    which calls [send_prompt] with the default [max_tokens]. *)
Definition environment_of (client : RunOpenAI.OpenAIClient)
    (network : nat → request → exchange) (now : nat → string) : environment :=
  Build_environment
    (λ n prompt_content, send_prompt client network n prompt_content 1000)
    now.

Record args : Type := {
  api_key : option string;
  model : string;
  categories : list string;
  output_dir : string
}.

(** The loop over the categories. *)
Fixpoint run_categories (fs : string → file (list Prompt.t))
    (env : environment) (client : RunOpenAI.OpenAIClient)
    (categories : list string) (all_results : list Result.t) (w : world)
    : outcome (list Result.t) * world :=
  match categories with
  | [] => (Return all_results, w)
  | category :: categories' =>
      let prompt_file := "../data/prompts/" +:+ category +:+ ".json" in
      match fs prompt_file with
      | NoSuchFile => run_categories fs env client categories' all_results w
      | _ =>
          match Utils.load_prompts fs prompt_file with
          | Raise e => (Raise e, w)
          | Return prompts =>
              match RunOpenAI.run_prompt_category env client prompts
                      category w with
              | (Raise e, w) => (Raise e, w)
              | (Return category_results, w) =>
                  run_categories fs env client categories'
                    (all_results ++ category_results)%list w
              end
          end
      end
  end.

(** Saving and summarising the results of a run. *)
Definition finish (all_results : list Result.t) (output_file : string)
    (disk : gmap string artefact) : outcome (gmap string artefact) :=
  match all_results with
  | [] => Return disk
  | _ =>
      disk ← UtilsFiles.save_results all_results output_file disk;
      stats ← UtilsFiles.calculate_response_stats all_results;
      match stats with
      | None => Raise (KeyError "total_responses")
      | Some _ => Return disk
      end
  end.

Definition main (fs : string → file (list Prompt.t))
    (network : nat → request → exchange) (now : nat → string)
    (a : args) (w : world) (disk : gmap string artefact) : run :=
  match api_key a with
  | None | Some EmptyString =>
      {| ending_of := SystemExit 1; world_of := w; disk_of := disk |}
  | Some key =>
      let client :=
        {| RunOpenAI.api_key := key; RunOpenAI.model := model a |} in
      let env := environment_of client network now in
      match run_categories fs env client (categories a) [] w with
      | (Raise e, w) =>
          {| ending_of := Uncaught e; world_of := w; disk_of := disk |}
      | (Return all_results, w) =>
          match finish all_results
                  (Posix.join (output_dir a) "openai_outputs.json") disk with
          | Raise e =>
              {| ending_of := Uncaught e; world_of := w; disk_of := disk |}
          | Return disk =>
              {| ending_of := Finished; world_of := w; disk_of := disk |}
          end
      end
  end.

End MainOpenAI.

(** ** run_prompts_local.py: the client and [main] *)

Module MainLocal.
Import Py Http.

(** [LocalLMClient(base_url, model_name)] *)
Definition LocalLMClient_init (base_url model_name : string)
    : RunLocal.LocalLMClient :=
  {| RunLocal.base_url := base_url +:+ "/v1/chat/completions";
     RunLocal.model_name := model_name |}.

(** [probe url] is the status of [requests.get(url, timeout=5)], or [None]
    when it raises.  The call sends one probe. *)
Definition test_connection (client : RunLocal.LocalLMClient)
    (probe : string → option Z) (w : world) : bool * world :=
  let test_url :=
    replace "/v1/chat/completions" "/v1/models" (RunLocal.base_url client) in
  let w := after_probe w in
  match probe test_url with
  | Some status_code => (bool_decide (status_code = 200%Z), w)
  | None => (false, w)
  end.

Definition response_text (data : payload) : attempt (option string) :=
  match choices data with
  | Some (c :: _) => content_of c
  | _ => Caught "No response choices found in API response"
  end.

(** The URL, headers, payload and timeout of [requests.post]. *)
Definition request_for (client : RunLocal.LocalLMClient)
    (prompt_content : string) (max_tokens : Z) : request :=
  {| url := RunLocal.base_url client;
     authorization := None;
     model := RunLocal.model_name client;
     content := prompt_content;
     Http.max_tokens := max_tokens;
     temperature := 7 # 10;
     stream := Some false;
     timeout := 120 |}.

Definition send_prompt (client : RunLocal.LocalLMClient)
    (network : nat → request → exchange) (n : nat)
    (prompt_content : string) (max_tokens : Z) : api_result :=
  let x := network n (request_for client prompt_content max_tokens) in
  let tried : attempt (option string * Z * Z) :=
    match reply_of x with
    | NoResponse msg => Caught msg
    | Response status_code text json =>
        if bool_decide (status_code ≠ 200%Z) then
          Caught ("API request failed: " +:+ pretty status_code
                  +:+ " - " +:+ text)
        else
          match json with
          | NotJson msg => Caught msg
          | Json data =>
              text ← response_text data;
              let '(input_tokens, output_tokens) := tokens_of data in
              mret (text, input_tokens, output_tokens)
          end
    end in
  match tried with
  | Got (text, input_tokens, output_tokens) =>
      Success text (end_time x - start_time x) input_tokens output_tokens 0
  | Caught e => Failure e (failure_time x - start_time x)
  end.

Definition environment_of (client : RunLocal.LocalLMClient)
    (network : nat → request → exchange) (now : nat → string) : environment :=
  Build_environment
    (λ n prompt_content, send_prompt client network n prompt_content 1000)
    now.

Record args : Type := {
  url : string;
  model : string;
  categories : list string;
  output_dir : string
}.

(** The loop over the categories. *)
Fixpoint run_categories (fs : string → file (list Prompt.t))
    (env : environment) (client : RunLocal.LocalLMClient)
    (categories : list string) (all_results : list Result.t) (w : world)
    : outcome (list Result.t) * world :=
  match categories with
  | [] => (Return all_results, w)
  | category :: categories' =>
      let prompt_file := "../data/prompts/" +:+ category +:+ ".json" in
      match fs prompt_file with
      | NoSuchFile => run_categories fs env client categories' all_results w
      | _ =>
          match Utils.load_prompts fs prompt_file with
          | Raise e => (Raise e, w)
          | Return prompts =>
              match RunLocal.run_prompt_category env client prompts
                      category w with
              | (Raise e, w) => (Raise e, w)
              | (Return category_results, w) =>
                  run_categories fs env client categories'
                    (all_results ++ category_results)%list w
              end
          end
      end
  end.

Definition main (fs : string → file (list Prompt.t))
    (probe : string → option Z) (network : nat → request → exchange)
    (now : nat → string) (a : args) (w : world)
    (disk : gmap string artefact) : run :=
  let client := LocalLMClient_init (url a) (model a) in
  let '(connected, w) := test_connection client probe w in
  if negb connected then
    {| ending_of := SystemExit 1; world_of := w; disk_of := disk |}
  else
    let env := environment_of client network now in
    match run_categories fs env client (categories a) [] w with
    | (Raise e, w) =>
        {| ending_of := Uncaught e; world_of := w; disk_of := disk |}
    | (Return all_results, w) =>
        match MainOpenAI.finish all_results
                (Posix.join (output_dir a) "local_outputs.json") disk with
        | Raise e =>
            {| ending_of := Uncaught e; world_of := w; disk_of := disk |}
        | Return disk =>
            {| ending_of := Finished; world_of := w; disk_of := disk |}
        end
    end.

End MainLocal.

(** ** Notions used by the further properties *)

(** Whether a request was answered. *)
Definition succeeded (a : api_result) : bool :=
  match a with
  | Success _ _ _ _ _ => true
  | Failure _ _ => false
  end.

(** The record a runner makes for prompt [p] out of the outcome of its
    request, stamped [now]; there is none for a success without text. *)
Definition record_for (now : string) (p : Prompt.t) (model category : string)
    (a : api_result) : option Result.t :=
  match a with
  | Success (Some response) latency input_tokens output_tokens cost =>
      Some (Result.set_category category
              (Utils.format_response_data now (Prompt.id p) response latency
                 input_tokens output_tokens cost model))
  | Success None _ _ _ _ => None
  | Failure error latency =>
      Some (Result.set_error true
              (Result.set_category category
                 (Utils.format_response_data now (Prompt.id p)
                    ("ERROR: " +:+ error) latency 0 0 0 model)))
  end.

(** The shape every record of a run has. *)
Definition well_formed (model category : string) (r : Result.t) : Prop :=
  (∃ i o, Result.input_tokens r = Some i ∧ Result.output_tokens r = Some o
          ∧ Result.total_tokens r = Some (i + o)%Z
          ∧ (Result.error r = Some true → i = 0%Z ∧ o = 0%Z))
  ∧ Result.response_length r = Z.of_nat (String.length (Result.response r))
  ∧ Result.words_count r
    = Some (Z.of_nat (Reference.whitespace_tokens (Result.response r)))
  ∧ Result.model r = model
  ∧ Result.category r = Some category
  ∧ (∃ stamp, Result.timestamp r = Some stamp)
  ∧ (∃ c, Result.cost_usd r = Some c
          ∧ (Result.error r = Some true → (c == 0)%Q))
  ∧ (Result.error r = None
     ∨ Result.error r = Some true
       ∧ String.prefix "ERROR: " (Result.response r) = true).

(** What [load_results] makes of a path: the document stored there, and the
    empty list for a missing or malformed file. *)
Definition results_found (fs : string → file (list Result.t))
    (file_path : string) : list Result.t :=
  match fs file_path with
  | Document v => v
  | _ => []
  end.

(** A row whose derived columns agree with its source columns. *)
Definition consistent_row (row : Row.t) : Prop :=
  Row.cost_savings row = Row.openai_cost row
  ∧ Row.both_successful row
    = negb (Row.openai_has_error row || Row.local_has_error row)
  ∧ (Row.latency_ratio row
     == Row.local_latency row / Qmax (Row.openai_latency row) (1 # 1000))%Q
  ∧ (Row.length_ratio row
     == inject_Z (Row.local_response_length row)
        / inject_Z (Z.max (Row.openai_response_length row) 1))%Q.

(** Two result files of a small hosted and local run. *)
Definition sample_results_fs : string → file (list Result.t) :=
  λ path,
    if bool_decide (path = "../results/openai_outputs.json")
    then Document (hosted_run 2)
    else if bool_decide (path = "../results/local_outputs.json")
    then Document (local_run 2 1)
    else NoSuchFile.

(** The files of a hosted and a local run over different prompts: the hosted
    records are those of [p0] and [p1], the local ones those of [q0] and
    [q1]. *)
Definition disjoint_results_fs : string → file (list Result.t) :=
  λ path,
    if bool_decide (path = "../results/openai_outputs.json")
    then Document (hosted_run 2)
    else if bool_decide (path = "../results/local_outputs.json")
    then Document [stored_result "q0" "gpt-oss-20b" 4 50 None None;
                   stored_result "q1" "gpt-oss-20b" 3 40 None (Some true)]
    else NoSuchFile.

Definition sample_compare_args : CompareMain.args :=
  {| CompareMain.openai_results := "../results/openai_outputs.json";
     CompareMain.local_results := "../results/local_outputs.json";
     CompareMain.output_dir := "../results";
     CompareMain.export_csv := true |}.

(** The answer a reply carries, if any: the content of the first choice of
    the JSON body of a 200 response, a string or [None] for [null], with the
    token counts of its usage block. *)
Definition answer_of (r : Http.reply) : option (option string * Z * Z) :=
  match r with
  | Http.NoResponse _ => None
  | Http.Response status_code _ json =>
      if bool_decide (status_code = 200%Z) then
        match json with
        | Http.NotJson _ => None
        | Http.Json data =>
            match Http.choices data with
            | Some (c :: _) =>
                match Http.choice_message c with
                | Some m =>
                    match Http.message_content m with
                    | Some value =>
                        Some (value, (Http.tokens_of data).1,
                              (Http.tokens_of data).2)
                    | None => None
                    end
                | None => None
                end
            | _ => None
            end
        end
      else None
  end.

(** A network that answers its first request and refuses the others. *)
Definition sample_network : nat → Http.request → Http.exchange :=
  λ n _,
    {| Http.reply_of :=
         if bool_decide (n = 0%nat) then
           Http.Response 200 "{...}"
             (Http.Json
                {| Http.choices :=
                     Some [ {| Http.choice_message :=
                                 Some {| Http.message_content :=
                                           Some (Some "4") |} |} ];
                   Http.payload_usage :=
                     Some {| Http.prompt_tokens := Some 12%Z;
                             Http.completion_tokens := None |} |})
         else Http.Response 429 "Too Many Requests" (Http.NotJson "");
       Http.start_time := 10;
       Http.end_time := 12;
       Http.failure_time := 13 |}.

(** A network whose reply to request [k] is a 200 response with
    ["content": null], and a text for every other request. *)
Definition silent_network (k : nat) : nat → Http.request → Http.exchange :=
  λ n _,
    {| Http.reply_of :=
         Http.Response 200 "{...}"
           (Http.Json
              {| Http.choices :=
                   Some [ {| Http.choice_message :=
                               Some {| Http.message_content :=
                                         Some (if (n =? k)%nat then None
                                               else Some "4") |} |} ];
                 Http.payload_usage :=
                   Some {| Http.prompt_tokens := Some 12%Z;
                           Http.completion_tokens := Some 0%Z |} |});
       Http.start_time := 10;
       Http.end_time := 12;
       Http.failure_time := 13 |}.

(** The file a runner reads the prompts of a category from. *)
Definition prompt_file (category : string) : string :=
  "../data/prompts/" +:+ category +:+ ".json".

(** The prompts a runner gets for a category: those of the document at its
    path, and none when the file is missing. *)
Definition prompts_found (fs : string → file (list Prompt.t))
    (category : string) : list Prompt.t :=
  match fs (prompt_file category) with
  | Document v => v
  | _ => []
  end.

(** The file of a category is there but is not JSON. *)
Definition malformed (fs : string → file (list Prompt.t))
    (category : string) : Prop :=
  match fs (prompt_file category) with
  | Malformed _ => True
  | _ => False
  end.

(** The prompt ids of the selected categories, in the order of the run. *)
Definition selected_ids (fs : string → file (list Prompt.t))
    (categories : list string) : list string :=
  concat (map (λ category, map Prompt.id (prompts_found fs category))
              categories).

(** The prompts a main program loads, in the order of the run: those of the
    selected categories that have a file, up to the first malformed file. *)
Fixpoint prompts_loaded (fs : string → file (list Prompt.t))
    (categories : list string) : list Prompt.t :=
  match categories with
  | [] => []
  | category :: categories' =>
      match fs (prompt_file category) with
      | NoSuchFile => prompts_loaded fs categories'
      | Malformed _ => []
      | Document v => (v ++ prompts_loaded fs categories')%list
      end
  end.

(** A run that started in world [w] with [disk], went through all the
    selected categories and saved its records at [path]. *)
Definition completed (fs : string → file (list Prompt.t))
    (categories : list string) (path : string) (w : world)
    (disk : gmap string artefact) (r : run) : Prop :=
  ending_of r = Finished
  ∧ requests (world_of r)
    = (requests w + length (selected_ids fs categories))%nat
  ∧ match selected_ids fs categories with
    | [] => disk_of r = disk
    | _ =>
        ∃ all_results,
          disk_of r = <[path := ResultsFile all_results]> disk
          ∧ map Result.prompt_id all_results = selected_ids fs categories
    end.

(** A run that made all its requests and then failed to save: it leaves the
    disk as it was. *)
Definition lost (fs : string → file (list Prompt.t))
    (categories : list string) (w : world) (disk : gmap string artefact)
    (r : run) : Prop :=
  ending_of r = Uncaught (Py.FileNotFoundError "")
  ∧ requests (world_of r)
    = (requests w + length (selected_ids fs categories))%nat
  ∧ disk_of r = disk.

(** A run cut short by the reply to its request number [k], counted from 0,
    a success without text: it ends with the uncaught [TypeError] of the
    formatting call after [k + 1] requests and leaves the disk as it was. *)
Definition cut_short (k : nat) (w : world) (disk : gmap string artefact)
    (r : run) : Prop :=
  ending_of r = Uncaught no_len
  ∧ requests (world_of r) = (requests w + S k)%nat
  ∧ disk_of r = disk.

(** No occurrence of [old] starts inside [s] when [old] is written after
    it. *)
Fixpoint no_early_match (old s : string) : bool :=
  match s with
  | EmptyString => true
  | String _ s' =>
      negb (String.prefix old (s +:+ old)) && no_early_match old s'
  end.

(** Prompt files of two categories, one of them broken. *)
Definition sample_prompts_fs : string → file (list Prompt.t) :=
  λ path,
    if bool_decide (path = prompt_file "reasoning")
    then Document (sample_prompts 2)
    else if bool_decide (path = prompt_file "coding")
    then Malformed "Expecting ',' delimiter: line 3 column 5 (char 41)"
    else NoSuchFile.

Definition sample_openai_args (key : option string)
    (categories : list string) (output_dir : string) : MainOpenAI.args :=
  {| MainOpenAI.api_key := key;
     MainOpenAI.model := "gpt-4";
     MainOpenAI.categories := categories;
     MainOpenAI.output_dir := output_dir |}.

Definition sample_local_args (categories : list string)
    (output_dir : string) : MainLocal.args :=
  {| MainLocal.url := "http://127.0.0.1:1234";
     MainLocal.model := "gpt-oss-20b";
     MainLocal.categories := categories;
     MainLocal.output_dir := output_dir |}.

(** A server that is up, and one that is down. *)
Definition sample_probe_up : string → option Z :=
  λ url,
    if bool_decide (url = "http://127.0.0.1:1234/v1/models")
    then Some 200%Z else None.

Definition sample_probe_down : string → option Z := λ _, None.

Definition sample_now : nat → string := λ _, "2024-05-01T12:00:00".

(** How a main program ends after its loop over the categories. *)
Definition conclude (looped : Py.outcome (list Result.t) * world)
    (output_file : string) (disk : gmap string artefact) : run :=
  match looped with
  | (Py.Raise e, w) =>
      {| ending_of := Uncaught e; world_of := w; disk_of := disk |}
  | (Py.Return all_results, w) =>
      match MainOpenAI.finish all_results output_file disk with
      | Py.Raise e =>
          {| ending_of := Uncaught e; world_of := w; disk_of := disk |}
      | Py.Return disk' =>
          {| ending_of := Finished; world_of := w; disk_of := disk' |}
      end
  end.

(** * Properties *)

(** ** The outcome monad *)

Section outcome_lemmas.
Context {A B : Type}.
Implicit Types (f : A → Py.outcome B) (l : list A).

Lemma bind_Return (m : Py.outcome A) f (b : B) :
  m ≫= f = Py.Return b ↔ ∃ a, m = Py.Return a ∧ f a = Py.Return b.
Proof.
  destruct m as [a|e]; simpl.
  - split; [eauto|]. by intros (a' & [= <-] & ?).
  - split; [done|]. by intros (? & ? & ?).
Qed.

Lemma mapM_Return_cons f a l bs :
  mapM f (a :: l) = Py.Return bs ↔
  ∃ b bs', f a = Py.Return b ∧ mapM f l = Py.Return bs' ∧ bs = b :: bs'.
Proof.
  change (mapM f (a :: l))
    with (f a ≫= λ y, mapM f l ≫= λ k, mret (y :: k)).
  destruct (f a) as [b|e]; simpl.
  - destruct (mapM f l) as [bs'|e]; simpl.
    + split; [intros [= <-]; eauto|]. by intros (? & ? & [= <-] & [= <-] & ->).
    + split; [done|]. by intros (? & ? & _ & ? & _).
  - split; [done|]. by intros (? & ? & ? & _).
Qed.

(** A loop whose body never raises returns one value per element. *)
Lemma mapM_total f (P : A → B → Prop) l :
  (∀ a, a ∈ l → ∃ b, f a = Py.Return b ∧ P a b) →
  ∃ bs, mapM f l = Py.Return bs ∧ Forall2 P l bs.
Proof.
  induction l as [|a l IH]; intros Hl.
  - exists []. by split; [|constructor].
  - destruct (Hl a) as (b & Hb & HP); [by left|].
    destruct IH as (bs & Hbs & HF); [intros; apply Hl; by right|].
    exists (b :: bs). split; [|by constructor].
    apply mapM_Return_cons. eauto.
Qed.
End outcome_lemmas.

Lemma true_div_Return (a b : Q) :
  ¬ (b == 0)%Q → Py.true_div a b = Py.Return (a / b)%Q.
Proof.
  intros Hb. unfold Py.true_div.
  destruct (Qeq_bool b 0) eqn:E; [|done].
  by apply Qeq_bool_iff in E.
Qed.

Lemma inject_Z_nonzero (z : Z) : z ≠ 0%Z → ¬ (inject_Z z == 0)%Q.
Proof. intros Hz HE. apply Hz. by apply (inject_Z_injective z 0) in HE. Qed.

(** ** Loading files *)

(** C4, as stated, fails for the comparator's loader: on a results file that
    is present but is not JSON, [load_results] returns the empty list. *)
Lemma load_results_swallows_parse_error :
  Compare.load_results broken_results_fs "openai_outputs.json" = Py.Return [].
Proof. reflexivity. Qed.

(** C4 (amended): on a file that is present but is not valid JSON, the prompt
    loader [load_prompts] raises the parse error to its caller, while the
    comparator's [load_results] catches it and returns the empty list. *)
Theorem malformed_json_handling
    (prompts_fs : string → file (list Prompt.t))
    (results_fs : string → file (list Result.t))
    (file_path msg : string) :
  prompts_fs file_path = Malformed msg →
  results_fs file_path = Malformed msg →
  Utils.load_prompts prompts_fs file_path = Py.Raise (Py.JSONDecodeError msg)
  ∧ Compare.load_results results_fs file_path = Py.Return [].
Proof.
  intros Hp Hr. unfold Utils.load_prompts, Compare.load_results.
  by rewrite Hp, Hr.
Qed.

Lemma malformed_json_handling_witness :
  Utils.load_prompts broken_prompts_fs "coding.json"
    = Py.Raise (Py.JSONDecodeError "Expecting value: line 1 column 1 (char 0)")
  ∧ Compare.load_results broken_results_fs "coding.json" = Py.Return [].
Proof.
  apply (malformed_json_handling broken_prompts_fs broken_results_fs
           "coding.json" "Expecting value: line 1 column 1 (char 0)");
    reflexivity.
Defined.

(** ** Cost of a hosted request *)

Lemma pricing_default : Utils.pricing !! "gpt-4" = Some (3 # 100, 6 # 100)%Q.
Proof. reflexivity. Qed.

Lemma pricing_dom (model : string) :
  model ∈ dom Utils.pricing ↔ is_Some (Utils.pricing !! model).
Proof. apply elem_of_dom. Qed.

(** C5: the hosted cost is
    [(input_tokens/1000)*input_rate + (output_tokens/1000)*output_rate] at the
    price table entry of the model, and at the entry of gpt-4 (0.03 and 0.06)
    for a model the table does not list; it never raises.  The statement holds
    for all integers, non-negative or not. *)
Theorem calculate_tokens_cost_spec (input_tokens output_tokens : Z)
    (model : string) :
  Utils.calculate_tokens_cost input_tokens output_tokens model
    = Py.Return (Reference.cost input_tokens output_tokens model)
  ∧ (Utils.pricing !! model = None →
     Reference.rates model = (3 # 100, 6 # 100)%Q
     ∧ Utils.calculate_tokens_cost input_tokens output_tokens model
       = Utils.calculate_tokens_cost input_tokens output_tokens "gpt-4").
Proof.
  assert (Hdiv : ∀ z, Py.true_div (inject_Z z) 1000
                      = Py.Return (inject_Z z / 1000)%Q)
    by (intros z; by apply true_div_Return).
  unfold Utils.calculate_tokens_cost, Reference.cost, Reference.rates.
  rewrite !Hdiv.
  destruct (Utils.pricing !! model) as [r|] eqn:Hm.
  - split; [|done].
    rewrite decide_True by (apply pricing_dom; eauto).
    simpl. unfold Py.getitem. by rewrite Hm.
  - assert (Hnot : model ∉ dom Utils.pricing).
    { rewrite pricing_dom, Hm. by intros [? ?]. }
    rewrite decide_False by done.
    split; [reflexivity|]. intros _. split; [done|].
    by rewrite decide_True by (apply pricing_dom; by rewrite pricing_default).
Qed.

(** ** The record formatter *)

Lemma append_nonempty (word : string) (c : Ascii.ascii) :
  word +:+ String c "" ≠ "".
Proof. by destruct word. Qed.

Lemma length_split_from (word s : string) :
  length (Py.split_from word s)
  = match word with
    | EmptyString => Reference.token_starts true s
    | _ => S (Reference.token_starts false s)
    end.
Proof.
  revert word. induction s as [|c s IH]; intros word; simpl.
  - by destruct word.
  - destruct (Py.isspace c) eqn:Hc; simpl.
    + destruct word; simpl; by rewrite IH.
    + rewrite IH. pose proof (append_nonempty word c) as Hne.
      destruct (word +:+ String c "") eqn:Hw; [done|].
      destruct word; simpl; lia.
Qed.

(** [len(s.split())] counts the whitespace-delimited tokens of [s]. *)
Lemma length_split (s : string) :
  length (Py.split s) = Reference.whitespace_tokens s.
Proof. apply (length_split_from "" s). Qed.

(** No token of [s.split()] is empty or contains whitespace. *)
Lemma split_from_tokens (word s : string) :
  (∀ c, c ∈ String.list_ascii_of_string word → Py.isspace c = false) →
  Forall (λ t, t ≠ "" ∧ ∀ c, c ∈ String.list_ascii_of_string t → Py.isspace c = false)
         (Py.split_from word s).
Proof.
  revert word. induction s as [|c s IH]; intros word Hword; simpl.
  - destruct word; [constructor|]. by repeat constructor.
  - destruct (Py.isspace c) eqn:Hc.
    + destruct word.
      * apply IH. by intros ? ?%elem_of_nil.
      * constructor; [done|]. apply IH. by intros ? ?%elem_of_nil.
    + apply IH. intros c'.
      assert (Happ : ∀ w, String.list_ascii_of_string (w +:+ String c "")
                          = (String.list_ascii_of_string w ++ [c])%list).
      { induction w as [|? ? IHw]; simpl; [done|]. by rewrite <- IHw. }
      rewrite Happ, elem_of_app, list_elem_of_singleton.
      intros [?| ->]; auto.
Qed.

(** C6: a record made by [format_response_data] has
    [total_tokens = input_tokens + output_tokens], [response_length] the
    length of [response], and [words_count] the number of
    whitespace-delimited tokens of [response]. *)
Theorem format_response_data_invariants
    (now prompt_id response : string) (latency : Q)
    (input_tokens output_tokens : Z) (cost : Q) (model : string) :
  let r := Utils.format_response_data now prompt_id response latency
             input_tokens output_tokens cost model in
  (∃ i o t, Result.input_tokens r = Some i ∧ Result.output_tokens r = Some o
            ∧ Result.total_tokens r = Some t ∧ t = (i + o)%Z)
  ∧ Result.response_length r = Z.of_nat (String.length (Result.response r))
  ∧ Result.words_count r
    = Some (Z.of_nat (Reference.whitespace_tokens (Result.response r))).
Proof.
  simpl. split; [by eexists _, _, _|]. split; [done|].
  unfold Py.len. by rewrite length_split.
Qed.

(** ** The comparator *)

Section lookup_table.
Implicit Types (results : list Result.t) (d : gmap string Result.t).

Import Compare.

Lemma dom_foldl_insert results d :
  dom (foldl insert_result d results)
  = dom d ∪ Reference.prompt_ids results.
Proof.
  unfold Reference.prompt_ids.
  revert d. induction results as [|r results IH]; intros d; simpl.
  - set_solver.
  - rewrite IH. unfold insert_result. rewrite dom_insert_L. set_solver.
Qed.

Lemma lookup_foldl_insert results d id r :
  foldl insert_result d results !! id = Some r →
  (r ∈ results ∧ Result.prompt_id r = id) ∨ d !! id = Some r.
Proof.
  revert d. induction results as [|r' results IH]; intros d; simpl.
  - by right.
  - intros [[Hin Hid]|Hd]%IH.
    + left. split; [by right|done].
    + unfold insert_result in Hd.
      destruct (decide (Result.prompt_id r' = id)) as [<-|Hne].
      * rewrite lookup_insert_eq in Hd. injection Hd as <-.
        left. split; [by left|done].
      * rewrite lookup_insert_ne in Hd by done. by right.
Qed.

(** The keys of the lookup dictionary are the prompt ids of the results. *)
Lemma dom_lookup_table results :
  dom (Compare.lookup_table results) = Reference.prompt_ids results.
Proof.
  unfold Compare.lookup_table.
  rewrite dom_foldl_insert. set_solver.
Qed.

(** A dictionary entry is a record of the list, filed under its own id. *)
Lemma lookup_table_Some results id r :
  Compare.lookup_table results !! id = Some r →
  r ∈ results ∧ Result.prompt_id r = id.
Proof.
  intros [?|Hd]%lookup_foldl_insert; [done|].
  by rewrite lookup_empty in Hd.
Qed.

Lemma lookup_foldl_insert_notin results d id :
  id ∉ map Result.prompt_id results →
  foldl insert_result d results !! id = d !! id.
Proof.
  revert d. induction results as [|r' results IH]; intros d Hid; simpl.
  - done.
  - rewrite IH by set_solver. unfold insert_result.
    apply lookup_insert_ne. set_solver.
Qed.

(** Last write wins: the entry of an id is the last record carrying it. *)
Lemma lookup_table_last before r after :
  Result.prompt_id r ∉ map Result.prompt_id after →
  Compare.lookup_table (before ++ r :: after) !! Result.prompt_id r = Some r.
Proof.
  intros Hafter. unfold Compare.lookup_table.
  rewrite foldl_app. simpl.
  rewrite lookup_foldl_insert_notin by done.
  apply lookup_insert_eq.
Qed.
End lookup_table.

Lemma py_max_Qmax (a b : Q) : (Py.max a b == Qmax a b)%Q.
Proof.
  unfold Py.max. destruct (Qle_bool b a) eqn:E.
  - apply Qle_bool_iff in E. symmetry. by apply Q.max_l.
  - assert (a <= b)%Q.
    { destruct (Qlt_le_dec a b) as [?%Qlt_le_weak|Hle]; [done|].
      apply Qle_bool_iff in Hle. congruence. }
    symmetry. by apply Q.max_r.
Qed.

Lemma py_max_floor (a b : Q) : (b <= Py.max a b)%Q.
Proof.
  unfold Py.max. destruct (Qle_bool b a) eqn:E.
  - by apply Qle_bool_iff in E.
  - apply Qle_refl.
Qed.

(** The two divisions of a comparison never have a zero divisor, so the
    comparison is built, with the metrics the code writes down. *)
Lemma compare_pair_Return (id : string) (hr lr : Result.t) :
  ∃ c, Compare.compare_pair id hr lr = Py.Return c
    ∧ Comparison.prompt_id c = id
    ∧ Comparison.category c = default "unknown" (Result.category hr)
    ∧ Metrics.latency_ratio (Comparison.comparison_metrics c)
      = (Result.latency_seconds lr
         / Py.max (Result.latency_seconds hr) (1 # 1000))%Q
    ∧ Metrics.length_ratio (Comparison.comparison_metrics c)
      = Reference.length_ratio hr lr
    ∧ Metrics.cost_savings (Comparison.comparison_metrics c)
      = Reference.cost_savings hr
    ∧ Metrics.both_successful (Comparison.comparison_metrics c)
      = Reference.both_successful hr lr.
Proof.
  unfold Compare.compare_pair.
  rewrite (true_div_Return (Result.latency_seconds lr)
             (Py.max (Result.latency_seconds hr) (1 # 1000))).
  2:{ pose proof (py_max_floor (Result.latency_seconds hr) (1 # 1000)) as Hm.
      intros Hz. rewrite Hz in Hm. by apply Qle_bool_iff in Hm. }
  rewrite true_div_Return by (apply inject_Z_nonzero; lia).
  eexists. split; [reflexivity|]. simpl.
  unfold Reference.cost_savings, Reference.both_successful, Reference.failed.
  by repeat split.
Qed.

(** The comparator never raises: it returns one comparison per common id, in
    the order of [sorted]. *)
Lemma create_side_by_side_comparison_Return
    (openai_results local_results : list Result.t) :
  ∃ out,
    Compare.create_side_by_side_comparison openai_results local_results
      = Py.Return out
    ∧ Forall2 (built_for openai_results local_results)
        (Py.sorted (elements (dom (Compare.lookup_table openai_results)
                              ∩ dom (Compare.lookup_table local_results))))
        out.
Proof.
  unfold Compare.create_side_by_side_comparison.
  set (common := dom _ ∩ dom _).
  destruct (decide (common = ∅)) as [->|_].
  - exists []. split; [done|]. rewrite elements_empty. constructor.
  - apply mapM_total. intros id Hid.
    assert (Hcommon : id ∈ common).
    { apply elem_of_elements.
      by rewrite <- (merge_sort_Permutation Py.str_le (elements common)). }
    apply elem_of_intersection in Hcommon as [[hr Hh]%elem_of_dom
                                                 [lr Hl]%elem_of_dom].
    destruct (compare_pair_Return id hr lr) as (c & Hc & _).
    exists c. unfold Py.getitem. rewrite Hh, Hl. simpl.
    split; [done|]. by exists hr, lr.
Qed.

(** ** The order of [sorted] *)

Section string_order.
Implicit Types a b c : string.

Lemma ascii_compare_refl (x : Ascii.ascii) : Ascii.compare x x = Eq.
Proof. unfold Ascii.compare. apply N.compare_refl. Qed.

Lemma ascii_compare_Lt_trans (x y z : Ascii.ascii) :
  Ascii.compare x y = Lt → Ascii.compare y z = Lt → Ascii.compare x z = Lt.
Proof.
  unfold Ascii.compare. rewrite !N.compare_lt_iff. apply N.lt_trans.
Qed.

Lemma str_lt_trans a b c : Py.str_lt a b → Py.str_lt b c → Py.str_lt a c.
Proof.
  unfold Py.str_lt. revert b c.
  induction a as [|x a IH]; intros [|y b] [|z c]; simpl; try done.
  destruct (Ascii.compare x y) eqn:Hxy; [|clear IH|done].
  - apply Ascii.compare_eq_iff in Hxy as ->.
    destruct (Ascii.compare y z); [apply IH|done|done].
  - destruct (Ascii.compare y z) eqn:Hyz; [| |done]; intros _ _.
    + apply Ascii.compare_eq_iff in Hyz as <-. by rewrite Hxy.
    + by rewrite (ascii_compare_Lt_trans x y z).
Qed.

Lemma str_lt_irrefl a : ¬ Py.str_lt a a.
Proof.
  unfold Py.str_lt. induction a as [|x a IH]; simpl; [done|].
  by rewrite ascii_compare_refl.
Qed.

Lemma str_le_lt_eq a b : Py.str_le a b ↔ a = b ∨ Py.str_lt a b.
Proof.
  unfold Py.str_le, Py.str_lt, String.leb. split.
  - destruct (a ?= b)%string eqn:E; [|by right|done].
    left. by apply String.compare_eq_iff.
  - intros [->| ->]; [|done].
    destruct (b ?= b)%string eqn:E; [done|done|].
    pose proof (String.compare_antisym b b) as Ha. rewrite E in Ha. done.
Qed.

#[local] Instance str_le_trans : Transitive Py.str_le.
Proof.
  intros a b c. rewrite !str_le_lt_eq.
  intros [->|Hab] [->|Hbc]; eauto using str_lt_trans.
Qed.

#[local] Instance str_le_total : Total Py.str_le.
Proof.
  intros a b. unfold Py.str_le.
  destruct (String.leb_total a b) as [->| ->]; [by left|by right].
Qed.

(** A sorted list without repetition is strictly increasing. *)
Lemma StronglySorted_strict (l : list string) :
  StronglySorted Py.str_le l → NoDup l → StronglySorted Py.str_lt l.
Proof.
  induction 1 as [|a l Hl IH Ha]; intros Hnd; [constructor|].
  apply NoDup_cons in Hnd as [Hnotin Hnd].
  constructor; [by apply IH|].
  apply Forall_forall. intros b Hb.
  rewrite Forall_forall in Ha.
  destruct (proj1 (str_le_lt_eq a b) (Ha b Hb)) as [->|?]; done.
Qed.

(** [sorted] of the elements of a set: strictly increasing, same elements. *)
Lemma sorted_elements (X : gset string) :
  StronglySorted Py.str_lt (Py.sorted (elements X))
  ∧ NoDup (Py.sorted (elements X))
  ∧ length (Py.sorted (elements X)) = size X
  ∧ ∀ a, a ∈ Py.sorted (elements X) ↔ a ∈ X.
Proof.
  pose proof (merge_sort_Permutation Py.str_le (elements X)) as Hperm.
  assert (Hnd : NoDup (Py.sorted (elements X))).
  { unfold Py.sorted. rewrite Hperm. apply NoDup_elements. }
  split; [|split; [done|split]].
  - apply StronglySorted_strict; [|done].
    by apply (StronglySorted_merge_sort _).
  - unfold Py.sorted. by rewrite Hperm.
  - intros a. unfold Py.sorted. rewrite Hperm. apply elem_of_elements.
Qed.
End string_order.

Lemma size_prompt_ids (results : list Result.t) :
  (size (Reference.prompt_ids results) ≤ length results)%nat.
Proof.
  unfold Reference.prompt_ids.
  induction results as [|r results IH]; simpl.
  - done.
  - rewrite size_union_alt, size_singleton.
    assert (Hs : (size ((list_to_set (map Result.prompt_id results)
                           : gset string) ∖ {[Result.prompt_id r]})
                  ≤ size (list_to_set (map Result.prompt_id results)
                           : gset string))%nat)
      by (apply subseteq_size; set_solver).
    lia.
Qed.

Lemma built_for_prompt_id openai_results local_results ids out :
  Forall2 (built_for openai_results local_results) ids out →
  map Comparison.prompt_id out = ids.
Proof.
  induction 1 as [|id c ids out (hr & lr & _ & _ & Hc) _ IH]; simpl; [done|].
  destruct (compare_pair_Return id hr lr) as (c' & Hc' & Hid & _).
  rewrite Hc in Hc'. injection Hc' as <-. by rewrite Hid, IH.
Qed.

(** C1: the comparator returns exactly one comparison per prompt id common
    to the two result sets, so their number is the size of the intersection
    of the two id sets and at most the length of either input, and the
    comparisons come in strictly increasing lexicographic order of id. *)
Theorem one_comparison_per_common_prompt_id
    (openai_results local_results : list Result.t) :
  ∃ out,
    Compare.create_side_by_side_comparison openai_results local_results
      = Py.Return out
    ∧ (∀ id, id ∈ map Comparison.prompt_id out
             ↔ id ∈ Reference.prompt_ids openai_results
                    ∩ Reference.prompt_ids local_results)
    ∧ NoDup (map Comparison.prompt_id out)
    ∧ length out = size (Reference.prompt_ids openai_results
                         ∩ Reference.prompt_ids local_results)
    ∧ (length out ≤ Nat.min (length openai_results) (length local_results))%nat
    ∧ StronglySorted Py.str_lt (map Comparison.prompt_id out).
Proof.
  destruct (create_side_by_side_comparison_Return openai_results local_results)
    as (out & Hout & Hbuilt).
  exists out. split; [done|].
  apply built_for_prompt_id in Hbuilt. rewrite !dom_lookup_table in Hbuilt.
  set (common := Reference.prompt_ids openai_results
                 ∩ Reference.prompt_ids local_results) in *.
  destruct (sorted_elements common) as (Hsorted & Hnd & Hlen & Hin).
  assert (Hsize : length out = size common).
  { by rewrite <- Hlen, <- Hbuilt, length_map. }
  rewrite Hbuilt. repeat split; try done; try apply Hin.
  rewrite Hsize.
  pose proof (size_prompt_ids openai_results).
  pose proof (size_prompt_ids local_results).
  assert (size common ≤ size (Reference.prompt_ids openai_results))%nat
    by (apply subseteq_size; set_solver).
  assert (size common ≤ size (Reference.prompt_ids local_results))%nat
    by (apply subseteq_size; set_solver).
  lia.
Qed.

Lemma built_for_Forall openai_results local_results ids out
    (P : Comparison.t → Prop) :
  Forall2 (built_for openai_results local_results) ids out →
  (∀ id c, built_for openai_results local_results id c → P c) →
  Forall P out.
Proof.
  intros HF HP. induction HF; constructor; eauto.
Qed.

(** Every common id has its comparison in the output. *)
Lemma built_for_each openai_results local_results out (id : string) :
  Forall2 (built_for openai_results local_results)
    (Py.sorted (elements (dom (Compare.lookup_table openai_results)
                          ∩ dom (Compare.lookup_table local_results))))
    out →
  id ∈ Reference.prompt_ids openai_results
       ∩ Reference.prompt_ids local_results →
  ∃ c, c ∈ out ∧ built_for openai_results local_results id c.
Proof.
  intros Hbuilt Hid. rewrite <- !dom_lookup_table in Hid.
  apply (proj2 (proj2 (proj2 (proj2 (sorted_elements _))) id))
    in Hid.
  apply list_elem_of_lookup in Hid as [j Hj].
  destruct (Forall2_lookup_l _ _ _ _ _ Hbuilt Hj) as (c & Hc & Hfor).
  exists c. split; [by eapply list_elem_of_lookup_2|done].
Qed.

(** The metrics of a comparison built for [id] are the reference ones of the
    two records filed under [id]. *)
Lemma built_for_metrics openai_results local_results id c :
  built_for openai_results local_results id c →
  Comparison.prompt_id c = id
  ∧ let m := Comparison.comparison_metrics c in
    ∃ hosted local,
      Compare.lookup_table openai_results !! id = Some hosted
      ∧ Compare.lookup_table local_results !! id = Some local
      ∧ hosted ∈ openai_results ∧ local ∈ local_results
      ∧ (Metrics.latency_ratio m == Reference.latency_ratio hosted local)%Q
      ∧ Metrics.length_ratio m = Reference.length_ratio hosted local
      ∧ Metrics.cost_savings m = Reference.cost_savings hosted
      ∧ Metrics.both_successful m = Reference.both_successful hosted local
      ∧ (Metrics.both_successful m = true
         ↔ Result.error hosted ≠ Some true ∧ Result.error local ≠ Some true).
Proof.
  intros (hr & lr & Hh & Hl & Hc). cbv zeta.
  destruct (compare_pair_Return id hr lr)
    as (c' & Hc' & Hid & _ & Hlat & Hlen & Hcost & Hboth).
  rewrite Hc in Hc'. injection Hc' as <-.
  split; [done|].
  exists hr, lr. rewrite Hlat, Hlen, Hcost, Hboth.
  apply lookup_table_Some in Hh as Hh'. apply lookup_table_Some in Hl as Hl'.
  destruct Hh' as [Hh' _], Hl' as [Hl' _].
  do 4 (split; [done|]).
  split; [unfold Reference.latency_ratio; by rewrite py_max_Qmax|].
  do 3 (split; [done|]).
  unfold Reference.both_successful, Reference.failed.
  destruct (Result.error hr) as [[]|], (Result.error lr) as [[]|]; simpl;
    (split; [try done; by split|try done; by intros [? ?]]).
Qed.

(** C2: for every prompt id the two result sets share, the comparator
    returns a comparison built from the hosted and the local record filed
    under that id, and its metrics are the reference ones: the latency ratio
    and the length ratio with their clamped divisors, the hosted cost (0 when
    absent), and success exactly when neither record has [error] set to
    true.  The output holds no other comparison. *)
Theorem comparison_metrics_reference
    (openai_results local_results : list Result.t) :
  ∃ out,
    Compare.create_side_by_side_comparison openai_results local_results
      = Py.Return out
    ∧ (∀ id,
         id ∈ Reference.prompt_ids openai_results
              ∩ Reference.prompt_ids local_results →
         ∃ c, c ∈ out
           ∧ Comparison.prompt_id c = id
           ∧ let m := Comparison.comparison_metrics c in
             ∃ hosted local,
               Compare.lookup_table openai_results !! id = Some hosted
               ∧ Compare.lookup_table local_results !! id = Some local
               ∧ hosted ∈ openai_results ∧ local ∈ local_results
               ∧ (Metrics.latency_ratio m
                  == Reference.latency_ratio hosted local)%Q
               ∧ Metrics.length_ratio m = Reference.length_ratio hosted local
               ∧ Metrics.cost_savings m = Reference.cost_savings hosted
               ∧ Metrics.both_successful m
                 = Reference.both_successful hosted local
               ∧ (Metrics.both_successful m = true
                  ↔ Result.error hosted ≠ Some true
                    ∧ Result.error local ≠ Some true))
    ∧ Forall (λ c,
        let m := Comparison.comparison_metrics c in
        ∃ hosted local,
          Compare.lookup_table openai_results !! Comparison.prompt_id c
            = Some hosted
          ∧ Compare.lookup_table local_results !! Comparison.prompt_id c
            = Some local
          ∧ hosted ∈ openai_results ∧ local ∈ local_results
          ∧ (Metrics.latency_ratio m
             == Reference.latency_ratio hosted local)%Q
          ∧ Metrics.length_ratio m = Reference.length_ratio hosted local
          ∧ Metrics.cost_savings m = Reference.cost_savings hosted
          ∧ Metrics.both_successful m
            = Reference.both_successful hosted local
          ∧ (Metrics.both_successful m = true
             ↔ Result.error hosted ≠ Some true
               ∧ Result.error local ≠ Some true)) out.
Proof.
  destruct (create_side_by_side_comparison_Return openai_results local_results)
    as (out & Hout & Hbuilt).
  exists out. split; [done|]. split.
  - intros id Hid.
    destruct (built_for_each _ _ _ _ Hbuilt Hid) as (c & Hc & Hfor).
    apply built_for_metrics in Hfor as [Hcid Hm].
    exists c. by repeat split.
  - apply (built_for_Forall _ _ _ _ _ Hbuilt).
    intros id c Hfor. apply built_for_metrics in Hfor as [-> Hm]. exact Hm.
Qed.

(** ** The analysis aggregator *)

Lemma bind_Return_l {A B} (a : A) (f : A → Py.outcome B) :
  Py.Return a ≫= f = f a.
Proof. reflexivity. Qed.

Section category_totals.
Import Compare.
Implicit Types (d : list (string * CategoryStats.t)) (c : Comparison.t).

Lemma add_to_category_counted k c d :
  counted d → counted (add_to_category k c d).
Proof.
  unfold counted. induction 1 as [|[k' s] d Hs Hd IH]; simpl.
  - constructor; [simpl; lia|constructor].
  - case_decide; constructor; simpl in *; try done. lia.
Qed.

Lemma add_to_category_keys k c d k' :
  k' ∈ (add_to_category k c d).*1 ↔ k' = k ∨ k' ∈ d.*1.
Proof.
  induction d as [|[k0 s] d IH]; simpl.
  - set_solver.
  - case_decide; simpl; set_solver.
Qed.

Lemma foldl_add_counted l d :
  counted d →
  counted (foldl (λ d c, add_to_category (Comparison.category c) c d) d l).
Proof.
  revert d. induction l as [|c l IH]; intros d Hd; simpl; [done|].
  by apply IH, add_to_category_counted.
Qed.

Lemma foldl_add_keys l d k :
  k ∈ (foldl (λ d c, add_to_category (Comparison.category c) c d) d l).*1
  ↔ k ∈ d.*1 ∨ ∃ c, c ∈ l ∧ Comparison.category c = k.
Proof.
  revert d. induction l as [|c l IH]; intros d; simpl.
  - set_solver.
  - rewrite IH, add_to_category_keys. set_solver.
Qed.

Lemma category_totals_counted l : counted (category_totals l).
Proof. apply foldl_add_counted. constructor. Qed.

(** The groups are the categories of the comparisons accumulated. *)
Lemma category_totals_keys l k :
  k ∈ (category_totals l).*1 ↔ ∃ c, c ∈ l ∧ Comparison.category c = k.
Proof. unfold category_totals. rewrite foldl_add_keys. set_solver. Qed.

(** Dividing by the count of a counted entry does not raise, and keeps the
    key and the count. *)
Lemma average_Return e :
  (1 ≤ CategoryStats.count e.2)%Z →
  ∃ e', average e = Py.Return e' ∧ e'.1 = e.1
        ∧ CategoryStats.count e'.2 = CategoryStats.count e.2.
Proof.
  intros He. unfold average.
  rewrite !true_div_Return by (apply inject_Z_nonzero; lia).
  by eexists.
Qed.

Lemma mapM_average d :
  counted d →
  ∃ d', mapM average d = Py.Return d' ∧ d'.*1 = d.*1 ∧ counted d'.
Proof.
  intros Hd.
  destruct (mapM_total average
              (λ e e', e'.1 = e.1
                       ∧ CategoryStats.count e'.2 = CategoryStats.count e.2) d)
    as (d' & Hd' & HF).
  { intros e He. apply average_Return.
    unfold counted in Hd. rewrite Forall_forall in Hd. by apply Hd. }
  exists d'. split; [done|]. clear Hd'.
  unfold counted in *.
  induction HF as [|e e' d d' [Hk Hc] _ IH]; [done|].
  apply Forall_cons in Hd as [He Hd]. destruct (IH Hd) as [IH1 IH2].
  split; [rewrite !fmap_cons; by rewrite Hk, IH1|].
  constructor; [by rewrite Hc|done].
Qed.
End category_totals.

Lemma len_cons_nonzero {A} (a : A) (l : list A) :
  ¬ (inject_Z (Py.len (a :: l)) == 0)%Q.
Proof. apply inject_Z_nonzero. unfold Py.len. simpl. lia. Qed.

(** With no successful comparison the aggregator returns an error object. *)
Lemma generate_performance_analysis_error (comparisons : list Comparison.t) :
  Compare.successful comparisons = [] →
  ∃ msg, Compare.generate_performance_analysis comparisons
         = Py.Return (AnalysisError msg).
Proof.
  intros Hs. unfold Compare.generate_performance_analysis.
  destruct comparisons as [|c comparisons]; [by eexists|].
  rewrite Hs. by eexists.
Qed.

(** With a successful comparison the aggregator returns the analysis: no
    division raises. *)
Lemma generate_performance_analysis_Return (comparisons : list Comparison.t) :
  Compare.successful comparisons ≠ [] →
  ∃ overview summary breakdown,
    Compare.generate_performance_analysis comparisons
      = Py.Return (Analysis overview summary breakdown)
    ∧ Overview.total_comparisons overview = Py.len comparisons
    ∧ Overview.successful_comparisons overview
      = Py.len (Compare.successful comparisons)
    ∧ Overview.success_rate overview
      = Py.round (inject_Z (Py.len (Compare.successful comparisons))
                  / inject_Z (Py.len comparisons) * 100) 1
    ∧ breakdown.*1
      = (Compare.category_totals (Compare.successful comparisons)).*1
    ∧ counted breakdown.
Proof.
  intros Hs. unfold Compare.generate_performance_analysis.
  destruct comparisons as [|c0 comparisons]; [done|].
  destruct (Compare.successful (c0 :: comparisons)) as [|s0 ss] eqn:Hss;
    [done|].
  destruct (mapM_average (Compare.category_totals (s0 :: ss)))
    as (d' & Hd' & Hkeys & Hcounted); [apply category_totals_counted|].
  eexists _, _, _. split.
  - cbv zeta.
    rewrite (true_div_Return _ (inject_Z (Py.len (c0 :: comparisons))))
      by apply len_cons_nonzero.
    rewrite (bind_Return_l (A:=Q)); cbv beta.
    rewrite (true_div_Return
               (Py.sum (map (λ c, Metrics.latency_ratio
                                    (Comparison.comparison_metrics c)) _)))
      by apply len_cons_nonzero.
    rewrite (bind_Return_l (A:=Q)); cbv beta.
    rewrite (true_div_Return
               (Py.sum (map (λ c, Metrics.length_ratio
                                    (Comparison.comparison_metrics c)) _)))
      by apply len_cons_nonzero.
    rewrite (bind_Return_l (A:=Q)); cbv beta.
    rewrite Hd', (bind_Return_l (A:=list (string * CategoryStats.t))); cbv beta.
    reflexivity.
  - by simpl.
Qed.

(** ** Rounding *)

Section rounding.
Implicit Types (x : Q) (n : Z).

Lemma round_half_even_cases x :
  let f := Qfloor x in
  Py.round_half_even x = f ∧ (x - inject_Z f <= 1 # 2)%Q
  ∨ Py.round_half_even x = (f + 1)%Z ∧ (1 # 2 <= x - inject_Z f)%Q.
Proof.
  simpl. unfold Py.round_half_even.
  destruct (x - inject_Z (Qfloor x) ?= 1 # 2)%Q eqn:E.
  - apply Qeq_alt in E.
    destruct (Z.even (Qfloor x)); [left|right]; split; try done;
      rewrite E; apply Qle_refl.
  - apply Qlt_alt in E. left. split; [done|]. by apply Qlt_le_weak.
  - apply Qgt_alt in E. right. split; [done|]. by apply Qlt_le_weak.
Qed.

(** The rounded value is within a half of the argument. *)
Lemma round_half_even_close x :
  (Qabs (inject_Z (Py.round_half_even x) - x) <= 1 # 2)%Q.
Proof.
  pose proof (Qfloor_le x) as Hlo. pose proof (Qlt_floor x) as Hhi.
  rewrite inject_Z_plus in Hhi.
  apply Qabs_Qle_condition.
  destruct (round_half_even_cases x) as [[-> H]|[-> H]];
    rewrite ?inject_Z_plus; change (inject_Z 1) with 1%Q in *; split; lra.
Qed.

Lemma round_half_even_nonneg x : (0 <= x)%Q → (0 ≤ Py.round_half_even x)%Z.
Proof.
  intros Hx.
  assert (0 ≤ Qfloor x)%Z by (rewrite <- (Qfloor_Z 0); by apply Qfloor_resp_le).
  destruct (round_half_even_cases x) as [[-> _]|[-> _]]; lia.
Qed.

Lemma round_half_even_le_int x n :
  (x <= inject_Z n)%Q → (Py.round_half_even x ≤ n)%Z.
Proof.
  intros Hx.
  assert (Hf : (Qfloor x ≤ n)%Z)
    by (rewrite <- (Qfloor_Z n); by apply Qfloor_resp_le).
  destruct (round_half_even_cases x) as [[-> _]|[-> Hhalf]]; [done|].
  destruct (decide (Qfloor x = n)) as [Heq|?]; [|lia].
  rewrite Heq in Hhalf. exfalso. clear Heq Hf. lra.
Qed.

Lemma round_half_even_pos x : (1 # 2 < x)%Q → (1 ≤ Py.round_half_even x)%Z.
Proof.
  intros Hx.
  assert (Hf : (0 ≤ Qfloor x)%Z).
  { rewrite <- (Qfloor_Z 0). apply Qfloor_resp_le.
    change (inject_Z 0) with 0%Q. lra. }
  destruct (round_half_even_cases x) as [[-> Hhalf]|[-> _]]; [|lia].
  destruct (decide (Qfloor x = 0%Z)) as [Heq|?]; [|lia].
  rewrite Heq in Hhalf. change (inject_Z 0) with 0%Q in Hhalf.
  exfalso. clear Heq Hf. lra.
Qed.

(** [round(x, 1)] is a number of tenths. *)
Lemma round_1_tenths x :
  (Py.round x 1 == inject_Z (Py.round_half_even (x * 10)) / 10)%Q.
Proof.
  unfold Py.round. change (Py.pow10 1) with 10%positive.
  change (inject_Z (Z.pos 10)) with 10%Q.
  by rewrite Qmake_Qdiv.
Qed.

Lemma round_1_close x : (Qabs (Py.round x 1 - x) <= 1 # 20)%Q.
Proof.
  rewrite round_1_tenths. unfold Qdiv. change (/ 10)%Q with (1 # 10)%Q.
  pose proof (round_half_even_close (x * 10)) as H.
  apply Qabs_Qle_condition in H as [H1 H2].
  apply Qabs_Qle_condition. split; lra.
Qed.
End rounding.

(** The percentage of [s] successes out of [t] comparisons, as reported. *)
Lemma success_rate_bounds (s t : Z) :
  (1 ≤ s)%Z → (s ≤ t)%Z →
  let rate := Py.round (inject_Z s / inject_Z t * 100) 1 in
  (0 <= rate)%Q ∧ (rate <= 100)%Q
  ∧ (Qabs (rate - 100 * (inject_Z s / inject_Z t)) <= 1 # 20)%Q
  ∧ ((t < 2000 * s)%Z → (0 < rate)%Q).
Proof.
  intros Hs Hst. cbv zeta.
  set (q := (inject_Z s / inject_Z t)%Q).
  assert (Ht : (0 < inject_Z t)%Q) by (rewrite <- (Zlt_Qlt 0); lia).
  assert (Hq0 : (0 < q)%Q).
  { apply Qlt_shift_div_l; [done|]. rewrite Qmult_0_l, <- (Zlt_Qlt 0). lia. }
  assert (Hq1 : (q <= 1)%Q).
  { apply Qle_shift_div_r; [done|]. rewrite Qmult_1_l, <- Zle_Qle. lia. }
  pose proof (round_1_tenths (q * 100)) as Hr.
  unfold Qdiv in Hr. change (/ 10)%Q with (1 # 10)%Q in Hr.
  assert (H0 : (0 ≤ Py.round_half_even (q * 100 * 10))%Z)
    by (apply round_half_even_nonneg; lra).
  assert (H1 : (Py.round_half_even (q * 100 * 10) ≤ 1000)%Z)
    by (apply round_half_even_le_int; change (inject_Z 1000) with 1000%Q; lra).
  rewrite Zle_Qle in H0, H1.
  change (inject_Z 0) with 0%Q in H0. change (inject_Z 1000) with 1000%Q in H1.
  split; [lra|]. split; [lra|]. split.
  - pose proof (round_1_close (q * 100)) as Hc.
    apply Qabs_Qle_condition in Hc as [Hc1 Hc2].
    apply Qabs_Qle_condition. split; lra.
  - intros Hlt.
    assert (Hq : (1 # 2000 < q)%Q).
    { apply Qlt_shift_div_l; [done|].
      assert (inject_Z t < 2000 * inject_Z s)%Q.
      { change 2000%Q with (inject_Z 2000). rewrite <- inject_Z_mult.
        by rewrite <- Zlt_Qlt. }
      lra. }
    assert (H2 : (1 ≤ Py.round_half_even (q * 100 * 10))%Z)
      by (apply round_half_even_pos; lra).
    rewrite Zle_Qle in H2. change (inject_Z 1) with 1%Q in H2. lra.
Qed.

Lemma elem_of_successful (comparisons : list Comparison.t) (c : Comparison.t) :
  c ∈ Compare.successful comparisons
  ↔ Metrics.both_successful (Comparison.comparison_metrics c) = true
    ∧ c ∈ comparisons.
Proof. unfold Compare.successful. by rewrite list_elem_of_filter. Qed.

Lemma len_successful_le (comparisons : list Comparison.t) :
  (Py.len (Compare.successful comparisons) ≤ Py.len comparisons)%Z.
Proof.
  unfold Py.len, Compare.successful.
  pose proof (length_filter
    (λ c, Metrics.both_successful (Comparison.comparison_metrics c) = true)
    comparisons). lia.
Qed.

Lemma len_nonempty {A} (l : list A) : l ≠ [] → (1 ≤ Py.len l)%Z.
Proof. unfold Py.len. destruct l; [done|]. simpl. lia. Qed.

(** C3: on an empty list, and on a list none of whose records has
    [both_successful] true, the aggregator returns an error object carrying a
    message, and does not raise. *)
Theorem no_successful_comparison_is_reported
    (comparisons : list Comparison.t) :
  comparisons = []
  ∨ Forall (λ c, Metrics.both_successful (Comparison.comparison_metrics c)
                 = false) comparisons →
  ∃ msg,
    Compare.generate_performance_analysis comparisons
      = Py.Return (AnalysisError msg)
    ∧ (msg = "No comparisons available"
       ∨ msg = "No successful comparisons available").
Proof.
  intros [->|Hall].
  - exists "No comparisons available". by split; [|left].
  - assert (Hs : Compare.successful comparisons = []).
    { destruct (Compare.successful comparisons) as [|c l] eqn:E; [done|].
      assert (Hc : c ∈ Compare.successful comparisons) by (rewrite E; by left).
      apply elem_of_successful in Hc as [Hok Hc].
      rewrite Forall_forall in Hall. rewrite (Hall c Hc) in Hok. done. }
    unfold Compare.generate_performance_analysis.
    destruct comparisons as [|c comparisons].
    + exists "No comparisons available". by split; [|left].
    + rewrite Hs. exists "No successful comparisons available".
      by split; [|right].
Qed.

Lemma no_successful_comparison_is_reported_witness :
  ∃ msg,
    Compare.generate_performance_analysis (sample_comparisons 2 0)
      = Py.Return (AnalysisError msg)
    ∧ (msg = "No comparisons available"
       ∨ msg = "No successful comparisons available").
Proof.
  apply (no_successful_comparison_is_reported (sample_comparisons 2 0)).
  right. vm_compute. repeat constructor.
Defined.

(** C8, as stated, fails: two runs over 2400 prompts of which the local model
    answers one give an analysis, not an error object, whose [success_rate]
    is 0.0. *)
Lemma success_rate_zero_with_a_success :
  reported_success_rate (compare_runs 2400 1) = Some (0 # 10)%Q.
Proof. vm_compute. reflexivity. Qed.

(** C8 (amended): with no successful comparison the aggregator returns an
    error object; otherwise it returns an analysis whose [success_rate] is
    [100 * successful_count / total_count] rounded to one decimal place: a
    number of tenths within 0.05 of the exact percentage, in [0, 100], and
    strictly positive whenever [total_count < 2000 * successful_count]. *)
Theorem success_rate_spec (comparisons : list Comparison.t) :
  let s := Py.len (Compare.successful comparisons) in
  let t := Py.len comparisons in
  (Compare.successful comparisons = []
   ∧ ∃ msg, Compare.generate_performance_analysis comparisons
            = Py.Return (AnalysisError msg))
  ∨ (Compare.successful comparisons ≠ []
     ∧ ∃ overview summary breakdown,
         Compare.generate_performance_analysis comparisons
           = Py.Return (Analysis overview summary breakdown)
         ∧ (∃ k : Z, (Overview.success_rate overview == inject_Z k / 10)%Q)
         ∧ (Qabs (Overview.success_rate overview
                  - 100 * (inject_Z s / inject_Z t)) <= 1 # 20)%Q
         ∧ (0 <= Overview.success_rate overview)%Q
         ∧ (Overview.success_rate overview <= 100)%Q
         ∧ ((t < 2000 * s)%Z → (0 < Overview.success_rate overview)%Q)).
Proof.
  cbv zeta.
  destruct (decide (Compare.successful comparisons = [])) as [Hs|Hs].
  - left. split; [done|]. by apply generate_performance_analysis_error.
  - right. split; [done|].
    destruct (generate_performance_analysis_Return comparisons Hs)
      as (ov & sm & cb & Hret & _ & _ & Hrate & _).
    exists ov, sm, cb. split; [done|]. rewrite Hrate.
    destruct (success_rate_bounds (Py.len (Compare.successful comparisons))
                (Py.len comparisons))
      as (H0 & H100 & Hclose & Hpos);
      [by apply len_nonempty|apply len_successful_le|].
    split; [eexists; apply round_1_tenths|]. done.
Qed.

(** C10, as stated, fails in its last part: two runs over 2001 prompts of
    which the local model answers one give a non-error analysis whose
    [success_rate] is 0.0. *)
Lemma returned_success_rate_can_be_zero :
  reported_success_rate (compare_runs 2001 1) = Some (0 # 10)%Q.
Proof. vm_compute. reflexivity. Qed.

(** C10 (amended): the aggregator never raises.  When it returns an analysis,
    every divisor it used is at least 1: the total count, the size of the
    successful subset (so the unrounded success ratio is strictly positive),
    and the count of every category; the reported, rounded [success_rate] is
    then at least 0.  An error object is returned only when no comparison is
    successful. *)
Theorem analysis_divisors_positive (comparisons : list Comparison.t) :
  ∃ a,
    Compare.generate_performance_analysis comparisons = Py.Return a
    ∧ match a with
      | AnalysisError _ => Compare.successful comparisons = []
      | Analysis overview _ breakdown =>
          Overview.total_comparisons overview = Py.len comparisons
          ∧ Overview.successful_comparisons overview
            = Py.len (Compare.successful comparisons)
          ∧ (1 ≤ Overview.successful_comparisons overview)%Z
          ∧ (Overview.successful_comparisons overview
             ≤ Overview.total_comparisons overview)%Z
          ∧ Forall (λ e, (1 ≤ CategoryStats.count e.2)%Z) breakdown
          ∧ (0 < inject_Z (Overview.successful_comparisons overview)
                 / inject_Z (Overview.total_comparisons overview))%Q
          ∧ (0 <= Overview.success_rate overview)%Q
      end.
Proof.
  destruct (decide (Compare.successful comparisons = [])) as [Hs|Hs].
  - destruct (generate_performance_analysis_error comparisons Hs) as [msg Hm].
    by exists (AnalysisError msg).
  - destruct (generate_performance_analysis_Return comparisons Hs)
      as (ov & sm & cb & Hret & Htotal & Hsucc & Hrate & _ & Hcounted).
    exists (Analysis ov sm cb). split; [done|].
    pose proof (len_nonempty _ Hs) as H1.
    pose proof (len_successful_le comparisons) as H2.
    rewrite Htotal, Hsucc, Hrate.
    destruct (success_rate_bounds (Py.len (Compare.successful comparisons))
                (Py.len comparisons)) as (H0 & _); [done|done|].
    do 5 (split; [done|]). split; [|done].
    apply Qlt_shift_div_l.
    + rewrite <- (Zlt_Qlt 0). lia.
    + rewrite Qmult_0_l, <- (Zlt_Qlt 0). lia.
Qed.

(** ** The category of a comparison *)

Lemma built_for_category openai_results local_results ids out :
  Forall2 (built_for openai_results local_results) ids out →
  map Comparison.category out = map (hosted_category openai_results) ids.
Proof.
  induction 1 as [|id c ids out (hr & lr & Hh & _ & Hc) _ IH]; simpl; [done|].
  destruct (compare_pair_Return id hr lr) as (c' & Hc' & _ & Hcat & _).
  rewrite Hc in Hc'. injection Hc' as <-.
  rewrite IH, Hcat. unfold hosted_category. rewrite Hh.
  by destruct (Result.category hr).
Qed.

Lemma prompt_ids_with_category (relabel : Result.t → option string)
    (results : list Result.t) :
  Reference.prompt_ids
    (map (λ r, Result.with_category (relabel r) r) results)
  = Reference.prompt_ids results.
Proof.
  unfold Reference.prompt_ids. f_equal.
  induction results as [|r results IH]; simpl; [done|]. by rewrite IH.
Qed.

(** The groups of the per-category breakdown are the categories of the
    successful comparisons. *)
Lemma breakdown_groups (comparisons : list Comparison.t) overview summary
    breakdown (k : string) :
  Compare.generate_performance_analysis comparisons
    = Py.Return (Analysis overview summary breakdown) →
  k ∈ breakdown.*1
  ↔ ∃ c, c ∈ comparisons
         ∧ Metrics.both_successful (Comparison.comparison_metrics c) = true
         ∧ Comparison.category c = k.
Proof.
  intros Hret.
  destruct (decide (Compare.successful comparisons = [])) as [Hs|Hs].
  { destruct (generate_performance_analysis_error comparisons Hs) as [msg Hm].
    congruence. }
  destruct (generate_performance_analysis_Return comparisons Hs)
    as (ov & sm & cb & Hret' & _ & _ & _ & Hkeys & _).
  rewrite Hret in Hret'. injection Hret' as -> -> ->.
  rewrite Hkeys, category_totals_keys.
  split.
  - intros (c & [Hok Hc]%elem_of_successful & Hk). eauto.
  - intros (c & Hc & Hok & Hk). exists c. split; [|done].
    by apply elem_of_successful.
Qed.

(** C9: for every prompt id the two result sets share, the output holds a
    comparison for that id whose category is the one of the hosted record
    filed under the id, and ["unknown"] when that record has none; every
    comparison of the output is such a one; replacing or removing the
    categories of the local records changes no comparison's category; and the
    per-category breakdown groups the successful comparisons by that
    category. *)
Theorem category_taken_from_hosted
    (openai_results local_results : list Result.t) :
  ∃ out,
    Compare.create_side_by_side_comparison openai_results local_results
      = Py.Return out
    ∧ (∀ id,
         id ∈ Reference.prompt_ids openai_results
              ∩ Reference.prompt_ids local_results →
         ∃ c hosted,
           c ∈ out
           ∧ Comparison.prompt_id c = id
           ∧ Compare.lookup_table openai_results !! id = Some hosted
           ∧ hosted ∈ openai_results
           ∧ Comparison.category c
             = match Result.category hosted with
               | Some k => k
               | None => "unknown"
               end)
    ∧ Forall (λ c,
        ∃ hosted,
          Compare.lookup_table openai_results !! Comparison.prompt_id c
            = Some hosted
          ∧ hosted ∈ openai_results
          ∧ Comparison.category c
            = match Result.category hosted with
              | Some k => k
              | None => "unknown"
              end) out
    ∧ (∀ relabel : Result.t → option string,
         ∃ out',
           Compare.create_side_by_side_comparison openai_results
             (map (λ r, Result.with_category (relabel r) r) local_results)
             = Py.Return out'
           ∧ map Comparison.prompt_id out' = map Comparison.prompt_id out
           ∧ map Comparison.category out' = map Comparison.category out)
    ∧ (∀ overview summary breakdown,
         Compare.generate_performance_analysis out
           = Py.Return (Analysis overview summary breakdown) →
         ∀ k, k ∈ breakdown.*1
              ↔ ∃ c, c ∈ out
                     ∧ Metrics.both_successful
                         (Comparison.comparison_metrics c) = true
                     ∧ Comparison.category c = k).
Proof.
  destruct (create_side_by_side_comparison_Return openai_results local_results)
    as (out & Hout & Hbuilt).
  assert (Hcat : ∀ id c,
    built_for openai_results local_results id c →
    Comparison.prompt_id c = id
    ∧ ∃ hosted,
        Compare.lookup_table openai_results !! id = Some hosted
        ∧ hosted ∈ openai_results
        ∧ Comparison.category c
          = match Result.category hosted with
            | Some k => k
            | None => "unknown"
            end).
  { intros id c (hr & lr & Hh & Hl & Hc).
    destruct (compare_pair_Return id hr lr) as (c' & Hc' & Hid & Hcat & _).
    rewrite Hc in Hc'. injection Hc' as <-.
    split; [done|]. exists hr. rewrite Hcat.
    split; [done|]. split; [by apply lookup_table_Some in Hh as [? _]|].
    by destruct (Result.category hr). }
  exists out. split; [done|]. split; [|split; [|split]].
  - intros id Hid.
    destruct (built_for_each _ _ _ _ Hbuilt Hid) as (c & Hc & Hfor).
    apply Hcat in Hfor as (Hcid & hosted & Hh & Hin & Hk).
    by exists c, hosted.
  - apply (built_for_Forall _ _ _ _ _ Hbuilt).
    intros id c Hfor. apply Hcat in Hfor as (-> & Hh). exact Hh.
  - intros relabel.
    destruct (create_side_by_side_comparison_Return openai_results
                (map (λ r, Result.with_category (relabel r) r) local_results))
      as (out' & Hout' & Hbuilt').
    exists out'. split; [done|].
    rewrite !dom_lookup_table, prompt_ids_with_category in Hbuilt'.
    rewrite !dom_lookup_table in Hbuilt.
    rewrite (built_for_prompt_id _ _ _ _ Hbuilt'),
            (built_for_prompt_id _ _ _ _ Hbuilt),
            (built_for_category _ _ _ _ Hbuilt'),
            (built_for_category _ _ _ _ Hbuilt).
    done.
  - intros ov sm cb Hret k. by eapply breakdown_groups.
Qed.

(** ** The category runners *)

Lemma run_openai_snoc env client prompts p category w :
  RunOpenAI.run_prompt_category env client (prompts ++ [p]) category w
  = RunOpenAI.process_prompt env client category
      (RunOpenAI.run_prompt_category env client prompts category w) p.
Proof. unfold RunOpenAI.run_prompt_category. by rewrite foldl_app. Qed.

(** The two runners run the same loop. *)
Lemma run_local_as_openai env client prompts category w :
  RunLocal.run_prompt_category env client prompts category w
  = RunOpenAI.run_prompt_category env
      {| RunOpenAI.api_key := ""; RunOpenAI.model := RunLocal.model_name client |}
      prompts category w.
Proof. reflexivity. Qed.

(** C7: a reply with status 200 whose message has ["content": null] is not a
    failure for [send_prompt], which reports a success with the response
    [None]; formatting that response raises [TypeError], which the category
    runner does not catch.  On three prompts whose second request gets such
    a reply, the hosted and the local runner raise after two requests and
    return no record at all, instead of one record per prompt. *)
Theorem null_content_aborts_the_category :
  null_content
    (MainOpenAI.send_prompt
       {| RunOpenAI.api_key := "sk-test"; RunOpenAI.model := "gpt-4" |}
       (silent_network 1) 1 "Question 1" 1000) = true
  ∧ null_content
      (MainLocal.send_prompt
         (MainLocal.LocalLMClient_init "http://127.0.0.1:1234" "gpt-oss-20b")
         (silent_network 1) 1 "Question 1" 1000) = true
  ∧ (∃ w,
       RunOpenAI.run_prompt_category
         (MainOpenAI.environment_of
            {| RunOpenAI.api_key := "sk-test"; RunOpenAI.model := "gpt-4" |}
            (silent_network 1) sample_now)
         {| RunOpenAI.api_key := "sk-test"; RunOpenAI.model := "gpt-4" |}
         (sample_prompts 3) "reasoning" initial_world
       = (Py.Raise (Py.TypeError "object of type 'NoneType' has no len()"), w)
       ∧ requests w = 2%nat ∧ error_log w = "")
  ∧ (∃ w,
       RunLocal.run_prompt_category
         (MainLocal.environment_of
            (MainLocal.LocalLMClient_init "http://127.0.0.1:1234"
               "gpt-oss-20b")
            (silent_network 1) sample_now)
         (MainLocal.LocalLMClient_init "http://127.0.0.1:1234" "gpt-oss-20b")
         (sample_prompts 3) "reasoning" initial_world
       = (Py.Raise (Py.TypeError "object of type 'NoneType' has no len()"), w)
       ∧ requests w = 2%nat ∧ error_log w = "").
Proof.
  split; [by vm_compute|]. split; [by vm_compute|].
  split; eexists; (split; [vm_compute; reflexivity|]); by vm_compute.
Qed.

(** ** Worked examples *)

Example scenario_one_pair :
  metrics_of
    (Compare.create_side_by_side_comparison scenario_hosted scenario_local)
  = Some [ {| Metrics.latency_ratio := (4 # 2)%Q;
              Metrics.length_ratio := (50 # 100)%Q;
              Metrics.cost_savings := (5 # 100)%Q;
              Metrics.both_successful := true |} ].
Proof. vm_compute. reflexivity. Qed.

Example scenario_disjoint_ids :
  Compare.create_side_by_side_comparison scenario_hosted
    [stored_result "p2" "gpt-oss-20b" 4 50 None None]
  = Py.Return []
  ∧ Compare.generate_performance_analysis []
    = Py.Return (AnalysisError "No comparisons available").
Proof. split; vm_compute; reflexivity. Qed.

Example scenario_last_write_wins :
  metrics_of
    (Compare.create_side_by_side_comparison
       (stored_result "p1" "gpt-4" 1 10 None None :: scenario_hosted)
       scenario_local)
  = metrics_of
      (Compare.create_side_by_side_comparison scenario_hosted scenario_local).
Proof. vm_compute. reflexivity. Qed.

Example sorted_by_code_point :
  Py.sorted ["p2"; "p10"; "a"; "P1"] = ["P1"; "a"; "p10"; "p2"].
Proof. vm_compute. reflexivity. Qed.

Example split_runs_of_whitespace :
  Py.split "  ERROR:  Read timed out. " = ["ERROR:"; "Read"; "timed"; "out."].
Proof. reflexivity. Qed.

Example round_ties_to_even :
  Py.round (25 # 100) 1 = (2 # 10)%Q ∧ Py.round (35 # 100) 1 = (4 # 10)%Q.
Proof. split; reflexivity. Qed.

Example format_fixed_four_digits :
  Py.format_fixed (108 # 100000) 4 = "0.0011"
  ∧ Py.format_fixed (-123456 # 100000) 4 = "-1.2346".
Proof. split; vm_compute; reflexivity. Qed.

Example unknown_model_costs_as_gpt_4 :
  Utils.calculate_tokens_cost 1000 1000 "gpt-5"
  = Utils.calculate_tokens_cost 1000 1000 "gpt-4".
Proof. reflexivity. Qed.

Example error_log_line :
  Utils.log_error "2024-05-01T13:00:00" "Failed to process prompt p1: boom"
    (Some "p1") ""
  = "[2024-05-01T13:00:00] Error (Prompt: p1): Failed to process prompt p1: boom"
    +:+ String (Ascii.ascii_of_nat 10) "".
Proof. reflexivity. Qed.

(** * Further properties of the scripts *)

(** ** Rounding to any number of digits *)

Section rounding_digits.
Implicit Types (x y : Q) (n k : Z) (d : nat).

Lemma pow10_value d : Zpos (Py.pow10 d) = (10 ^ Z.of_nat d)%Z.
Proof.
  unfold Py.pow10. rewrite Z2Pos.id; [done|].
  apply Z.pow_pos_nonneg; lia.
Qed.

Lemma round_half_even_Qeq x y :
  (x == y)%Q → Py.round_half_even x = Py.round_half_even y.
Proof.
  intros E. unfold Py.round_half_even.
  rewrite (Qfloor_comp x y E).
  assert (Hc : (x - inject_Z (Qfloor y) ?= 1 # 2)%Q
               = (y - inject_Z (Qfloor y) ?= 1 # 2)%Q) by (by rewrite E).
  by rewrite Hc.
Qed.

(** An integer is its own rounding. *)
Lemma round_half_even_int n : Py.round_half_even (inject_Z n) = n.
Proof.
  unfold Py.round_half_even. rewrite Qfloor_Z.
  destruct (Qcompare_spec (inject_Z n - inject_Z n) (1 # 2)) as [H|H|H];
    [exfalso; lra|done|exfalso; lra].
Qed.

Lemma round_half_even_ge_int x n :
  (inject_Z n <= x)%Q → (n ≤ Py.round_half_even x)%Z.
Proof.
  intros Hx.
  assert (Hf : (n ≤ Qfloor x)%Z)
    by (rewrite <- (Qfloor_Z n); by apply Qfloor_resp_le).
  destruct (round_half_even_cases x) as [[-> _]|[-> _]]; lia.
Qed.

Lemma Qmake_scaled k (p : positive) :
  ((k # p) * inject_Z (Zpos p) == inject_Z k)%Q.
Proof. unfold Qeq, Qmult, inject_Z. simpl. rewrite Pos.mul_1_r. ring. Qed.

Lemma half_unit_scaled (p : positive) :
  ((1 # 2 * p) * inject_Z (Zpos p) == 1 # 2)%Q.
Proof. unfold Qeq, Qmult, inject_Z. simpl. rewrite Pos.mul_1_r. lia. Qed.

Lemma pow10_Q_pos d : (0 < inject_Z (Zpos (Py.pow10 d)))%Q.
Proof. by rewrite <- (Zlt_Qlt 0). Qed.

(** Rounding to [d] digits moves a number by at most half a unit of the last
    digit kept. *)
Lemma round_close x d :
  (Qabs (Py.round x d - x) <= 1 # (2 * Py.pow10 d))%Q.
Proof.
  unfold Py.round.
  set (p := Py.pow10 d). set (P := inject_Z (Zpos p)).
  set (k := Py.round_half_even (x * P)).
  pose proof (round_half_even_close (x * P)) as Hk. fold k in Hk.
  apply Qabs_Qle_condition in Hk as [Hk1 Hk2].
  pose proof (Qmake_scaled k p) as E1. pose proof (half_unit_scaled p) as E2.
  pose proof (pow10_Q_pos d) as HP. fold p P in E1, E2, HP.
  apply Qabs_Qle_condition.
  split; apply (Qmult_le_r _ _ P HP); lra.
Qed.

(** Rounding twice is rounding once. *)
Lemma round_idempotent x d : Py.round (Py.round x d) d = Py.round x d.
Proof.
  unfold Py.round at 1 3. f_equal.
  etrans; [|apply round_half_even_int].
  apply round_half_even_Qeq. unfold Py.round. apply Qmake_scaled.
Qed.

Lemma round_le_int x n d : (x <= inject_Z n)%Q → (Py.round x d <= inject_Z n)%Q.
Proof.
  intros Hx. unfold Py.round.
  set (p := Py.pow10 d).
  assert (Hk : (Py.round_half_even (x * inject_Z (Zpos p)) ≤ n * Zpos p)%Z).
  { apply round_half_even_le_int. rewrite inject_Z_mult.
    apply Qmult_le_compat_r; [done|]. by rewrite <- (Zle_Qle 0). }
  unfold Qle. simpl. lia.
Qed.

Lemma round_ge_int x n d : (inject_Z n <= x)%Q → (inject_Z n <= Py.round x d)%Q.
Proof.
  intros Hx. unfold Py.round.
  set (p := Py.pow10 d).
  assert (Hk : (n * Zpos p ≤ Py.round_half_even (x * inject_Z (Zpos p)))%Z).
  { apply round_half_even_ge_int. rewrite inject_Z_mult.
    apply Qmult_le_compat_r; [done|]. by rewrite <- (Zle_Qle 0). }
  unfold Qle. simpl. lia.
Qed.
End rounding_digits.

(** ** More on the cost of a hosted request *)

Lemma calculate_tokens_cost_Return (input_tokens output_tokens : Z)
    (model : string) :
  Utils.calculate_tokens_cost input_tokens output_tokens model
  = Py.Return (Reference.cost input_tokens output_tokens model).
Proof.
  assert (Hdiv : ∀ z, Py.true_div (inject_Z z) 1000
                      = Py.Return (inject_Z z / 1000)%Q)
    by (intros z; by apply true_div_Return).
  unfold Utils.calculate_tokens_cost, Reference.cost, Reference.rates.
  rewrite !Hdiv.
  destruct (Utils.pricing !! model) as [r|] eqn:Hm.
  - rewrite decide_True by (apply pricing_dom; eauto).
    simpl. unfold Py.getitem. by rewrite Hm.
  - assert (Hnot : model ∉ dom Utils.pricing).
    { rewrite pricing_dom, Hm. by intros [? ?]. }
    by rewrite decide_False.
Qed.

(** The price table has three rows. *)
Lemma rates_cases (model : string) :
  Reference.rates model = (5 # 1000, 15 # 1000)%Q
  ∨ Reference.rates model = (1 # 100, 3 # 100)%Q
  ∨ Reference.rates model = (3 # 100, 6 # 100)%Q.
Proof.
  unfold Reference.rates, Utils.pricing.
  rewrite !lookup_insert, lookup_empty.
  repeat case_decide; auto.
Qed.

Lemma cost_unfold (i o : Z) (model : string) :
  (Reference.cost i o model
   == inject_Z i * (1 # 1000) * (Reference.rates model).1
      + inject_Z o * (1 # 1000) * (Reference.rates model).2)%Q.
Proof. unfold Reference.cost, Qdiv. reflexivity. Qed.

(** The cost of a request is never negative and grows with either token
    count. *)
Theorem cost_nonnegative_and_monotone (i i' o o' : Z) (model : string) :
  (0 ≤ i)%Z → (i ≤ i')%Z → (0 ≤ o)%Z → (o ≤ o')%Z →
  ∃ c c',
    Utils.calculate_tokens_cost i o model = Py.Return c
    ∧ Utils.calculate_tokens_cost i' o' model = Py.Return c'
    ∧ (0 <= c)%Q ∧ (c <= c')%Q.
Proof.
  intros Hi Hii Ho Hoo. rewrite !calculate_tokens_cost_Return.
  eexists _, _. split; [done|]. split; [done|].
  rewrite !cost_unfold.
  rewrite Zle_Qle in Hi, Hii, Ho, Hoo.
  change (inject_Z 0) with 0%Q in *.
  destruct (rates_cases model) as [-> | [-> | ->]]; simpl; split; lra.
Qed.

Lemma cost_nonnegative_and_monotone_witness :
  ∃ c c',
    Utils.calculate_tokens_cost 12 3 "gpt-4o" = Py.Return c
    ∧ Utils.calculate_tokens_cost 1200 300 "gpt-4o" = Py.Return c'
    ∧ (0 <= c)%Q ∧ (c <= c')%Q.
Proof.
  apply (cost_nonnegative_and_monotone 12 1200 3 300 "gpt-4o"); lia.
Defined.

(** No model is charged more than the fallback: the rates of gpt-4, which an
    unlisted model gets, are the highest of the table. *)
Theorem fallback_rates_are_the_highest (i o : Z) (model : string) :
  (0 ≤ i)%Z → (0 ≤ o)%Z →
  ∃ c c4,
    Utils.calculate_tokens_cost i o model = Py.Return c
    ∧ Utils.calculate_tokens_cost i o "gpt-4" = Py.Return c4
    ∧ (c <= c4)%Q
    ∧ (Utils.pricing !! model = None → c = c4).
Proof.
  intros Hi Ho. rewrite !calculate_tokens_cost_Return.
  eexists _, _. split; [done|]. split; [done|]. split.
  - rewrite !cost_unfold.
    rewrite Zle_Qle in Hi, Ho. change (inject_Z 0) with 0%Q in *.
    change (Reference.rates "gpt-4") with (3 # 100, 6 # 100)%Q.
    destruct (rates_cases model) as [-> | [-> | ->]]; simpl; lra.
  - intros Hm. unfold Reference.cost, Reference.rates. by rewrite Hm.
Qed.

Lemma fallback_rates_are_the_highest_witness :
  ∃ c c4,
    Utils.calculate_tokens_cost 1000 500 "gpt-4-turbo" = Py.Return c
    ∧ Utils.calculate_tokens_cost 1000 500 "gpt-4" = Py.Return c4
    ∧ (c <= c4)%Q
    ∧ (Utils.pricing !! "gpt-4-turbo" = None → c = c4).
Proof.
  apply (fallback_rates_are_the_highest 1000 500 "gpt-4-turbo"); lia.
Defined.

(** ** The stored latency and cost *)

(** [format_response_data] stores the latency within 0.0005 and the cost
    within 0.0000005 of the values it is given, keeps a non-negative value
    non-negative, and stores values that rounding again does not change. *)
Theorem stored_latency_and_cost_precision
    (now prompt_id response : string) (latency : Q)
    (input_tokens output_tokens : Z) (cost : Q) (model : string) :
  let r := Utils.format_response_data now prompt_id response latency
             input_tokens output_tokens cost model in
  (Qabs (Result.latency_seconds r - latency) <= 1 # 2000)%Q
  ∧ Py.round (Result.latency_seconds r) 3 = Result.latency_seconds r
  ∧ ((0 <= latency)%Q → (0 <= Result.latency_seconds r)%Q)
  ∧ ∃ stored,
      Result.cost_usd r = Some stored
      ∧ (Qabs (stored - cost) <= 1 # 2000000)%Q
      ∧ Py.round stored 6 = stored
      ∧ ((0 <= cost)%Q → (0 <= stored)%Q)
      ∧ ((cost == 0)%Q → (stored == 0)%Q).
Proof.
  simpl. split; [apply (round_close latency 3)|].
  split; [apply round_idempotent|].
  split; [apply (round_ge_int latency 0 3)|].
  eexists. split; [done|].
  split; [apply (round_close cost 6)|].
  split; [apply round_idempotent|].
  split; [apply (round_ge_int cost 0 6)|].
  intros Hc. apply Qle_antisym.
  - apply (round_le_int cost 0 6). rewrite Hc. apply Qle_refl.
  - apply (round_ge_int cost 0 6). rewrite Hc. apply Qle_refl.
Qed.

(** ** More on the category runners *)

Lemma str_app_assoc (a b c : string) : (a +:+ b) +:+ c = a +:+ (b +:+ c).
Proof.
  induction a as [|x a IH]; [done|].
  change (String x ((a +:+ b) +:+ c) = String x (a +:+ (b +:+ c))).
  by rewrite IH.
Qed.

Lemma str_app_nil_r (a : string) : a +:+ "" = a.
Proof.
  induction a as [|x a IH]; [done|].
  change (String x (a +:+ "") = String x a). by rewrite IH.
Qed.

Lemma str_app_eq_nil (a b : string) : a +:+ b = "" → a = "" ∧ b = "".
Proof. by destruct a. Qed.

(** [log_error] appends one non-empty entry and leaves the rest of the log
    as it is. *)
Lemma log_error_appends (now error_msg : string) (prompt_id : option string) :
  ∃ entry, entry ≠ ""
    ∧ ∀ log, Utils.log_error now error_msg prompt_id log = log +:+ entry.
Proof.
  unfold Utils.log_error.
  destruct prompt_id as [[|c id]|]; eexists; (split; [|reflexivity]); done.
Qed.

(** Once an exception has left the loop, the remaining prompts are not
    processed. *)
Lemma process_prompt_raised env client category e w prompts :
  foldl (RunOpenAI.process_prompt env client category) (Py.Raise e, w) prompts
  = (Py.Raise e, w).
Proof. induction prompts as [|p prompts IH]; [done|]. simpl. exact IH. Qed.

Lemma record_for_null now p model category a :
  record_for now p model category a = None ↔ null_content a = true.
Proof. by destruct a as [[text|] ? ? ? ?|? ?]. Qed.

Lemma record_for_Some now p model category a :
  null_content a = false → ∃ r, record_for now p model category a = Some r.
Proof. destruct a as [[text|] ? ? ? ?|? ?]; [by eexists|done|by eexists]. Qed.

(** One pass of the loop: one request, at most one log entry, and one record
    unless the request is a success without text, on which the formatting
    call raises. *)
Lemma process_prompt_step env client category results w p :
  let a := send_prompt env (requests w) (Prompt.content p) in
  let out :=
    RunOpenAI.process_prompt env client category (Py.Return results, w) p in
  requests out.2 = S (requests w)
  ∧ probes out.2 = probes w
  ∧ ∃ now entry,
      entry ≠ ""
      ∧ error_log out.2
        = error_log w +:+ (if succeeded a then "" else entry)
      ∧ out.1
        = match record_for now p (RunOpenAI.model client) category a with
          | Some r => Py.Return (results ++ [r])%list
          | None => Py.Raise no_len
          end.
Proof.
  cbv zeta. unfold RunOpenAI.process_prompt.
  destruct (send_prompt env (requests w) (Prompt.content p))
    as [[response|] latency i o cost|error latency].
  - do 2 (split; [done|]).
    exists (isoformat_now env (clock_reads (after_request w))), "x".
    simpl. by rewrite str_app_nil_r.
  - do 2 (split; [done|]).
    exists (isoformat_now env (clock_reads (after_request w))), "x".
    simpl. by rewrite str_app_nil_r.
  - do 2 (split; [done|]).
    destruct (log_error_appends
                (isoformat_now env (clock_reads (after_request w)))
                ("Failed to process prompt " +:+ Prompt.id p +:+ ": " +:+ error)
                (Some (Prompt.id p))) as (entry & Hentry & Hlog).
    eexists _, entry. simpl. rewrite Hlog. done.
Qed.

Lemma first_null_None env n prompts :
  first_null env n prompts = None
  ↔ ∀ (i : nat) (p : Prompt.t),
      prompts !! i = Some p →
      null_content (send_prompt env (n + i) (Prompt.content p)) = false.
Proof.
  revert n. induction prompts as [|q prompts IH]; intros n; simpl.
  - split; [by intros _ i p ?|done].
  - destruct (null_content (send_prompt env n (Prompt.content q))) eqn:Hq.
    + split; [done|]. intros Hall.
      specialize (Hall 0%nat q eq_refl). rewrite Nat.add_0_r in Hall.
      congruence.
    + rewrite fmap_None, IH. split.
      * intros Hall [|i] p Hp; simpl in Hp.
        { injection Hp as <-. by rewrite Nat.add_0_r. }
        rewrite Nat.add_succ_r. by apply Hall.
      * intros Hall i p Hp. specialize (Hall (S i) p Hp).
        by rewrite Nat.add_succ_r in Hall.
Qed.

Lemma first_null_Some env n prompts k :
  first_null env n prompts = Some k →
  ∃ p, prompts !! k = Some p
    ∧ null_content (send_prompt env (n + k) (Prompt.content p)) = true
    ∧ first_null env n (take k prompts) = None.
Proof.
  revert n k. induction prompts as [|q prompts IH]; intros n k; simpl; [done|].
  destruct (null_content (send_prompt env n (Prompt.content q))) eqn:Hq.
  - intros [= <-]. exists q. by rewrite Nat.add_0_r.
  - intros Hk. apply fmap_Some in Hk as (k' & Hk' & ->).
    destruct (IH (S n) k' Hk') as (p & Hp & Hnull & Hbefore).
    exists p. split; [done|]. rewrite Nat.add_succ_r. split; [done|].
    simpl. by rewrite Hq, Hbefore.
Qed.

Lemma first_null_app env n prompts more :
  first_null env n (prompts ++ more)
  = match first_null env n prompts with
    | Some k => Some k
    | None =>
        (λ k, (length prompts + k)%nat)
        <$> first_null env (n + length prompts) more
    end.
Proof.
  revert n. induction prompts as [|q prompts IH]; intros n; simpl.
  - rewrite Nat.add_0_r. by destruct (first_null env n more).
  - destruct (null_content (send_prompt env n (Prompt.content q))); [done|].
    rewrite IH.
    replace (n + S (length prompts))%nat with (S n + length prompts)%nat
      by lia.
    destruct (first_null env (S n) prompts); [done|].
    by destruct (first_null env _ more).
Qed.

(** What the loop leaves when it starts from the records [results]: it
    raises at the first success without text, after the request for it; and
    otherwise it makes one request and one record per prompt, in order, and
    extends the log by one entry per failure. *)
Lemma loop_trace env client category prompts results w :
  let out :=
    foldl (RunOpenAI.process_prompt env client category)
      (Py.Return results, w) prompts in
  probes out.2 = probes w
  ∧ (∃ suffix, error_log out.2 = error_log w +:+ suffix)
  ∧ match first_null env (requests w) prompts with
    | Some k =>
        out.1 = Py.Raise no_len
        ∧ requests out.2 = (requests w + S k)%nat
    | None =>
        requests out.2 = (requests w + length prompts)%nat
        ∧ ∃ new,
            out.1 = Py.Return (results ++ new)%list
            ∧ length new = length prompts
            ∧ (∀ (i : nat) (p : Prompt.t),
                 prompts !! i = Some p →
                 ∃ now r,
                   new !! i = Some r
                   ∧ record_for now p (RunOpenAI.model client) category
                       (send_prompt env (requests w + i) (Prompt.content p))
                     = Some r)
            ∧ ∃ suffix,
                error_log out.2 = error_log w +:+ suffix
                ∧ (suffix = ""
                   ↔ ∀ (i : nat) (p : Prompt.t),
                       prompts !! i = Some p →
                       succeeded (send_prompt env (requests w + i)
                                    (Prompt.content p)) = true)
    end.
Proof.
  cbv zeta. revert results w.
  induction prompts as [|q prompts IH]; intros results w.
  - simpl. split; [done|].
    split; [exists ""; by rewrite str_app_nil_r|].
    split; [lia|]. exists []. rewrite app_nil_r.
    do 2 (split; [done|]). split; [by intros i p ?|].
    exists "". rewrite str_app_nil_r. split; [done|]. by split.
  - change (foldl ?f ?s (q :: prompts)) with (foldl f (f s q) prompts).
    destruct (process_prompt_step env client category results w q)
      as (Hreq & Hprobes & now & entry & Hentry & Hlog & Hout).
    cbv zeta in Hreq, Hprobes, Hlog, Hout.
    destruct (RunOpenAI.process_prompt env client category
                (Py.Return results, w) q) as [o w1].
    simpl in Hreq, Hprobes, Hlog, Hout. subst o.
    change (first_null env (requests w) (q :: prompts))
      with (if null_content (send_prompt env (requests w) (Prompt.content q))
            then Some 0%nat
            else S <$> first_null env (S (requests w)) prompts).
    destruct (null_content (send_prompt env (requests w) (Prompt.content q)))
      eqn:Hq.
    + rewrite (proj2 (record_for_null now q (RunOpenAI.model client) category
                        _) Hq).
      rewrite process_prompt_raised. simpl.
      split; [done|]. split; [by eexists|]. split; [done|lia].
    + destruct (record_for_Some now q (RunOpenAI.model client) category _ Hq)
        as [r Hr].
      rewrite Hr.
      destruct (IH (results ++ [r])%list w1)
        as (Hprobes' & (suffix' & Hlog') & IH').
      split; [congruence|].
      split; [exists ((if succeeded (send_prompt env (requests w)
                                      (Prompt.content q))
                       then "" else entry) +:+ suffix');
              by rewrite Hlog', Hlog, str_app_assoc|].
      rewrite Hreq in IH'.
      destruct (first_null env (S (requests w)) prompts) as [k|]; simpl.
      * destruct IH' as [-> ->]. split; [done|lia].
      * destruct IH' as (-> & new & -> & Hlen & Hrec & suffix & Hlog2 & Hs).
        split; [simpl; lia|].
        exists (r :: new). rewrite <- app_assoc. split; [done|].
        split; [simpl; lia|]. split.
        { intros [|i] p Hp; simpl in Hp.
          - injection Hp as <-. exists now, r. rewrite Nat.add_0_r. done.
          - destruct (Hrec i p Hp) as (now' & r' & Hi & Hr').
            exists now', r'. rewrite Nat.add_succ_r. done. }
        eexists. split; [rewrite Hlog2, Hlog; apply str_app_assoc|].
        split.
        { intros [Hfirst Hrest]%str_app_eq_nil [|i] p Hp; simpl in Hp.
          - injection Hp as <-. rewrite Nat.add_0_r.
            destruct (succeeded _); [done|congruence].
          - rewrite Nat.add_succ_r. by apply (proj1 Hs Hrest). }
        intros Hall.
        pose proof (Hall 0%nat q eq_refl) as H0. rewrite Nat.add_0_r in H0.
        rewrite H0. simpl. apply Hs. intros i p Hp.
        specialize (Hall (S i) p Hp). by rewrite Nat.add_succ_r in Hall.
Qed.

(** What a run of the hosted runner leaves. *)
Lemma run_openai_trace env client prompts category w :
  let out := RunOpenAI.run_prompt_category env client prompts category w in
  probes out.2 = probes w
  ∧ (∃ suffix, error_log out.2 = error_log w +:+ suffix)
  ∧ match first_null env (requests w) prompts with
    | Some k =>
        out.1 = Py.Raise no_len
        ∧ requests out.2 = (requests w + S k)%nat
    | None =>
        requests out.2 = (requests w + length prompts)%nat
        ∧ ∃ results,
            out.1 = Py.Return results
            ∧ length results = length prompts
            ∧ (∀ (i : nat) (p : Prompt.t),
                 prompts !! i = Some p →
                 ∃ now r,
                   results !! i = Some r
                   ∧ record_for now p (RunOpenAI.model client) category
                       (send_prompt env (requests w + i) (Prompt.content p))
                     = Some r)
            ∧ ∃ suffix,
                error_log out.2 = error_log w +:+ suffix
                ∧ (suffix = ""
                   ↔ ∀ (i : nat) (p : Prompt.t),
                       prompts !! i = Some p →
                       succeeded (send_prompt env (requests w + i)
                                    (Prompt.content p)) = true)
    end.
Proof. apply (loop_trace env client category prompts [] w). Qed.

Lemma record_for_well_formed now p model category a r :
  record_for now p model category a = Some r →
  well_formed model category r.
Proof.
  destruct a as [[response|] latency i o cost|error latency];
    intros [= <-]; unfold well_formed; simpl.
  - split; [by exists i, o|]. split; [done|].
    split; [unfold Py.len; by rewrite length_split|].
    do 2 (split; [done|]). split; [by eexists|].
    split; [by eexists|]. by left.
  - split; [by exists 0%Z, 0%Z|]. split; [done|].
    split; [unfold Py.len; by rewrite length_split|].
    do 2 (split; [done|]). split; [by eexists|].
    split; [eexists; split; [done|intros _; by vm_compute]|].
    right. split; [done|]. by destruct error.
Qed.

Lemma record_for_prompt_id now p model category a r :
  record_for now p model category a = Some r →
  Result.prompt_id r = Prompt.id p.
Proof. destruct a as [[?|] ? ? ? ?|? ?]; by intros [= <-]. Qed.

Lemma record_for_error now p model category a r :
  record_for now p model category a = Some r →
  Result.error r = if succeeded a then None else Some true.
Proof. destruct a as [[?|] ? ? ? ?|? ?]; by intros [= <-]. Qed.

(** Every record of a run that returned comes from a prompt of the run. *)
Lemma run_openai_record_inv env client prompts category w results (i : nat) r :
  (RunOpenAI.run_prompt_category env client prompts category w).1
    = Py.Return results →
  results !! i = Some r →
  ∃ p now,
    prompts !! i = Some p
    ∧ record_for now p (RunOpenAI.model client) category
        (send_prompt env (requests w + i) (Prompt.content p)) = Some r.
Proof.
  intros Hret Hr.
  destruct (run_openai_trace env client prompts category w)
    as (_ & _ & Ht).
  destruct (first_null env (requests w) prompts) as [k|].
  { destruct Ht as [Ht _]. congruence. }
  destruct Ht as (_ & results' & Hret' & Hlen & Hrec & _).
  rewrite Hret in Hret'. injection Hret' as <-.
  assert (Hi : (i < length prompts)%nat).
  { rewrite <- Hlen. by eapply lookup_lt_Some. }
  destruct (lookup_lt_is_Some_2 prompts i Hi) as [p Hp].
  destruct (Hrec i p Hp) as (now & r' & Hr' & Hfor).
  exists p, now. split; [done|]. congruence.
Qed.

(** Every record a runner returns has the shape of a result record: token
    counts that add up, the length and the word count of its response, the
    client's model, the category of the run, a timestamp and a cost; a record
    flagged as an error has no tokens, no cost, and a response that starts
    with ["ERROR: "]; no record carries [error] false.  A runner returns one
    such record per prompt unless a request is reported as a success without
    text, on which it raises. *)
Theorem runner_records_are_well_formed (env : environment)
    (hosted : RunOpenAI.OpenAIClient) (local : RunLocal.LocalLMClient)
    (prompts : list Prompt.t) (category : string) (w : world) :
  let h := RunOpenAI.run_prompt_category env hosted prompts category w in
  let l := RunLocal.run_prompt_category env local prompts category w in
  match first_null env (requests w) prompts with
  | None =>
      ∃ hosted_records local_records,
        h.1 = Py.Return hosted_records
        ∧ l.1 = Py.Return local_records
        ∧ length hosted_records = length prompts
        ∧ length local_records = length prompts
        ∧ Forall (well_formed (RunOpenAI.model hosted) category)
            hosted_records
        ∧ Forall (well_formed (RunLocal.model_name local) category)
            local_records
  | Some _ => h.1 = Py.Raise no_len ∧ l.1 = Py.Raise no_len
  end.
Proof.
  cbv zeta. rewrite run_local_as_openai.
  set (lc := {| RunOpenAI.api_key := "";
                RunOpenAI.model := RunLocal.model_name local |}).
  pose proof (run_openai_trace env hosted prompts category w) as (_ & _ & Hh).
  pose proof (run_openai_trace env lc prompts category w) as (_ & _ & Hl).
  pose proof (run_openai_record_inv env hosted prompts category w) as Hinv_h.
  pose proof (run_openai_record_inv env lc prompts category w) as Hinv_l.
  destruct (first_null env (requests w) prompts) as [k|].
  { by destruct Hh as [-> _], Hl as [-> _]. }
  destruct Hh as (_ & hr & Hhr & Hlen_h & _).
  destruct Hl as (_ & lr & Hlr & Hlen_l & _).
  exists hr, lr. do 4 (split; [done|]).
  split; apply Forall_lookup; intros i r Hr.
  - destruct (Hinv_h hr i r Hhr Hr) as (p & now & _ & Hfor).
    by eapply record_for_well_formed.
  - destruct (Hinv_l lr i r Hlr Hr) as (p & now & _ & Hfor).
    by eapply (record_for_well_formed _ _ (RunOpenAI.model lc)).
Qed.

Lemma run_openai_prompt_ids env client prompts category w results :
  (RunOpenAI.run_prompt_category env client prompts category w).1
    = Py.Return results →
  map Result.prompt_id results = map Prompt.id prompts.
Proof.
  intros Hret.
  destruct (run_openai_trace env client prompts category w) as (_ & _ & Ht).
  destruct (first_null env (requests w) prompts) as [k|].
  { destruct Ht as [Ht _]. congruence. }
  destruct Ht as (_ & results' & Hret' & Hlen & Hrec & _).
  rewrite Hret in Hret'. injection Hret' as <-.
  apply list_eq. intros i.
  change (map Result.prompt_id ?l) with (Result.prompt_id <$> l).
  change (map Prompt.id ?l) with (Prompt.id <$> l).
  rewrite !list_lookup_fmap.
  destruct (prompts !! i) as [p|] eqn:Hp.
  - destruct (Hrec i p Hp) as (now & r & -> & Hfor). simpl.
    by rewrite (record_for_prompt_id _ _ _ _ _ _ Hfor).
  - apply lookup_ge_None in Hp.
    rewrite (proj2 (lookup_ge_None _ i)) by lia. done.
Qed.

(** A runner sends exactly one request per prompt it gets to, with no
    retry: it gets to all of them and returns their records, with the prompt
    ids in the order of the prompts, unless a request is reported as a
    success without text, after which no further request is sent. *)
Theorem one_request_per_prompt (env : environment)
    (hosted : RunOpenAI.OpenAIClient) (local : RunLocal.LocalLMClient)
    (prompts : list Prompt.t) (category : string) (w : world) :
  let h := RunOpenAI.run_prompt_category env hosted prompts category w in
  let l := RunLocal.run_prompt_category env local prompts category w in
  match first_null env (requests w) prompts with
  | None =>
      requests h.2 = (requests w + length prompts)%nat
      ∧ requests l.2 = (requests w + length prompts)%nat
      ∧ ∃ hosted_records local_records,
          h.1 = Py.Return hosted_records
          ∧ l.1 = Py.Return local_records
          ∧ map Result.prompt_id hosted_records = map Prompt.id prompts
          ∧ map Result.prompt_id local_records = map Prompt.id prompts
  | Some k =>
      requests h.2 = (requests w + S k)%nat
      ∧ requests l.2 = (requests w + S k)%nat
      ∧ h.1 = Py.Raise no_len
      ∧ l.1 = Py.Raise no_len
  end.
Proof.
  cbv zeta. rewrite run_local_as_openai.
  set (lc := {| RunOpenAI.api_key := "";
                RunOpenAI.model := RunLocal.model_name local |}).
  pose proof (run_openai_trace env hosted prompts category w) as (_ & _ & Hh).
  pose proof (run_openai_trace env lc prompts category w) as (_ & _ & Hl).
  pose proof (run_openai_prompt_ids env hosted prompts category w) as Hids_h.
  pose proof (run_openai_prompt_ids env lc prompts category w) as Hids_l.
  destruct (first_null env (requests w) prompts) as [k|].
  { by destruct Hh as [-> ->], Hl as [-> ->]. }
  destruct Hh as (Hreq_h & hr & Hhr & _).
  destruct Hl as (Hreq_l & lr & Hlr & _).
  do 2 (split; [done|]). exists hr, lr. do 2 (split; [done|]).
  split; [by apply Hids_h|by apply Hids_l].
Qed.

Lemma run_openai_log env client prompts category w results :
  let out := RunOpenAI.run_prompt_category env client prompts category w in
  out.1 = Py.Return results →
  ∃ suffix,
    error_log out.2 = error_log w +:+ suffix
    ∧ (suffix = "" ↔ Forall (λ r, Result.error r = None) results).
Proof.
  cbv zeta. intros Hret.
  pose proof (run_openai_record_inv env client prompts category w results)
    as Hinv.
  destruct (run_openai_trace env client prompts category w) as (_ & _ & Ht).
  destruct (first_null env (requests w) prompts) as [k|].
  { destruct Ht as [Ht _]. congruence. }
  destruct Ht as (_ & results' & Hret' & Hlen & Hrec & suffix & Hlog & Hsuffix).
  rewrite Hret in Hret'. injection Hret' as <-.
  exists suffix. split; [done|]. rewrite Hsuffix, Forall_lookup. split.
  - intros Hall i r Hr.
    destruct (Hinv i r Hret Hr) as (p & now & Hp & Hfor).
    by rewrite (record_for_error _ _ _ _ _ _ Hfor), (Hall i p Hp).
  - intros Hall i p Hp. destruct (Hrec i p Hp) as (now & r & Hr & Hfor).
    specialize (Hall i _ Hr).
    rewrite (record_for_error _ _ _ _ _ _ Hfor) in Hall.
    by destruct (succeeded _).
Qed.

(** A run only appends to the error log, whether it returns or raises;
    when it returns, it leaves the log as it was exactly when none of its
    records is flagged as an error. *)
Theorem error_log_grows_with_failures (env : environment)
    (hosted : RunOpenAI.OpenAIClient) (local : RunLocal.LocalLMClient)
    (prompts : list Prompt.t) (category : string) (w : world) :
  let h := RunOpenAI.run_prompt_category env hosted prompts category w in
  let l := RunLocal.run_prompt_category env local prompts category w in
  (∃ suffix, error_log h.2 = error_log w +:+ suffix)
  ∧ (∃ suffix, error_log l.2 = error_log w +:+ suffix)
  ∧ match first_null env (requests w) prompts with
    | None =>
        ∃ hosted_records local_records,
          h.1 = Py.Return hosted_records
          ∧ l.1 = Py.Return local_records
          ∧ (error_log h.2 = error_log w
             ↔ Forall (λ r, Result.error r = None) hosted_records)
          ∧ (error_log l.2 = error_log w
             ↔ Forall (λ r, Result.error r = None) local_records)
    | Some _ => h.1 = Py.Raise no_len ∧ l.1 = Py.Raise no_len
    end.
Proof.
  cbv zeta. rewrite run_local_as_openai.
  set (lc := {| RunOpenAI.api_key := "";
                RunOpenAI.model := RunLocal.model_name local |}).
  assert (H : ∀ client,
    let out := RunOpenAI.run_prompt_category env client prompts category w in
    (∃ suffix, error_log out.2 = error_log w +:+ suffix)
    ∧ match first_null env (requests w) prompts with
      | None =>
          ∃ results,
            out.1 = Py.Return results
            ∧ (error_log out.2 = error_log w
               ↔ Forall (λ r, Result.error r = None) results)
      | Some _ => out.1 = Py.Raise no_len
      end).
  { intros client. cbv zeta.
    pose proof (run_openai_log env client prompts category w) as Hlog.
    destruct (run_openai_trace env client prompts category w)
      as (_ & Hgrow & Ht).
    split; [done|].
    destruct (first_null env (requests w) prompts) as [k|]; [by destruct Ht|].
    destruct Ht as (_ & results & Hret & _).
    exists results. split; [done|].
    destruct (Hlog results Hret) as (suffix & Hs & Hiff).
    rewrite <- Hiff, Hs. split.
    - intros Heq. rewrite <- (str_app_nil_r (error_log w)) in Heq at 2.
      by apply String.app_inj in Heq.
    - intros ->. apply str_app_nil_r. }
  destruct (H hosted) as [H1 H2]. destruct (H lc) as [H3 H4].
  do 2 (split; [done|]).
  destruct (first_null env (requests w) prompts) as [k|]; [done|].
  destruct H2 as (hr & Hhr & Hh), H4 as (lr & Hlr & Hl).
  by exists hr, lr.
Qed.

Lemma run_openai_spec env client prompts category w results :
  (RunOpenAI.run_prompt_category env client prompts category w).1
    = Py.Return results →
  one_record_per_prompt env category w prompts results.
Proof.
  intros Hret.
  destruct (run_openai_trace env client prompts category w) as (_ & _ & Ht).
  destruct (first_null env (requests w) prompts) as [k|].
  { destruct Ht as [Ht _]. congruence. }
  destruct Ht as (_ & results' & Hret' & Hlen & Hrec & _).
  rewrite Hret in Hret'. injection Hret' as <-.
  split; [done|]. intros i p Hp.
  destruct (Hrec i p Hp) as (now & r & Hr & Hfor).
  exists r. split; [done|].
  destruct (send_prompt env (requests w + i) (Prompt.content p))
    as [[response|] latency it ot cost|error latency];
    simplify_eq/=; try done; repeat split; try done; by destruct error.
Qed.

(** With no success without text among the requests, the hosted runner
    and the local runner return exactly one record per prompt, in order; the
    record of a failed request has [error] true and the response ["ERROR: "]
    followed by the failure message, which is never empty, and the run goes
    on with the next prompt.  A success without text is the one outcome that
    stops a run. *)
Theorem failures_do_not_stop_a_run (env : environment)
    (hosted : RunOpenAI.OpenAIClient) (local : RunLocal.LocalLMClient)
    (prompts : list Prompt.t) (category : string) (w : world) :
  let h := RunOpenAI.run_prompt_category env hosted prompts category w in
  let l := RunLocal.run_prompt_category env local prompts category w in
  match first_null env (requests w) prompts with
  | None =>
      ∃ hosted_records local_records,
        h.1 = Py.Return hosted_records
        ∧ l.1 = Py.Return local_records
        ∧ one_record_per_prompt env category w prompts hosted_records
        ∧ one_record_per_prompt env category w prompts local_records
  | Some k =>
      h.1 = Py.Raise no_len ∧ l.1 = Py.Raise no_len
      ∧ ∃ p, prompts !! k = Some p
          ∧ null_content
              (send_prompt env (requests w + k) (Prompt.content p)) = true
  end.
Proof.
  cbv zeta. rewrite run_local_as_openai.
  set (lc := {| RunOpenAI.api_key := "";
                RunOpenAI.model := RunLocal.model_name local |}).
  pose proof (run_openai_trace env hosted prompts category w) as (_ & _ & Hh).
  pose proof (run_openai_trace env lc prompts category w) as (_ & _ & Hl).
  pose proof (run_openai_spec env hosted prompts category w) as Hspec_h.
  pose proof (run_openai_spec env lc prompts category w) as Hspec_l.
  destruct (first_null env (requests w) prompts) as [k|] eqn:Hfirst.
  { destruct Hh as [-> _], Hl as [-> _]. do 2 (split; [done|]).
    destruct (first_null_Some _ _ _ _ Hfirst) as (p & Hp & Hnull & _).
    by exists p. }
  destruct Hh as (_ & hr & Hhr & _). destruct Hl as (_ & lr & Hlr & _).
  exists hr, lr. do 2 (split; [done|]).
  split; [by apply Hspec_h|by apply Hspec_l].
Qed.

(** ** From two runs to the comparison *)

Lemma lookup_table_NoDup (results : list Result.t) (i : nat) (r : Result.t) :
  NoDup (map Result.prompt_id results) →
  results !! i = Some r →
  Compare.lookup_table results !! Result.prompt_id r = Some r.
Proof.
  intros Hnd Hr.
  rewrite <- (take_drop_middle results i r Hr) in Hnd |- *.
  apply lookup_table_last.
  rewrite map_app in Hnd. simpl in Hnd.
  apply NoDup_app in Hnd as (_ & _ & Hnd).
  by apply NoDup_cons in Hnd as [? _].
Qed.

Lemma failed_record_for now p model category a r :
  record_for now p model category a = Some r →
  Reference.failed r = negb (succeeded a).
Proof. destruct a as [[?|] ? ? ? ?|? ?]; by intros [= <-]. Qed.

Lemma category_record_for now p model category a r :
  record_for now p model category a = Some r →
  Result.category r = Some category.
Proof. destruct a as [[?|] ? ? ? ?|? ?]; by intros [= <-]. Qed.

(** When the hosted and the local runner are given the same prompts, with
    distinct ids, and both runs return, the comparator pairs every prompt:
    there are as many comparisons as prompts, each in the category of the
    run, and a comparison is successful exactly when both requests for its
    prompt were answered. *)
Theorem paired_runs_compare_every_prompt (env_h env_l : environment)
    (hosted : RunOpenAI.OpenAIClient) (local : RunLocal.LocalLMClient)
    (prompts : list Prompt.t) (category : string) (w_h w_l : world) :
  NoDup (map Prompt.id prompts) →
  first_null env_h (requests w_h) prompts = None →
  first_null env_l (requests w_l) prompts = None →
  ∃ hosted_records local_records out,
    (RunOpenAI.run_prompt_category env_h hosted prompts category w_h).1
      = Py.Return hosted_records
    ∧ (RunLocal.run_prompt_category env_l local prompts category w_l).1
      = Py.Return local_records
    ∧ Compare.create_side_by_side_comparison hosted_records local_records
      = Py.Return out
    ∧ length out = length prompts
    ∧ ∀ (i : nat) (p : Prompt.t),
        prompts !! i = Some p →
        ∃ c, c ∈ out
          ∧ Comparison.prompt_id c = Prompt.id p
          ∧ Comparison.category c = category
          ∧ Metrics.both_successful (Comparison.comparison_metrics c)
            = succeeded (send_prompt env_h (requests w_h + i)
                           (Prompt.content p))
              && succeeded (send_prompt env_l (requests w_l + i)
                              (Prompt.content p)).
Proof.
  intros Hnd Hnull_h Hnull_l. rewrite run_local_as_openai.
  set (lc := {| RunOpenAI.api_key := "";
                RunOpenAI.model := RunLocal.model_name local |}).
  pose proof (run_openai_trace env_h hosted prompts category w_h)
    as (_ & _ & Hth).
  pose proof (run_openai_trace env_l lc prompts category w_l)
    as (_ & _ & Htl).
  rewrite Hnull_h in Hth. rewrite Hnull_l in Htl.
  destruct Hth as (_ & h & Hhret & _ & Hrec_h & _).
  destruct Htl as (_ & l & Hlret & _ & Hrec_l & _).
  exists h, l.
  assert (Hh : map Result.prompt_id h = map Prompt.id prompts)
    by (by eapply run_openai_prompt_ids).
  assert (Hl : map Result.prompt_id l = map Prompt.id prompts)
    by (by eapply run_openai_prompt_ids).
  destruct (create_side_by_side_comparison_Return h l) as (out & Hout & Hbuilt).
  exists out. do 3 (split; [done|]).
  rewrite !dom_lookup_table in Hbuilt. unfold Reference.prompt_ids in Hbuilt.
  rewrite Hh, Hl in Hbuilt.
  set (S := list_to_set (map Prompt.id prompts) : gset string) in *.
  replace (S ∩ S) with S in Hbuilt by set_solver.
  destruct (sorted_elements S) as (_ & _ & Hlen & Hin).
  split.
  { rewrite <- (Forall2_length _ _ _ Hbuilt), Hlen.
    unfold S. rewrite size_list_to_set by done. apply length_map. }
  intros i p Hp.
  assert (Hid : Prompt.id p ∈ Py.sorted (elements S)).
  { apply Hin. unfold S. apply elem_of_list_to_set.
    apply list_elem_of_fmap. exists p. split; [done|].
    by eapply list_elem_of_lookup_2. }
  apply list_elem_of_lookup in Hid as [j Hj].
  destruct (Forall2_lookup_l _ _ _ _ _ Hbuilt Hj)
    as (c & Hc & hr & lr & Hhr & Hlr & Hpair).
  destruct (Hrec_h i p Hp) as (now_h & rh & Hri & Hfor_h).
  destruct (Hrec_l i p Hp) as (now_l & rl & Hli & Hfor_l).
  apply lookup_table_NoDup in Hri; [|by rewrite Hh].
  apply lookup_table_NoDup in Hli; [|by rewrite Hl].
  rewrite (record_for_prompt_id _ _ _ _ _ _ Hfor_h) in Hri.
  rewrite (record_for_prompt_id _ _ _ _ _ _ Hfor_l) in Hli.
  rewrite Hri in Hhr. rewrite Hli in Hlr.
  injection Hhr as <-. injection Hlr as <-.
  destruct (compare_pair_Return (Prompt.id p) rh rl)
    as (c' & Hc' & Hcid & Hcat & _ & _ & _ & Hboth).
  rewrite Hpair in Hc'. injection Hc' as <-.
  exists c. split; [by eapply list_elem_of_lookup_2|].
  split; [done|]. split.
  - by rewrite Hcat, (category_record_for _ _ _ _ _ _ Hfor_h).
  - rewrite Hboth. unfold Reference.both_successful.
    rewrite (failed_record_for _ _ _ _ _ _ Hfor_h),
            (failed_record_for _ _ _ _ _ _ Hfor_l).
    by destruct (succeeded _), (succeeded _).
Qed.

Lemma paired_runs_compare_every_prompt_witness :
  ∃ hosted_records local_records out,
    (RunOpenAI.run_prompt_category hosted_env
       {| RunOpenAI.api_key := "sk-test"; RunOpenAI.model := "gpt-4" |}
       (sample_prompts 3) "coding" initial_world).1
      = Py.Return hosted_records
    ∧ (RunLocal.run_prompt_category (flaky_env 2)
         {| RunLocal.base_url := "http://127.0.0.1:1234/v1/chat/completions";
            RunLocal.model_name := "gpt-oss-20b" |}
         (sample_prompts 3) "coding" initial_world).1
      = Py.Return local_records
    ∧ Compare.create_side_by_side_comparison hosted_records local_records
      = Py.Return out
    ∧ length out = length (sample_prompts 3)
    ∧ ∀ (i : nat) (p : Prompt.t),
        sample_prompts 3 !! i = Some p →
        ∃ c, c ∈ out
          ∧ Comparison.prompt_id c = Prompt.id p
          ∧ Comparison.category c = "coding"
          ∧ Metrics.both_successful (Comparison.comparison_metrics c)
            = succeeded (send_prompt hosted_env (requests initial_world + i)
                           (Prompt.content p))
              && succeeded (send_prompt (flaky_env 2)
                              (requests initial_world + i)
                              (Prompt.content p)).
Proof.
  apply (paired_runs_compare_every_prompt hosted_env (flaky_env 2)
           {| RunOpenAI.api_key := "sk-test"; RunOpenAI.model := "gpt-4" |}
           {| RunLocal.base_url := "http://127.0.0.1:1234/v1/chat/completions";
              RunLocal.model_name := "gpt-oss-20b" |}
           (sample_prompts 3) "coding" initial_world initial_world).
  - apply (bool_decide_unpack _). vm_compute. exact I.
  - reflexivity.
  - reflexivity.
Defined.

(** ** Worked examples of the runners *)

Example reply_without_text_stops_the_run :
  first_null (silent_env 1) (requests initial_world) (sample_prompts 3)
  = Some 1%nat
  ∧ (RunLocal.run_prompt_category (silent_env 1)
       {| RunLocal.base_url := "http://127.0.0.1:1234/v1/chat/completions";
          RunLocal.model_name := "gpt-oss-20b" |}
       (sample_prompts 3) "reasoning" initial_world).1
    = Py.Raise no_len
  ∧ requests
      (RunLocal.run_prompt_category (silent_env 1)
         {| RunLocal.base_url := "http://127.0.0.1:1234/v1/chat/completions";
            RunLocal.model_name := "gpt-oss-20b" |}
         (sample_prompts 3) "reasoning" initial_world).2
    = 2%nat.
Proof. repeat split; vm_compute; reflexivity. Qed.

Example failed_requests_do_not_stop_the_run :
  first_null (flaky_env 1) (requests initial_world) (sample_prompts 3) = None
  ∧ map Result.error (local_run 3 1) = [None; Some true; Some true]
  ∧ map Result.response (local_run 3 1)
    = ["4"; "ERROR: Read timed out."; "ERROR: Read timed out."].
Proof. repeat split; vm_compute; reflexivity. Qed.

(** ** Aggregate statistics *)

Section response_stats.
Import UtilsFiles.
Implicit Types (l : list Z) (x lo hi : Z).

Lemma min_of_spec x l :
  (min_of x l ≤ x)%Z ∧ Forall (λ y, (min_of x l ≤ y)%Z) l
  ∧ min_of x l ∈ x :: l.
Proof.
  unfold min_of. revert x. induction l as [|y l IH]; intros x; simpl.
  - split; [lia|]. split; [constructor|by left].
  - destruct (IH (x `min` y)%Z) as (H1 & H2 & H3).
    split; [lia|]. split; [constructor; [lia|done]|].
    apply elem_of_cons in H3 as [H3|H3]; [|by do 2 right].
    rewrite H3. destruct (Z.min_spec x y) as [[_ ->]|[_ ->]];
      [by left|right; by left].
Qed.

Lemma max_of_spec x l :
  (x ≤ max_of x l)%Z ∧ Forall (λ y, (y ≤ max_of x l)%Z) l
  ∧ max_of x l ∈ x :: l.
Proof.
  unfold max_of. revert x. induction l as [|y l IH]; intros x; simpl.
  - split; [lia|]. split; [constructor|by left].
  - destruct (IH (x `max` y)%Z) as (H1 & H2 & H3).
    split; [lia|]. split; [constructor; [lia|done]|].
    apply elem_of_cons in H3 as [H3|H3]; [|by do 2 right].
    rewrite H3. destruct (Z.max_spec x y) as [[_ ->]|[_ ->]];
      [right; by left|by left].
Qed.

Lemma foldl_add_bounds l lo hi acc :
  Forall (λ y, (lo ≤ y ≤ hi)%Z) l →
  (acc + Z.of_nat (length l) * lo ≤ foldl Z.add acc l
   ≤ acc + Z.of_nat (length l) * hi)%Z.
Proof.
  intros Hl. revert acc.
  induction Hl as [|y l Hy _ IH]; intros acc; simpl; [lia|].
  specialize (IH (acc + y)%Z). lia.
Qed.

Lemma sum_int_bounds l lo hi :
  Forall (λ y, (lo ≤ y ≤ hi)%Z) l →
  (Py.len l * lo ≤ sum_int l ≤ Py.len l * hi)%Z.
Proof.
  intros Hl. unfold sum_int, Py.len.
  pose proof (foldl_add_bounds l lo hi 0 Hl). lia.
Qed.

Lemma Forall_response_lengths (first : Result.t) (rest : list Result.t) :
  let lo := min_of (Result.response_length first)
              (map Result.response_length rest) in
  let hi := max_of (Result.response_length first)
              (map Result.response_length rest) in
  Forall (λ y, (lo ≤ y ≤ hi)%Z) (map Result.response_length (first :: rest)).
Proof.
  cbv zeta.
  destruct (min_of_spec (Result.response_length first)
              (map Result.response_length rest)) as (Hm1 & Hm2 & _).
  destruct (max_of_spec (Result.response_length first)
              (map Result.response_length rest)) as (HM1 & HM2 & _).
  simpl. constructor; [lia|].
  rewrite Forall_forall in Hm2, HM2. apply Forall_forall. intros y Hy.
  specialize (Hm2 y Hy). specialize (HM2 y Hy). lia.
Qed.

(** The statistics of a non-empty result list, with its three divisions
    carried out. *)
Lemma calculate_response_stats_cons (first : Result.t) (rest : list Result.t) :
  ∃ s,
    calculate_response_stats (first :: rest) = Py.Return (Some s)
    ∧ Stats.total_responses s = Py.len (first :: rest)
    ∧ Stats.min_response_length s
      = min_of (Result.response_length first)
          (map Result.response_length rest)
    ∧ Stats.max_response_length s
      = max_of (Result.response_length first)
          (map Result.response_length rest)
    ∧ Stats.avg_response_length s
      = Py.round (inject_Z (sum_int (map Result.response_length
                                       (first :: rest)))
                  / inject_Z (Py.len (first :: rest))) 1.
Proof.
  unfold calculate_response_stats.
  set (responses := first :: rest). cbv zeta.
  rewrite (true_div_Return (Py.sum (map Result.latency_seconds responses)))
    by apply len_cons_nonzero.
  rewrite (bind_Return_l (A:=Q)); cbv beta.
  rewrite (true_div_Return
             (inject_Z (sum_int (map (λ r, default 0%Z (Result.total_tokens r))
                                     responses))))
    by apply len_cons_nonzero.
  rewrite (bind_Return_l (A:=Q)); cbv beta.
  rewrite (true_div_Return
             (inject_Z (sum_int (map Result.response_length responses))))
    by apply len_cons_nonzero.
  rewrite (bind_Return_l (A:=Q)); cbv beta.
  by eexists.
Qed.
End response_stats.

(** [calculate_response_stats] never raises; it returns the empty dictionary
    exactly for the empty list; otherwise it counts the responses, its
    minimum and maximum response lengths are lengths of responses that bound
    all the others, and the average length it reports lies between them. *)
Theorem response_stats_bounds (responses : list Result.t) :
  ∃ v,
    UtilsFiles.calculate_response_stats responses = Py.Return v
    ∧ (v = None ↔ responses = [])
    ∧ ∀ s, v = Some s →
        Stats.total_responses s = Z.of_nat (length responses)
        ∧ Forall (λ r, (Stats.min_response_length s
                        ≤ Result.response_length r
                        ≤ Stats.max_response_length s)%Z) responses
        ∧ (∃ r, r ∈ responses
                ∧ Result.response_length r = Stats.min_response_length s)
        ∧ (∃ r, r ∈ responses
                ∧ Result.response_length r = Stats.max_response_length s)
        ∧ (inject_Z (Stats.min_response_length s)
           <= Stats.avg_response_length s)%Q
        ∧ (Stats.avg_response_length s
           <= inject_Z (Stats.max_response_length s))%Q.
Proof.
  destruct responses as [|first rest].
  { exists None. split; [done|]. split; [done|]. by intros s ?. }
  destruct (calculate_response_stats_cons first rest)
    as (s & Hs & Htotal & Hmin & Hmax & Havg).
  exists (Some s). split; [done|]. split; [done|].
  intros s' [= <-].
  pose proof (Forall_response_lengths first rest) as Hall. cbv zeta in Hall.
  rewrite <- Hmin, <- Hmax in Hall.
  split; [done|]. split; [by apply Forall_fmap in Hall|].
  destruct (min_of_spec (Result.response_length first)
              (map Result.response_length rest)) as (_ & _ & Hm).
  destruct (max_of_spec (Result.response_length first)
              (map Result.response_length rest)) as (_ & _ & HM).
  rewrite <- Hmin in Hm. rewrite <- Hmax in HM.
  change (?x :: map Result.response_length rest)
    with (Result.response_length <$> first :: rest) in Hm, HM.
  apply list_elem_of_fmap in Hm as (rm & Hrm & Hm).
  apply list_elem_of_fmap in HM as (rM & HrM & HM).
  split; [by exists rm|]. split; [by exists rM|].
  pose proof (sum_int_bounds _ _ _ Hall) as [Hlo Hhi].
  unfold Py.len in Hlo, Hhi. rewrite length_map in Hlo, Hhi.
  assert (Hlen : (0 < inject_Z (Py.len (first :: rest)))%Q).
  { rewrite <- (Zlt_Qlt 0). unfold Py.len. simpl. lia. }
  rewrite Havg. split.
  - apply round_ge_int. apply Qle_shift_div_l; [done|].
    rewrite <- inject_Z_mult, <- Zle_Qle. unfold Py.len in *. lia.
  - apply round_le_int. apply Qle_shift_div_r; [done|].
    rewrite <- inject_Z_mult, <- Zle_Qle. unfold Py.len in *. lia.
Qed.

Lemma true_div_max_Return (a x c : Q) :
  (0 < c)%Q → Py.true_div a (Py.max x c) = Py.Return (a / Py.max x c)%Q.
Proof.
  intros Hc. apply true_div_Return.
  pose proof (py_max_floor x c) as Hm. intros Hz. rewrite Hz in Hm. lra.
Qed.

Lemma round_zero (x : Q) (d : nat) : (x == 0)%Q → (Py.round x d == 0)%Q.
Proof.
  intros Hx. apply Qle_antisym.
  - apply (round_le_int x 0 d). rewrite Hx. apply Qle_refl.
  - apply (round_ge_int x 0 d). rewrite Hx. apply Qle_refl.
Qed.

Lemma calculate_response_stats_Return (responses : list Result.t) :
  ∃ v, UtilsFiles.calculate_response_stats responses = Py.Return v
       ∧ (responses = [] → v = None).
Proof.
  destruct responses as [|first rest]; [by exists None|].
  destruct (calculate_response_stats_cons first rest) as (s & Hs & _).
  by exists (Some s).
Qed.

(** [create_comparison_summary] never raises, whatever the two result sets,
    empty ones included: its divisors are clamped away from zero.  Its cost
    savings are the hosted total cost, 0 without hosted results, and without
    local results its three ratios are 0. *)
Theorem comparison_summary_never_raises
    (openai_results local_results : list Result.t) :
  ∃ openai_stats local_stats c,
    UtilsFiles.create_comparison_summary openai_results local_results
      = Py.Return (openai_stats, local_stats, c)
    ∧ UtilsFiles.calculate_response_stats openai_results
      = Py.Return openai_stats
    ∧ UtilsFiles.calculate_response_stats local_results
      = Py.Return local_stats
    ∧ RunComparison.cost_savings c
      = match openai_stats with
        | Some s => Stats.total_cost_usd s
        | None => 0%Q
        end
    ∧ (openai_results = [] → RunComparison.cost_savings c = 0%Q)
    ∧ (local_results = [] →
       (RunComparison.latency_ratio c == 0)%Q
       ∧ (RunComparison.token_efficiency c == 0)%Q
       ∧ (RunComparison.response_length_ratio c == 0)%Q).
Proof.
  destruct (calculate_response_stats_Return openai_results)
    as (so & Hso & Hso_nil).
  destruct (calculate_response_stats_Return local_results)
    as (sl & Hsl & Hsl_nil).
  eexists so, sl, _. split.
  - unfold UtilsFiles.create_comparison_summary.
    rewrite Hso, (bind_Return_l (A:=option Stats.t)); cbv beta.
    rewrite Hsl, (bind_Return_l (A:=option Stats.t)); cbv beta.
    rewrite (true_div_max_Return
               (UtilsFiles.stat Stats.avg_latency_seconds 0%Q sl)) by done.
    rewrite (bind_Return_l (A:=Q)); cbv beta.
    rewrite (true_div_max_Return
               (UtilsFiles.stat Stats.avg_tokens_per_response 0%Q sl)) by done.
    rewrite (bind_Return_l (A:=Q)); cbv beta.
    rewrite (true_div_max_Return
               (UtilsFiles.stat Stats.avg_response_length 0%Q sl)) by done.
    rewrite (bind_Return_l (A:=Q)); cbv beta.
    reflexivity.
  - do 2 (split; [done|]). simpl. split; [by destruct so|].
    split; [intros Ho; by rewrite (Hso_nil Ho)|].
    intros Hl. rewrite (Hsl_nil Hl). simpl.
    repeat split; apply round_zero; unfold Qdiv; apply Qmult_0_l.
Qed.

(** ** The CSV export and the comparator's [main] *)

(** The two halves of a comparison repeat the fields of the two records. *)
Lemma compare_pair_sides (id : string) (hr lr : Result.t) (c : Comparison.t) :
  Compare.compare_pair id hr lr = Py.Return c →
  Side.cost_usd (Comparison.openai c) = Reference.cost_savings hr
  ∧ Side.cost_usd (Comparison.local c) = 0%Q
  ∧ Side.has_error (Comparison.openai c) = Reference.failed hr
  ∧ Side.has_error (Comparison.local c) = Reference.failed lr
  ∧ Side.latency_seconds (Comparison.openai c) = Result.latency_seconds hr
  ∧ Side.latency_seconds (Comparison.local c) = Result.latency_seconds lr
  ∧ Side.response_length (Comparison.openai c) = Result.response_length hr
  ∧ Side.response_length (Comparison.local c) = Result.response_length lr.
Proof.
  unfold Compare.compare_pair.
  rewrite (true_div_Return (Result.latency_seconds lr)
             (Py.max (Result.latency_seconds hr) (1 # 1000))).
  2:{ pose proof (py_max_floor (Result.latency_seconds hr) (1 # 1000)) as Hm.
      intros Hz. rewrite Hz in Hm. by apply Qle_bool_iff in Hm. }
  rewrite true_div_Return by (apply inject_Z_nonzero; lia).
  intros [= <-]. by simpl.
Qed.

Lemma built_for_consistent_row openai_results local_results id c :
  built_for openai_results local_results id c →
  consistent_row (CompareMain.flatten c).
Proof.
  intros (hr & lr & _ & _ & Hc).
  destruct (compare_pair_sides id hr lr c Hc)
    as (Hco & _ & Heo & Hel & Hlo & Hll & Hro & Hrl).
  destruct (compare_pair_Return id hr lr)
    as (c' & Hc' & _ & _ & Hlat & Hlen & Hcost & Hboth).
  rewrite Hc in Hc'. injection Hc' as <-.
  unfold consistent_row, CompareMain.flatten. simpl.
  rewrite Hco, Heo, Hel, Hlo, Hll, Hro, Hrl, Hlat, Hlen, Hcost, Hboth.
  split; [done|]. split; [done|].
  split; [by rewrite py_max_Qmax|reflexivity].
Qed.

(** The export of an empty list writes nothing.  Otherwise it writes one
    file, with one row per comparison, in the order of the comparisons, and
    touches no other path. *)
Theorem csv_export_has_one_row_per_comparison
    (comparisons : list Comparison.t) (output_file : string)
    (disk : gmap string artefact) :
  let disk' := CompareMain.generate_csv_export comparisons output_file disk in
  (comparisons = [] ∧ disk' = disk)
  ∨ (comparisons ≠ []
     ∧ (∃ rows,
          disk' !! output_file = Some (CsvFile rows)
          ∧ length rows = length comparisons
          ∧ map Row.prompt_id rows = map Comparison.prompt_id comparisons
          ∧ map Row.both_successful rows
            = map (λ c, Metrics.both_successful
                          (Comparison.comparison_metrics c)) comparisons)
     ∧ ∀ path, path ≠ output_file → disk' !! path = disk !! path).
Proof.
  cbv zeta. destruct comparisons as [|c comparisons]; [by left|].
  right. split; [done|]. unfold CompareMain.generate_csv_export. split.
  - eexists. split; [apply lookup_insert_eq|].
    rewrite length_map. split; [done|].
    split; by rewrite map_map.
  - intros path Hpath. by rewrite lookup_insert_ne.
Qed.

(** In every row exported for a comparison the comparator built, the derived
    columns agree with the source columns of the same row: the cost savings
    are the hosted cost, success is the absence of both error flags, and the
    two ratios are the quotients of the row's own latencies and lengths. *)
Theorem exported_rows_are_consistent
    (openai_results local_results : list Result.t) :
  ∃ out,
    Compare.create_side_by_side_comparison openai_results local_results
      = Py.Return out
    ∧ Forall consistent_row (map CompareMain.flatten out).
Proof.
  destruct (create_side_by_side_comparison_Return openai_results local_results)
    as (out & Hout & Hbuilt).
  exists out. split; [done|].
  change (map CompareMain.flatten out) with (CompareMain.flatten <$> out).
  apply Forall_fmap.
  apply (built_for_Forall _ _ _ _ _ Hbuilt).
  intros id c Hc. by eapply built_for_consistent_row.
Qed.

Lemma load_results_found fs file_path :
  Compare.load_results fs file_path = Py.Return (results_found fs file_path).
Proof.
  unfold Compare.load_results, results_found. by destruct (fs file_path).
Qed.

(** The comparator is empty exactly when the two sets share no id. *)
Lemma comparison_empty_iff (openai_results local_results : list Result.t) :
  ∃ out,
    Compare.create_side_by_side_comparison openai_results local_results
      = Py.Return out
    ∧ (out = []
       ↔ Reference.prompt_ids openai_results
         ∩ Reference.prompt_ids local_results = ∅).
Proof.
  destruct (create_side_by_side_comparison_Return openai_results local_results)
    as (out & Hout & Hbuilt).
  exists out. split; [done|].
  rewrite !dom_lookup_table in Hbuilt.
  set (common := Reference.prompt_ids openai_results
                 ∩ Reference.prompt_ids local_results) in *.
  destruct (sorted_elements common) as (_ & _ & Hlen & _).
  apply Forall2_length in Hbuilt. rewrite Hlen in Hbuilt.
  split.
  - intros ->. simpl in Hbuilt. apply leibniz_equiv. by apply size_empty_iff.
  - intros Hc. rewrite Hc, size_empty in Hbuilt. by destruct out.
Qed.

Lemma main_unfold fs a disk out :
  Compare.create_side_by_side_comparison
    (results_found fs (CompareMain.openai_results a))
    (results_found fs (CompareMain.local_results a)) = Py.Return out →
  CompareMain.main fs a disk
  = match out with
    | [] => Py.Return disk
    | _ =>
      Compare.generate_performance_analysis out ≫= λ analysis,
      let disk1 :=
        <[CompareMain.output_dir a +:+ "/performance_analysis.json"
          := AnalysisFile analysis]>
        (<[CompareMain.output_dir a +:+ "/detailed_comparison.json"
           := ComparisonFile out]> disk) in
      Py.Return
        (if CompareMain.export_csv a then
           CompareMain.generate_csv_export out
             (CompareMain.output_dir a +:+ "/comparison_data.csv") disk1
         else disk1)
    end.
Proof.
  intros Hout. unfold CompareMain.main.
  rewrite !load_results_found.
  rewrite !(bind_Return_l (A:=list Result.t)); cbv beta.
  destruct (results_found fs (CompareMain.openai_results a)) as [|o os] eqn:Ho;
    [destruct (results_found fs (CompareMain.local_results a))
       as [|l ls] eqn:Hl|].
  - vm_compute in Hout. by injection Hout as <-.
  - rewrite Hout. by destruct out.
  - rewrite Hout. by destruct out.
Qed.

(** Without a prompt id common to the two input files, missing and malformed
    files counting as empty, [main] ends normally and writes nothing. *)
Theorem comparator_main_needs_a_common_id
    (fs : string → file (list Result.t)) (a : CompareMain.args)
    (disk : gmap string artefact) :
  Reference.prompt_ids (results_found fs (CompareMain.openai_results a))
  ∩ Reference.prompt_ids (results_found fs (CompareMain.local_results a)) = ∅ →
  CompareMain.main fs a disk = Py.Return disk.
Proof.
  intros Hcommon.
  destruct (comparison_empty_iff
              (results_found fs (CompareMain.openai_results a))
              (results_found fs (CompareMain.local_results a)))
    as (out & Hout & Hempty).
  rewrite (main_unfold fs a disk out Hout).
  by rewrite (proj2 Hempty Hcommon).
Qed.

Lemma comparator_main_needs_a_common_id_witness :
  results_found disjoint_results_fs
    (CompareMain.openai_results sample_compare_args) ≠ []
  ∧ results_found disjoint_results_fs
      (CompareMain.local_results sample_compare_args) ≠ []
  ∧ CompareMain.main disjoint_results_fs sample_compare_args ∅ = Py.Return ∅.
Proof.
  split; [by vm_compute|]. split; [by vm_compute|].
  apply (comparator_main_needs_a_common_id disjoint_results_fs
           sample_compare_args ∅).
  vm_compute. reflexivity.
Defined.

Lemma analysis_of_nonempty (comparisons : list Comparison.t) :
  comparisons ≠ [] →
  ∃ an,
    Compare.generate_performance_analysis comparisons = Py.Return an
    ∧ an ≠ AnalysisError "No comparisons available".
Proof.
  intros Hne.
  destruct (decide (Compare.successful comparisons = [])) as [Hs|Hs].
  - exists (AnalysisError "No successful comparisons available").
    split; [|done]. unfold Compare.generate_performance_analysis.
    destruct comparisons as [|c comparisons]; [done|]. by rewrite Hs.
  - destruct (generate_performance_analysis_Return comparisons Hs)
      as (ov & sm & cb & Hret & _).
    by exists (Analysis ov sm cb).
Qed.

Lemma output_paths_differ (dir a b : string) : a ≠ b → dir +:+ a ≠ dir +:+ b.
Proof. intros Hab Heq. by apply String.app_inj in Heq. Qed.

(** With a prompt id common to the two input files, [main] ends normally and
    writes the comparisons and their analysis, and the CSV rows when asked
    to, to three paths under the output directory and to no other path.  The
    analysis written is never the "no comparisons" error object. *)
Theorem comparator_main_outputs
    (fs : string → file (list Result.t)) (a : CompareMain.args)
    (disk : gmap string artefact) :
  Reference.prompt_ids (results_found fs (CompareMain.openai_results a))
  ∩ Reference.prompt_ids (results_found fs (CompareMain.local_results a)) ≠ ∅ →
  ∃ out an disk',
    Compare.create_side_by_side_comparison
      (results_found fs (CompareMain.openai_results a))
      (results_found fs (CompareMain.local_results a)) = Py.Return out
    ∧ out ≠ []
    ∧ Compare.generate_performance_analysis out = Py.Return an
    ∧ an ≠ AnalysisError "No comparisons available"
    ∧ CompareMain.main fs a disk = Py.Return disk'
    ∧ disk' !! (CompareMain.output_dir a +:+ "/detailed_comparison.json")
      = Some (ComparisonFile out)
    ∧ disk' !! (CompareMain.output_dir a +:+ "/performance_analysis.json")
      = Some (AnalysisFile an)
    ∧ disk' !! (CompareMain.output_dir a +:+ "/comparison_data.csv")
      = (if CompareMain.export_csv a
         then Some (CsvFile (map CompareMain.flatten out))
         else disk !! (CompareMain.output_dir a +:+ "/comparison_data.csv"))
    ∧ ∀ path,
        path ≠ CompareMain.output_dir a +:+ "/detailed_comparison.json" →
        path ≠ CompareMain.output_dir a +:+ "/performance_analysis.json" →
        path ≠ CompareMain.output_dir a +:+ "/comparison_data.csv" →
        disk' !! path = disk !! path.
Proof.
  intros Hcommon.
  destruct (comparison_empty_iff
              (results_found fs (CompareMain.openai_results a))
              (results_found fs (CompareMain.local_results a)))
    as (out & Hout & Hempty).
  assert (Hne : out ≠ []) by (intros H; by apply Hcommon, Hempty).
  destruct (analysis_of_nonempty out Hne) as (an & Han & Hmsg).
  destruct out as [|c out]; [done|].
  eexists (c :: out), an, _. do 4 (split; [done|]).
  split.
  { rewrite (main_unfold fs a disk (c :: out) Hout), Han. reflexivity. }
  set (dir := CompareMain.output_dir a).
  assert (H12 : dir +:+ "/performance_analysis.json"
                ≠ dir +:+ "/detailed_comparison.json")
    by (by apply output_paths_differ).
  assert (H13 : dir +:+ "/comparison_data.csv"
                ≠ dir +:+ "/detailed_comparison.json")
    by (by apply output_paths_differ).
  assert (H23 : dir +:+ "/comparison_data.csv"
                ≠ dir +:+ "/performance_analysis.json")
    by (by apply output_paths_differ).
  unfold CompareMain.generate_csv_export.
  destruct (CompareMain.export_csv a); simpl;
    repeat split;
    try (intros path ? ? ?);
    repeat first [ rewrite lookup_insert_eq
                 | rewrite lookup_insert_ne by done ];
    done.
Qed.

Lemma comparator_main_outputs_witness :
  ∃ out an disk',
    Compare.create_side_by_side_comparison
      (results_found sample_results_fs
         (CompareMain.openai_results sample_compare_args))
      (results_found sample_results_fs
         (CompareMain.local_results sample_compare_args)) = Py.Return out
    ∧ out ≠ []
    ∧ Compare.generate_performance_analysis out = Py.Return an
    ∧ an ≠ AnalysisError "No comparisons available"
    ∧ CompareMain.main sample_results_fs sample_compare_args ∅
      = Py.Return disk'
    ∧ disk' !! (CompareMain.output_dir sample_compare_args
                +:+ "/detailed_comparison.json")
      = Some (ComparisonFile out)
    ∧ disk' !! (CompareMain.output_dir sample_compare_args
                +:+ "/performance_analysis.json")
      = Some (AnalysisFile an)
    ∧ disk' !! (CompareMain.output_dir sample_compare_args
                +:+ "/comparison_data.csv")
      = (if CompareMain.export_csv sample_compare_args
         then Some (CsvFile (map CompareMain.flatten out))
         else (∅ : gmap string artefact)
                !! (CompareMain.output_dir sample_compare_args
                    +:+ "/comparison_data.csv"))
    ∧ ∀ path,
        path ≠ CompareMain.output_dir sample_compare_args
               +:+ "/detailed_comparison.json" →
        path ≠ CompareMain.output_dir sample_compare_args
               +:+ "/performance_analysis.json" →
        path ≠ CompareMain.output_dir sample_compare_args
               +:+ "/comparison_data.csv" →
        disk' !! path = (∅ : gmap string artefact) !! path.
Proof.
  apply (comparator_main_outputs sample_results_fs sample_compare_args ∅).
  apply (bool_decide_unpack _). vm_compute. exact I.
Defined.

(** ** The two clients *)

Lemma hosted_send_prompt_cases (client : RunOpenAI.OpenAIClient)
    (network : nat → Http.request → Http.exchange) (n : nat)
    (prompt_content : string) (max_tokens : Z) :
  let x := network n (MainOpenAI.request_for client prompt_content max_tokens) in
  let result :=
    MainOpenAI.send_prompt client network n prompt_content max_tokens in
  match answer_of (Http.reply_of x) with
  | Some (text, i, o) =>
      result
      = Success text (Http.end_time x - Http.start_time x) i o
          (Reference.cost i o (RunOpenAI.model client))
  | None =>
      ∃ e, result = Failure e (Http.failure_time x - Http.start_time x)
           ∧ ∀ code text json,
               Http.reply_of x = Http.Response code text json →
               code ≠ 200%Z →
               e = "API request failed: " +:+ pretty code
                   +:+ " - " +:+ text
  end.
Proof.
  cbv zeta.
  unfold MainOpenAI.send_prompt, answer_of.
  destruct (Http.reply_of _) as [msg|code text [msg|data]].
  - eexists. split; [reflexivity|]. by intros ? ? ? [=].
  - case_bool_decide as Hcode.
    + rewrite bool_decide_false by (intros H; by apply H).
      eexists. split; [reflexivity|]. by intros ? ? ? [= <- <- <-].
    + rewrite bool_decide_true by done.
      eexists. split; [reflexivity|]. by intros ? ? ? [= <- <- <-].
  - case_bool_decide as Hcode.
    + rewrite bool_decide_false by (intros H; by apply H).
      unfold MainOpenAI.response_text, Http.content_of.
      destruct (Http.choices data) as [[|c cs]|];
        try (eexists; split; [reflexivity|]; by intros ? ? ? [= <- <- <-]).
      destruct (Http.choice_message c) as [m|];
        try (eexists; split; [reflexivity|]; by intros ? ? ? [= <- <- <-]).
      destruct (Http.message_content m) as [value|];
        try (eexists; split; [reflexivity|]; by intros ? ? ? [= <- <- <-]).
      simpl. destruct (Http.tokens_of data) as [i o]. simpl.
      by rewrite calculate_tokens_cost_Return.
    + rewrite bool_decide_true by done.
      eexists. split; [reflexivity|]. by intros ? ? ? [= <- <- <-].
Qed.

(** The hosted client posts the prompt to the chat-completions endpoint with
    its bearer token and a 60 second timeout.  It reports success exactly
    when the reply carries an answer, that is a 200 response whose first
    choice has a message with a [content], be it a string or [null], and
    then hands on that content as it is, with the elapsed time up to the
    reply and the cost of the reported tokens at the client's model; every
    other reply, a non-200 status with its code and text, becomes a failure
    timed at the handler, never an exception. *)
Theorem hosted_send_prompt_outcome (client : RunOpenAI.OpenAIClient)
    (network : nat → Http.request → Http.exchange) (n : nat)
    (prompt_content : string) (max_tokens : Z) :
  ∃ req,
    Http.url req = "https://api.openai.com/v1/chat/completions"
    ∧ Http.authorization req = Some ("Bearer " +:+ RunOpenAI.api_key client)
    ∧ Http.model req = RunOpenAI.model client
    ∧ Http.content req = prompt_content
    ∧ Http.max_tokens req = max_tokens
    ∧ Http.timeout req = 60%Z
    ∧ let x := network n req in
      let result :=
        MainOpenAI.send_prompt client network n prompt_content max_tokens in
      match answer_of (Http.reply_of x) with
      | Some (text, i, o) =>
          result
          = Success text (Http.end_time x - Http.start_time x) i o
              (Reference.cost i o (RunOpenAI.model client))
      | None =>
          ∃ e, result = Failure e (Http.failure_time x - Http.start_time x)
               ∧ ∀ code text json,
                   Http.reply_of x = Http.Response code text json →
                   code ≠ 200%Z →
                   e = "API request failed: " +:+ pretty code
                       +:+ " - " +:+ text
      end.
Proof.
  exists (MainOpenAI.request_for client prompt_content max_tokens).
  do 6 (split; [reflexivity|]). apply hosted_send_prompt_cases.
Qed.

Lemma local_send_prompt_cases (client : RunLocal.LocalLMClient)
    (network : nat → Http.request → Http.exchange) (n : nat)
    (prompt_content : string) (max_tokens : Z) :
  let x := network n (MainLocal.request_for client prompt_content max_tokens) in
  let result :=
    MainLocal.send_prompt client network n prompt_content max_tokens in
  match answer_of (Http.reply_of x) with
  | Some (text, i, o) =>
      result
      = Success text (Http.end_time x - Http.start_time x) i o 0
  | None =>
      ∃ e, result = Failure e (Http.failure_time x - Http.start_time x)
           ∧ (∀ code text json,
                Http.reply_of x = Http.Response code text json →
                code ≠ 200%Z →
                e = "API request failed: " +:+ pretty code
                    +:+ " - " +:+ text)
           ∧ (∀ text data,
                Http.reply_of x
                = Http.Response 200 text (Http.Json data) →
                Http.choices data = None ∨ Http.choices data = Some [] →
                e = "No response choices found in API response")
  end.
Proof.
  cbv zeta.
  unfold MainLocal.send_prompt, answer_of.
  destruct (Http.reply_of _) as [msg|code text [msg|data]].
  - eexists. split; [reflexivity|]. split; [by intros ? ? ? [=]|].
    by intros ? ? [=].
  - case_bool_decide as Hcode.
    + rewrite bool_decide_false by (intros H; by apply H).
      eexists. split; [reflexivity|].
      split; [by intros ? ? ? [= <- <- <-]|]. by intros ? ? [=].
    + rewrite bool_decide_true by done.
      eexists. split; [reflexivity|].
      split; [by intros ? ? ? [= <- <- <-]|]. by intros ? ? [=].
  - case_bool_decide as Hcode.
    + rewrite bool_decide_false by (intros H; by apply H).
      unfold MainLocal.response_text, Http.content_of.
      destruct (Http.choices data) as [[|c cs]|] eqn:Hch.
      * eexists. split; [reflexivity|].
        split; [by intros ? ? ? [= <- <- <-]|]. done.
      * destruct (Http.choice_message c) as [m|].
        2:{ eexists. split; [reflexivity|].
            split; [by intros ? ? ? [= <- <- <-]|].
            intros ? ? [= _ _ <-]. rewrite Hch. by intros [|]. }
        destruct (Http.message_content m) as [value|].
        2:{ eexists. split; [reflexivity|].
            split; [by intros ? ? ? [= <- <- <-]|].
            intros ? ? [= _ _ <-]. rewrite Hch. by intros [|]. }
        simpl. by destruct (Http.tokens_of data) as [i o].
      * eexists. split; [reflexivity|].
        split; [by intros ? ? ? [= <- <- <-]|]. done.
    + rewrite bool_decide_true by done.
      eexists. split; [reflexivity|].
      split; [by intros ? ? ? [= <- <- <-]|].
      intros ? ? [= -> _ _]. done.
Qed.

(** The local client posts to its own URL with no credentials and a 120
    second timeout.  It reports success for exactly the replies that carry an
    answer, that is a 200 response whose first choice has a message with a
    [content], be it a string or [null], and hands on that content as it is,
    always at cost 0; every other reply becomes a failure, and a body without
    choices is reported as such. *)
Theorem local_send_prompt_outcome (client : RunLocal.LocalLMClient)
    (network : nat → Http.request → Http.exchange) (n : nat)
    (prompt_content : string) (max_tokens : Z) :
  ∃ req,
    Http.url req = RunLocal.base_url client
    ∧ Http.authorization req = None
    ∧ Http.model req = RunLocal.model_name client
    ∧ Http.content req = prompt_content
    ∧ Http.max_tokens req = max_tokens
    ∧ Http.timeout req = 120%Z
    ∧ let x := network n req in
      let result :=
        MainLocal.send_prompt client network n prompt_content max_tokens in
      match answer_of (Http.reply_of x) with
      | Some (text, i, o) =>
          result
          = Success text (Http.end_time x - Http.start_time x) i o 0
      | None =>
          ∃ e, result = Failure e (Http.failure_time x - Http.start_time x)
               ∧ (∀ code text json,
                    Http.reply_of x = Http.Response code text json →
                    code ≠ 200%Z →
                    e = "API request failed: " +:+ pretty code
                        +:+ " - " +:+ text)
               ∧ (∀ text data,
                    Http.reply_of x
                    = Http.Response 200 text (Http.Json data) →
                    Http.choices data = None ∨ Http.choices data = Some [] →
                    e = "No response choices found in API response")
      end.
Proof.
  exists (MainLocal.request_for client prompt_content max_tokens).
  do 6 (split; [reflexivity|]). apply local_send_prompt_cases.
Qed.

Lemma hosted_null_content client network n prompt_content max_tokens :
  null_content
    (MainOpenAI.send_prompt client network n prompt_content max_tokens) = true
  ↔ ∃ i o,
      answer_of
        (Http.reply_of
           (network n (MainOpenAI.request_for client prompt_content
                         max_tokens)))
      = Some (None, i, o).
Proof.
  pose proof (hosted_send_prompt_cases client network n prompt_content
                max_tokens) as Hcases. cbv zeta in Hcases.
  destruct (answer_of _) as [[[[text|] i] o]|].
  - rewrite Hcases. split; [done|]. by intros (? & ? & [=]).
  - rewrite Hcases. split; [by eexists _, _|done].
  - destruct Hcases as (e & -> & _). split; [done|]. by intros (? & ? & [=]).
Qed.

Lemma local_null_content client network n prompt_content max_tokens :
  null_content
    (MainLocal.send_prompt client network n prompt_content max_tokens) = true
  ↔ ∃ i o,
      answer_of
        (Http.reply_of
           (network n (MainLocal.request_for client prompt_content
                         max_tokens)))
      = Some (None, i, o).
Proof.
  pose proof (local_send_prompt_cases client network n prompt_content
                max_tokens) as Hcases. cbv zeta in Hcases.
  destruct (answer_of _) as [[[[text|] i] o]|].
  - rewrite Hcases. split; [done|]. by intros (? & ? & [=]).
  - rewrite Hcases. split; [by eexists _, _|done].
  - destruct Hcases as (e & -> & _). split; [done|]. by intros (? & ? & [=]).
Qed.

(** A hosted run against a network.  When every answer has text, the run
    returns one record per prompt, which reports the text of the reply to
    its request, with the tokens the reply reports and their cost rounded to
    six decimals, and which is flagged as an error exactly when the reply
    carries no answer.  When the reply to a prompt is an answer with a
    [null] content, the first such reply makes the run raise [TypeError],
    and no record is returned. *)
Theorem hosted_run_reports_each_reply (client : RunOpenAI.OpenAIClient)
    (network : nat → Http.request → Http.exchange) (now : nat → string)
    (prompts : list Prompt.t) (category : string) (w : world) :
  let env := MainOpenAI.environment_of client network now in
  let out := RunOpenAI.run_prompt_category env client prompts category w in
  match first_null env (requests w) prompts with
  | None =>
      ∃ results,
        out.1 = Py.Return results
        ∧ length results = length prompts
        ∧ ∀ (k : nat) (p : Prompt.t),
            prompts !! k = Some p →
            ∃ r,
              results !! k = Some r
              ∧ Result.prompt_id r = Prompt.id p
              ∧ match answer_of
                        (Http.reply_of
                           (network (requests w + k)%nat
                              (MainOpenAI.request_for client
                                 (Prompt.content p) 1000)))
                with
                | Some (Some text, i, o) =>
                    Result.error r = None
                    ∧ Result.response r = text
                    ∧ Result.input_tokens r = Some i
                    ∧ Result.output_tokens r = Some o
                    ∧ Result.cost_usd r
                      = Some (Py.round
                                (Reference.cost i o (RunOpenAI.model client))
                                6)
                | Some (None, _, _) => False
                | None =>
                    Result.error r = Some true
                    ∧ String.prefix "ERROR: " (Result.response r) = true
                end
  | Some j =>
      out.1 = Py.Raise no_len
      ∧ requests out.2 = (requests w + S j)%nat
      ∧ ∃ p i o,
          prompts !! j = Some p
          ∧ answer_of
              (Http.reply_of
                 (network (requests w + j)%nat
                    (MainOpenAI.request_for client (Prompt.content p) 1000)))
            = Some (None, i, o)
  end.
Proof.
  cbv zeta.
  destruct (run_openai_trace (MainOpenAI.environment_of client network now)
              client prompts category w) as (_ & _ & Ht).
  destruct (first_null _ _ prompts) as [j|] eqn:Hfirst.
  - destruct Ht as [-> ->]. do 2 (split; [done|]).
    destruct (first_null_Some _ _ _ _ Hfirst) as (p & Hp & Hnull & _).
    apply hosted_null_content in Hnull as (i & o & Hanswer).
    by exists p, i, o.
  - destruct Ht as (_ & results & -> & Hlen & Hrec & _).
    exists results. do 2 (split; [done|]). intros k p Hp.
    destruct (Hrec k p Hp) as (stamp & r & Hr & Hfor).
    exists r. split; [done|].
    split; [by eapply record_for_prompt_id|].
    pose proof (hosted_send_prompt_cases client network (requests w + k)
                  (Prompt.content p) 1000) as Hcases. cbv zeta in Hcases.
    change (send_prompt (MainOpenAI.environment_of client network now)
              (requests w + k) (Prompt.content p))
      with (MainOpenAI.send_prompt client network (requests w + k)
              (Prompt.content p) 1000) in Hfor.
    destruct (answer_of _) as [[[[text|] i] o]|].
    + rewrite Hcases in Hfor. by injection Hfor as <-.
    + rewrite Hcases in Hfor. done.
    + destruct Hcases as (e & He & _). rewrite He in Hfor.
      injection Hfor as <-. simpl. split; [done|]. by destruct e.
Qed.

(** A local run against a network costs nothing: every record it returns,
    answered or failed, has a cost of 0; it returns one record per prompt
    unless a reply is an answer with a [null] content, on which it raises. *)
Theorem local_run_costs_nothing (client : RunLocal.LocalLMClient)
    (network : nat → Http.request → Http.exchange) (now : nat → string)
    (prompts : list Prompt.t) (category : string) (w : world) :
  let env := MainLocal.environment_of client network now in
  let out := RunLocal.run_prompt_category env client prompts category w in
  match first_null env (requests w) prompts with
  | None =>
      ∃ results,
        out.1 = Py.Return results
        ∧ length results = length prompts
        ∧ Forall (λ r, ∃ c, Result.cost_usd r = Some c ∧ (c == 0)%Q) results
  | Some j =>
      out.1 = Py.Raise no_len
      ∧ ∃ p i o,
          prompts !! j = Some p
          ∧ answer_of
              (Http.reply_of
                 (network (requests w + j)%nat
                    (MainLocal.request_for client (Prompt.content p) 1000)))
            = Some (None, i, o)
  end.
Proof.
  cbv zeta. rewrite run_local_as_openai.
  set (lc := {| RunOpenAI.api_key := "";
                RunOpenAI.model := RunLocal.model_name client |}).
  destruct (run_openai_trace (MainLocal.environment_of client network now)
              lc prompts category w) as (_ & _ & Ht).
  pose proof (run_openai_record_inv
                (MainLocal.environment_of client network now) lc prompts
                category w) as Hinv.
  destruct (first_null _ _ prompts) as [j|] eqn:Hfirst.
  - destruct Ht as [Hraise _]. split; [done|].
    destruct (first_null_Some _ _ _ _ Hfirst) as (p & Hp & Hnull & _).
    apply local_null_content in Hnull as (i & o & Hanswer).
    by exists p, i, o.
  - destruct Ht as (_ & results & Hret & Hlen & _).
    exists results. do 2 (split; [done|]).
    apply Forall_lookup. intros k r Hr.
    destruct (Hinv results k r Hret Hr) as (p & stamp & _ & Hfor).
    pose proof (local_send_prompt_cases client network (requests w + k)
                  (Prompt.content p) 1000) as Hcases. cbv zeta in Hcases.
    change (send_prompt (MainLocal.environment_of client network now)
              (requests w + k) (Prompt.content p))
      with (MainLocal.send_prompt client network (requests w + k)
              (Prompt.content p) 1000) in Hfor.
    destruct (answer_of _) as [[[[text|] i] o]|].
    + rewrite Hcases in Hfor. injection Hfor as <-.
      eexists. split; [reflexivity|]. by vm_compute.
    + rewrite Hcases in Hfor. done.
    + destruct Hcases as (e & He & _). rewrite He in Hfor.
      injection Hfor as <-. eexists. split; [reflexivity|]. by vm_compute.
Qed.
(** ** Saving results *)

Section posix.
Import Posix.

Lemma rstrip_slash_empty (s : string) :
  rstrip_slash s = "" ↔ all_slashes s = true.
Proof.
  induction s as [|c s IH]; simpl; [done|].
  destruct (rstrip_slash s) as [|c' r].
  - destruct (is_slash c); simpl; [|by split].
    split; intros _; [by apply IH|done].
  - split; [done|]. intros [_ Hs]%andb_true_iff.
    by apply IH in Hs.
Qed.

Lemma upto_last_slash_empty (p : string) :
  upto_last_slash p = "" ↔ has_slash p = false.
Proof.
  destruct p as [|c p]; [done|].
  change (upto_last_slash (String c p))
    with (if has_slash (String c p) then String c (upto_last_slash p) else "").
  by destruct (has_slash (String c p)).
Qed.

(** A path has an empty directory name exactly when it has no slash. *)
Lemma dirname_empty (p : string) : dirname p = "" ↔ has_slash p = false.
Proof.
  unfold dirname. rewrite <- upto_last_slash_empty.
  destruct (all_slashes (upto_last_slash p)) eqn:Hall; [done|].
  rewrite rstrip_slash_empty, Hall. split; [done|].
  intros Hp. rewrite Hp in Hall. done.
Qed.

Lemma has_slash_app (a b : string) :
  has_slash (a +:+ b) = has_slash a || has_slash b.
Proof.
  induction a as [|c a IH]; [done|].
  change (has_slash (String c (a +:+ b))
          = (is_slash c || has_slash a) || has_slash b).
  simpl. rewrite IH. by destruct (is_slash c).
Qed.

Lemma endswith_slash_has_slash (a : string) :
  endswith_slash a = true → has_slash a = true.
Proof.
  induction a as [|c a IH]; [done|]. simpl.
  destruct a as [|c' a]; [by intros ->|].
  intros H. rewrite (IH H). by destruct (is_slash c).
Qed.

(** Joining a non-empty directory and a file name gives a path with a
    slash; joining the empty directory gives the bare name. *)
Lemma join_has_slash (dir name : string) :
  name ≠ "" → has_slash name = false →
  has_slash (join dir name) = bool_decide (dir ≠ "").
Proof.
  intros Hne Hname. unfold join.
  destruct name as [|c name]; [done|].
  assert (Hc : is_slash c = false).
  { simpl in Hname. by destruct (is_slash c). }
  rewrite Hc.
  destruct dir as [|d dir].
  { rewrite (bool_decide_true ("" = "")) by done.
    rewrite (bool_decide_false ("" ≠ "")) by (intros H; by apply H).
    exact Hname. }
  rewrite (bool_decide_true (String d dir ≠ "")) by done.
  rewrite (bool_decide_false (String d dir = "")) by done.
  rewrite orb_false_l.
  destruct (endswith_slash (String d dir)) eqn:He.
  - rewrite has_slash_app, (endswith_slash_has_slash _ He). done.
  - rewrite !has_slash_app.
    change (has_slash "/") with true. by rewrite orb_true_r.
Qed.

Lemma basename_no_slash (p : string) : has_slash p = false → basename p = p.
Proof. destruct p as [|c p]; [done|]. simpl. by intros ->. Qed.

Lemma basename_app (a b : string) :
  has_slash b = true → basename (a +:+ b) = basename b.
Proof.
  intros Hb. induction a as [|c a IH]; [done|].
  change (basename (String c (a +:+ b)) = basename b).
  change (basename (String c (a +:+ b)))
    with (if has_slash (String c (a +:+ b)) then basename (a +:+ b)
          else String c (a +:+ b)).
  change (has_slash (String c (a +:+ b)))
    with (is_slash c || has_slash (a +:+ b)).
  by rewrite has_slash_app, Hb, !orb_true_r.
Qed.

Lemma endswith_slash_split (a : string) :
  endswith_slash a = true → ∃ a', a = a' +:+ "/".
Proof.
  induction a as [|c a IH]; [done|].
  destruct a as [|c' a].
  - simpl. unfold is_slash. intros Hc%bool_decide_eq_true. exists "".
    by rewrite Hc.
  - intros Ha. destruct (IH Ha) as [a' ->]. by exists (String c a').
Qed.

(** A path that ends with a slash has an empty last component. *)
Lemma endswith_slash_basename (p : string) :
  endswith_slash p = true → basename p = "".
Proof.
  intros [a ->]%endswith_slash_split. by rewrite basename_app.
Qed.

(** The last component of a file joined to a directory is the file name. *)
Lemma basename_join (dir name : string) :
  name ≠ "" → has_slash name = false → dir ≠ "" →
  basename (join dir name) = name.
Proof.
  intros Hne Hname Hdir. unfold join.
  destruct name as [|c name]; [done|].
  assert (Hc : is_slash c = false).
  { simpl in Hname. by destruct (is_slash c). }
  rewrite Hc, (bool_decide_false (dir = "")) by done. rewrite orb_false_l.
  assert (Hslash : basename ("/" +:+ String c name) = String c name).
  { change (basename (String c name) = String c name).
    by apply basename_no_slash. }
  destruct (endswith_slash dir) eqn:He.
  - destruct (endswith_slash_split _ He) as [a ->].
    rewrite str_app_assoc. by rewrite basename_app.
  - by rewrite basename_app.
Qed.
End posix.

(** [save_results] on a path without a directory part raises
    [FileNotFoundError], from creating the empty directory, and writes
    nothing.  On a path with a directory part whose last component is empty,
    [.] or [..], as for every path that ends with a slash, it raises
    [IsADirectoryError], from opening a directory, and writes nothing.  On
    any other path it writes the results there, so that reading the path
    yields them, and leaves every other path as it was. *)
Theorem save_results_needs_a_directory (results : list Result.t)
    (file_path : string) (disk : gmap string artefact) :
  ((Posix.has_slash file_path = false
    ∧ UtilsFiles.save_results results file_path disk
      = Py.Raise (Py.FileNotFoundError ""))
   ∨ (Posix.has_slash file_path = true
      ∧ Posix.basename file_path ∈ [""; "."; ".."]
      ∧ UtilsFiles.save_results results file_path disk
        = Py.Raise (Py.IsADirectoryError file_path))
   ∨ (Posix.has_slash file_path = true
      ∧ (Posix.basename file_path ∉ [""; "."; ".."])
      ∧ ∃ disk',
          UtilsFiles.save_results results file_path disk = Py.Return disk'
          ∧ disk' !! file_path = Some (ResultsFile results)
          ∧ ∀ path, path ≠ file_path → disk' !! path = disk !! path))
  ∧ (Posix.endswith_slash file_path = true →
     UtilsFiles.save_results results file_path disk
     = Py.Raise (Py.IsADirectoryError file_path)).
Proof.
  assert (Hcases :
    (Posix.has_slash file_path = false
     ∧ UtilsFiles.save_results results file_path disk
       = Py.Raise (Py.FileNotFoundError ""))
    ∨ (Posix.has_slash file_path = true
       ∧ Posix.basename file_path ∈ [""; "."; ".."]
       ∧ UtilsFiles.save_results results file_path disk
         = Py.Raise (Py.IsADirectoryError file_path))
    ∨ (Posix.has_slash file_path = true
       ∧ (Posix.basename file_path ∉ [""; "."; ".."])
       ∧ ∃ disk',
           UtilsFiles.save_results results file_path disk = Py.Return disk'
           ∧ disk' !! file_path = Some (ResultsFile results)
           ∧ ∀ path, path ≠ file_path → disk' !! path = disk !! path)).
  { unfold UtilsFiles.save_results.
    pose proof (dirname_empty file_path) as Hd.
    destruct (Posix.dirname file_path) as [|c d] eqn:E.
    { left. split; [by apply Hd|done]. }
    right.
    assert (Hs : Posix.has_slash file_path = true).
    { destruct (Posix.has_slash file_path) eqn:Hs; [done|].
      by pose proof (proj2 Hd eq_refl). }
    destruct (decide (Posix.basename file_path ∈ [""; "."; ".."]))
      as [Hin|Hnot].
    - left. do 2 (split; [done|]).
      assert (Posix.names_directory file_path = true) as ->; [|done].
      unfold Posix.names_directory. set_unfold in Hin.
      destruct Hin as [H|[H|[H|[]]]]; by rewrite H.
    - right. do 2 (split; [done|]).
      assert (Posix.names_directory file_path = false) as ->.
      { unfold Posix.names_directory.
        repeat case_bool_decide; try done; destruct Hnot; set_solver. }
      eexists. split; [done|]. split; [apply lookup_insert_eq|].
      intros path Hp. by apply lookup_insert_ne. }
  split; [exact Hcases|].
  intros Hend. pose proof (endswith_slash_basename _ Hend) as Hbase.
  pose proof (endswith_slash_has_slash _ Hend) as Hslash.
  destruct Hcases as [[Hs _]|[(_ & _ & Hraise)|(_ & Hnot & _)]].
  - congruence.
  - done.
  - destruct Hnot. rewrite Hbase. set_solver.
Qed.

(** ** The connectivity probe *)

Lemma prefix_refl (s : string) : String.prefix s s = true.
Proof.
  induction s as [|c s IH]; simpl; [done|].
  by destruct (Ascii.ascii_dec c c).
Qed.

Lemma replace_from_skip_all (old new s : string) (k : nat) :
  (String.length s ≤ k)%nat → Http.replace_from old new k s = "".
Proof.
  revert k. induction s as [|c s IH]; intros k Hk; simpl; [done|].
  destruct k as [|k]; [simpl in Hk; lia|]. apply IH. simpl in Hk. lia.
Qed.

(** Replacing [old] in a string that ends with its only occurrence. *)
Lemma replace_suffix (old new s : string) :
  old ≠ "" → no_early_match old s = true →
  Http.replace old new (s +:+ old) = s +:+ new.
Proof.
  intros Hold. unfold Http.replace.
  induction s as [|c s IH]; intros Hs.
  - change ("" +:+ old) with old. change ("" +:+ new) with new.
    destruct old as [|o old]; [done|].
    change (Http.replace_from (String o old) new 0 (String o old))
      with (if String.prefix (String o old) (String o old)
            then new +:+ Http.replace_from (String o old) new
                           (String.length (String o old) - 1) old
            else String o (Http.replace_from (String o old) new 0 old)).
    rewrite prefix_refl, replace_from_skip_all by (simpl; lia).
    apply str_app_nil_r.
  - change (no_early_match old (String c s))
      with (negb (String.prefix old (String c s +:+ old))
            && no_early_match old s) in Hs.
    apply andb_true_iff in Hs as [Hc Hs].
    apply negb_true_iff in Hc.
    change (String c s +:+ old) with (String c (s +:+ old)) in *.
    change (Http.replace_from old new 0 (String c (s +:+ old)))
      with (if String.prefix old (String c (s +:+ old))
            then new +:+ Http.replace_from old new (String.length old - 1)
                           (s +:+ old)
            else String c (Http.replace_from old new 0 (s +:+ old))).
    rewrite Hc, (IH Hs). done.
Qed.

(** For a server URL that does not itself contain the chat-completions path,
    the probe of a client asks for [url/v1/models], and the connection test
    passes exactly when that request is answered with status 200; an
    exception of the request counts as unreachable.  The test sends one
    probe and no prompt. *)
Theorem test_connection_probes_the_models_endpoint (url model : string)
    (probe : string → option Z) (w : world) :
  no_early_match "/v1/chat/completions" url = true →
  MainLocal.test_connection (MainLocal.LocalLMClient_init url model) probe w
  = (match probe (url +:+ "/v1/models") with
     | Some status_code => bool_decide (status_code = 200%Z)
     | None => false
     end,
     after_probe w).
Proof.
  intros Hurl. unfold MainLocal.test_connection, MainLocal.LocalLMClient_init.
  simpl. rewrite replace_suffix by done. by destruct (probe _).
Qed.

Lemma test_connection_probes_the_models_endpoint_witness :
  MainLocal.test_connection
    (MainLocal.LocalLMClient_init "http://127.0.0.1:1234" "gpt-oss-20b")
    sample_probe_up initial_world
  = (match sample_probe_up ("http://127.0.0.1:1234" +:+ "/v1/models") with
     | Some status_code => bool_decide (status_code = 200%Z)
     | None => false
     end,
     after_probe initial_world).
Proof.
  apply (test_connection_probes_the_models_endpoint
           "http://127.0.0.1:1234" "gpt-oss-20b" sample_probe_up
           initial_world).
  vm_compute. reflexivity.
Defined.

(** ** The main programs of the two runners *)

(** The two loops over the categories are the same loop. *)
Lemma local_run_categories_as_openai fs env client categories all_results w :
  MainLocal.run_categories fs env client categories all_results w
  = MainOpenAI.run_categories fs env
      {| RunOpenAI.api_key := ""; RunOpenAI.model := RunLocal.model_name client |}
      categories all_results w.
Proof.
  revert all_results w.
  induction categories as [|category categories IH]; intros all_results w;
    [done|].
  simpl. destruct (fs _); try apply IH;
    (destruct (Utils.load_prompts fs _) as [prompts|e]; [|done];
     rewrite run_local_as_openai;
     destruct (RunOpenAI.run_prompt_category _ _ _ _ _) as [[rs|e] w'];
     [apply IH|done]).
Qed.

(** Without a malformed file, the prompts loaded are those of the selected
    categories. *)
Lemma prompts_loaded_ids fs categories :
  Forall (λ category, ¬ malformed fs category) categories →
  map Prompt.id (prompts_loaded fs categories) = selected_ids fs categories.
Proof.
  induction 1 as [|category categories Hc _ IH]; [done|].
  unfold selected_ids. simpl. fold (selected_ids fs categories).
  unfold prompts_found, malformed in *.
  destruct (fs (prompt_file category)) as [|msg|prompts]; [done|done|].
  by rewrite map_app, IH.
Qed.

(** What the loop over the categories leaves.  It raises at the first
    success without text among the requests for the prompts it loads;
    otherwise it sends one request per prompt loaded, and then either stops
    at a malformed file with the parse error or returns one record per
    prompt, in order. *)
Lemma run_categories_trace fs env client categories all_results w :
  let out :=
    MainOpenAI.run_categories fs env client categories all_results w in
  let prompts := prompts_loaded fs categories in
  probes out.2 = probes w
  ∧ match first_null env (requests w) prompts with
    | Some k =>
        out.1 = Py.Raise no_len ∧ requests out.2 = (requests w + S k)%nat
    | None =>
        requests out.2 = (requests w + length prompts)%nat
        ∧ (Exists (malformed fs) categories →
           ∃ msg, out.1 = Py.Raise (Py.JSONDecodeError msg))
        ∧ (Forall (λ category, ¬ malformed fs category) categories →
           ∃ rs,
             out.1 = Py.Return (all_results ++ rs)%list
             ∧ map Result.prompt_id rs = map Prompt.id prompts)
    end.
Proof.
  cbv zeta. revert all_results w.
  induction categories as [|category categories IH]; intros all_results w.
  - simpl. split; [done|]. split; [lia|].
    split; [by intros ?%Exists_nil|].
    intros _. exists []. by rewrite app_nil_r.
  - simpl. fold (prompt_file category). unfold Utils.load_prompts.
    destruct (fs (prompt_file category)) as [|msg|prompts] eqn:Hf.
    + destruct (IH all_results w) as [Hprobes Hrest].
      split; [done|].
      destruct (first_null env (requests w) (prompts_loaded fs categories))
        as [k|]; [done|].
      destruct Hrest as (Hreq & Hbad & Hgood).
      split; [done|]. split.
      * intros [Hm|Hex]%Exists_cons; [|by apply Hbad].
        unfold malformed in Hm. by rewrite Hf in Hm.
      * intros [_ Hall]%Forall_cons. by apply Hgood.
    + simpl. split; [done|]. split; [lia|]. split; [by eexists|].
      intros [Hc _]%Forall_cons. destruct Hc. unfold malformed. by rewrite Hf.
    + destruct (run_openai_trace env client prompts category w)
        as (Hprobes & _ & Ht).
      pose proof (run_openai_prompt_ids env client prompts category w)
        as Hids.
      rewrite first_null_app.
      destruct (RunOpenAI.run_prompt_category env client prompts category w)
        as [o w1]. simpl in Hprobes, Ht, Hids.
      destruct (first_null env (requests w) prompts) as [k|].
      { destruct Ht as [-> Hreq]. simpl. done. }
      destruct Ht as (Hreq & results & -> & Hlen & _).
      destruct (IH (all_results ++ results)%list w1) as [Hprobes' Hrest].
      split; [congruence|].
      rewrite Hreq in Hrest.
      destruct (first_null env (requests w + length prompts)
                  (prompts_loaded fs categories)) as [k|]; simpl.
      * destruct Hrest as [-> ->]. split; [done|lia].
      * destruct Hrest as (-> & Hbad & Hgood).
        rewrite length_app. split; [lia|]. split.
        { intros [Hm|Hex]%Exists_cons; [|by apply Hbad].
          unfold malformed in Hm. by rewrite Hf in Hm. }
        intros [_ Hall]%Forall_cons.
        destruct (Hgood Hall) as (rs & -> & Hrs).
        exists (results ++ rs)%list. rewrite app_assoc. split; [done|].
        by rewrite !map_app, Hrs, (Hids results eq_refl).
Qed.

Lemma finish_empty output_file disk :
  MainOpenAI.finish [] output_file disk = Py.Return disk.
Proof. done. Qed.

(** Saving a non-empty run under a file name: the results are written when
    the directory is not empty, and lost to [FileNotFoundError] when it
    is. *)
Lemma finish_nonempty (all_results : list Result.t) (dir name : string) disk :
  all_results ≠ [] →
  name ≠ "" → Posix.has_slash name = false → name ≠ "." → name ≠ ".." →
  MainOpenAI.finish all_results (Posix.join dir name) disk
  = if bool_decide (dir ≠ "")
    then Py.Return (<[Posix.join dir name := ResultsFile all_results]> disk)
    else Py.Raise (Py.FileNotFoundError "").
Proof.
  intros Hne Hname Hslash Hdot Hdots. unfold MainOpenAI.finish.
  destruct all_results as [|first rest]; [done|].
  unfold UtilsFiles.save_results.
  pose proof (dirname_empty (Posix.join dir name)) as Hd.
  rewrite (join_has_slash dir name Hname Hslash) in Hd.
  case_bool_decide as Hdir.
  - destruct (Posix.dirname (Posix.join dir name)) as [|c d].
    { by pose proof (proj1 Hd eq_refl). }
    unfold Posix.names_directory.
    rewrite (basename_join dir name Hname Hslash Hdir).
    rewrite !bool_decide_false by done. cbn [orb].
    rewrite (bind_Return_l (A:=gmap string artefact)); cbv beta.
    destruct (calculate_response_stats_cons first rest) as (s & -> & _).
    done.
  - by rewrite (proj2 Hd eq_refl).
Qed.

Lemma outputs_name_is_a_file (name : string) :
  name = "openai_outputs.json" ∨ name = "local_outputs.json" →
  name ≠ "" ∧ Posix.has_slash name = false ∧ name ≠ "." ∧ name ≠ "..".
Proof. by intros [-> | ->]. Qed.

Lemma hosted_main_conclude fs network now (k : Ascii.ascii) key model
    categories output_dir w disk :
  let client :=
    {| RunOpenAI.api_key := String k key; RunOpenAI.model := model |} in
  MainOpenAI.main fs network now
    {| MainOpenAI.api_key := Some (String k key); MainOpenAI.model := model;
       MainOpenAI.categories := categories;
       MainOpenAI.output_dir := output_dir |} w disk
  = conclude
      (MainOpenAI.run_categories fs
         (MainOpenAI.environment_of client network now) client categories
         [] w)
      (Posix.join output_dir "openai_outputs.json") disk.
Proof.
  cbv zeta. unfold MainOpenAI.main, conclude.
  cbn [MainOpenAI.api_key MainOpenAI.model MainOpenAI.categories
       MainOpenAI.output_dir].
  destruct (MainOpenAI.run_categories _ _ _ _ _ _) as [[all_results|e] w'];
    [|done].
  by destruct (MainOpenAI.finish _ _ _).
Qed.

Lemma test_connection_world client probe w :
  (MainLocal.test_connection client probe w).2 = after_probe w.
Proof. unfold MainLocal.test_connection. by destruct (probe _). Qed.

Lemma local_main_conclude fs probe network now url model categories
    output_dir w disk :
  (MainLocal.test_connection (MainLocal.LocalLMClient_init url model) probe
     w).1 = true →
  let client := MainLocal.LocalLMClient_init url model in
  MainLocal.main fs probe network now
    {| MainLocal.url := url; MainLocal.model := model;
       MainLocal.categories := categories;
       MainLocal.output_dir := output_dir |} w disk
  = conclude
      (MainOpenAI.run_categories fs
         (MainLocal.environment_of client network now)
         {| RunOpenAI.api_key := "";
            RunOpenAI.model := RunLocal.model_name client |} categories []
         (after_probe w))
      (Posix.join output_dir "local_outputs.json") disk.
Proof.
  intros Hup. cbv zeta. unfold MainLocal.main, conclude.
  cbn [MainLocal.url MainLocal.model MainLocal.categories
       MainLocal.output_dir].
  pose proof (test_connection_world (MainLocal.LocalLMClient_init url model)
                probe w) as Hw.
  destruct (MainLocal.test_connection _ probe w) as [connected w0].
  simpl in Hup, Hw. subst connected w0. cbn [negb].
  rewrite local_run_categories_as_openai.
  destruct (MainOpenAI.run_categories _ _ _ _ _ _) as [[all_results|e] w'];
    [|done].
  by destruct (MainOpenAI.finish _ _ _).
Qed.

(** How a main program ends once its client is set up, for each way the
    loop over the categories can go. *)
Lemma conclude_trace fs env client categories (dir name : string) w disk :
  name = "openai_outputs.json" ∨ name = "local_outputs.json" →
  let r :=
    conclude (MainOpenAI.run_categories fs env client categories [] w)
      (Posix.join dir name) disk in
  probes (world_of r) = probes w
  ∧ match first_null env (requests w) (prompts_loaded fs categories) with
    | Some k => cut_short k w disk r
    | None =>
        requests (world_of r)
        = (requests w + length (prompts_loaded fs categories))%nat
        ∧ (Exists (malformed fs) categories →
           (∃ msg, ending_of r = Uncaught (Py.JSONDecodeError msg))
           ∧ disk_of r = disk)
        ∧ (Forall (λ category, ¬ malformed fs category) categories →
           (dir ≠ "" → completed fs categories (Posix.join dir name) w disk r)
           ∧ (dir = "" → selected_ids fs categories ≠ [] →
              lost fs categories w disk r))
    end.
Proof.
  intros Hname. cbv zeta.
  destruct (outputs_name_is_a_file name Hname) as (Hne & Hslash & Hdot & Hdots).
  destruct (run_categories_trace fs env client categories [] w)
    as [Hprobes Ht].
  cbv zeta in Hprobes, Ht.
  destruct (MainOpenAI.run_categories fs env client categories [] w)
    as [o w1]. simpl in Hprobes, Ht.
  destruct (first_null env (requests w) (prompts_loaded fs categories))
    as [k|].
  { destruct Ht as [-> Hreq]. by simpl. }
  destruct Ht as (Hreq & Hbad & Hgood).
  assert (Hw : probes (world_of (conclude (o, w1) (Posix.join dir name) disk))
               = probes w
             ∧ requests (world_of (conclude (o, w1) (Posix.join dir name)
                                     disk))
               = (requests w + length (prompts_loaded fs categories))%nat).
  { unfold conclude. destruct o as [rs|e]; [|done].
    by destruct (MainOpenAI.finish _ _ _). }
  destruct Hw as [Hw1 Hw2].
  split; [done|]. split; [done|]. split.
  - intros Hex. destruct (Hbad Hex) as [msg ->]. simpl. split; [by eexists|done].
  - intros Hall. destruct (Hgood Hall) as (rs & -> & Hids).
    simpl in Hids. rewrite (prompts_loaded_ids fs categories Hall) in Hids.
    assert (Hlen : length (prompts_loaded fs categories)
                   = length (selected_ids fs categories)).
    { by rewrite <- (prompts_loaded_ids fs categories Hall), length_map. }
    simpl in *. unfold completed, lost. rewrite Hw2, Hlen.
    unfold conclude.
    destruct rs as [|r rs].
    { simpl in Hids. rewrite <- Hids. split; [done|]. by intros _ ?. }
    rewrite finish_nonempty by done.
    split.
    + intros Hdir. rewrite bool_decide_true by done. simpl.
      do 2 (split; [done|]). rewrite <- Hids. simpl. by eexists.
    + intros -> _. by simpl.
Qed.

Lemma conclude_abort fs env client categories (dir name : string) w disk :
  name = "openai_outputs.json" ∨ name = "local_outputs.json" →
  Exists (malformed fs) categories →
  let r :=
    conclude (MainOpenAI.run_categories fs env client categories [] w)
      (Posix.join dir name) disk in
  match first_null env (requests w) (prompts_loaded fs categories) with
  | None =>
      (∃ msg, ending_of r = Uncaught (Py.JSONDecodeError msg))
      ∧ requests (world_of r)
        = (requests w + length (prompts_loaded fs categories))%nat
  | Some k =>
      ending_of r = Uncaught no_len
      ∧ requests (world_of r) = (requests w + S k)%nat
  end
  ∧ disk_of r = disk.
Proof.
  intros Hname Hex. cbv zeta.
  destruct (conclude_trace fs env client categories dir name w disk Hname)
    as [_ Ht].
  cbv zeta in Ht. unfold cut_short in Ht.
  destruct (first_null env (requests w) (prompts_loaded fs categories))
    as [k|].
  - by destruct Ht as (? & ? & ?).
  - destruct Ht as (Hreq & Hbad & _). by destruct (Hbad Hex).
Qed.

(** A main program that found what it needs and whose selected categories
    include a malformed prompt file writes nothing.  It ends with the
    uncaught parse error, after one request for every prompt of the files
    before the malformed one, unless one of these requests is reported as a
    success without text, which ends it with the [TypeError] before. *)
Theorem malformed_prompt_file_aborts_the_run
    (fs : string → file (list Prompt.t)) (probe : string → option Z)
    (network : nat → Http.request → Http.exchange) (now : nat → string)
    (key model url output_dir : string) (categories : list string)
    (w : world) (disk : gmap string artefact) :
  key ≠ "" →
  (MainLocal.test_connection (MainLocal.LocalLMClient_init url model) probe
     w).1 = true →
  Exists (malformed fs) categories →
  let h :=
    MainOpenAI.main fs network now
      {| MainOpenAI.api_key := Some key; MainOpenAI.model := model;
         MainOpenAI.categories := categories;
         MainOpenAI.output_dir := output_dir |} w disk in
  let l :=
    MainLocal.main fs probe network now
      {| MainLocal.url := url; MainLocal.model := model;
         MainLocal.categories := categories;
         MainLocal.output_dir := output_dir |} w disk in
  match first_null
          (MainOpenAI.environment_of
             {| RunOpenAI.api_key := key; RunOpenAI.model := model |}
             network now)
          (requests w) (prompts_loaded fs categories) with
  | None =>
      (∃ msg, ending_of h = Uncaught (Py.JSONDecodeError msg))
      ∧ requests (world_of h)
        = (requests w + length (prompts_loaded fs categories))%nat
  | Some k =>
      ending_of h = Uncaught no_len
      ∧ requests (world_of h) = (requests w + S k)%nat
  end
  ∧ disk_of h = disk
  ∧ match first_null
            (MainLocal.environment_of
               (MainLocal.LocalLMClient_init url model) network now)
            (requests w) (prompts_loaded fs categories) with
    | None =>
        (∃ msg, ending_of l = Uncaught (Py.JSONDecodeError msg))
        ∧ requests (world_of l)
          = (requests w + length (prompts_loaded fs categories))%nat
    | Some k =>
        ending_of l = Uncaught no_len
        ∧ requests (world_of l) = (requests w + S k)%nat
    end
  ∧ disk_of l = disk.
Proof.
  intros Hkey Hup Hex. cbv zeta.
  destruct key as [|c key]; [done|].
  rewrite hosted_main_conclude, (local_main_conclude _ _ _ _ _ _ _ _ _ _ Hup).
  cbv zeta.
  destruct (conclude_abort fs
              (MainOpenAI.environment_of
                 {| RunOpenAI.api_key := String c key;
                    RunOpenAI.model := model |} network now)
              {| RunOpenAI.api_key := String c key;
                 RunOpenAI.model := model |}
              categories output_dir "openai_outputs.json" w disk
              (or_introl eq_refl) Hex) as [Hh1 Hh2].
  destruct (conclude_abort fs
              (MainLocal.environment_of
                 (MainLocal.LocalLMClient_init url model) network now)
              {| RunOpenAI.api_key := "";
                 RunOpenAI.model :=
                   RunLocal.model_name
                     (MainLocal.LocalLMClient_init url model) |}
              categories output_dir "local_outputs.json" (after_probe w)
              disk (or_intror eq_refl) Hex) as [Hl1 Hl2].
  exact (conj Hh1 (conj Hh2 (conj Hl1 Hl2))).
Qed.

Lemma malformed_prompt_file_aborts_the_run_witness :
  let h :=
    MainOpenAI.main sample_prompts_fs sample_network sample_now
      {| MainOpenAI.api_key := Some "sk-test"; MainOpenAI.model := "gpt-4";
         MainOpenAI.categories := ["reasoning"; "coding"];
         MainOpenAI.output_dir := "../results" |} initial_world ∅ in
  let l :=
    MainLocal.main sample_prompts_fs sample_probe_up sample_network sample_now
      {| MainLocal.url := "http://127.0.0.1:1234"; MainLocal.model := "gpt-4";
         MainLocal.categories := ["reasoning"; "coding"];
         MainLocal.output_dir := "../results" |} initial_world ∅ in
  match first_null
          (MainOpenAI.environment_of
             {| RunOpenAI.api_key := "sk-test"; RunOpenAI.model := "gpt-4" |}
             sample_network sample_now)
          (requests initial_world)
          (prompts_loaded sample_prompts_fs ["reasoning"; "coding"]) with
  | None =>
      (∃ msg, ending_of h = Uncaught (Py.JSONDecodeError msg))
      ∧ requests (world_of h)
        = (requests initial_world
           + length (prompts_loaded sample_prompts_fs
                       ["reasoning"; "coding"]))%nat
  | Some k =>
      ending_of h = Uncaught no_len
      ∧ requests (world_of h) = (requests initial_world + S k)%nat
  end
  ∧ disk_of h = ∅
  ∧ match first_null
            (MainLocal.environment_of
               (MainLocal.LocalLMClient_init "http://127.0.0.1:1234" "gpt-4")
               sample_network sample_now)
            (requests initial_world)
            (prompts_loaded sample_prompts_fs ["reasoning"; "coding"]) with
    | None =>
        (∃ msg, ending_of l = Uncaught (Py.JSONDecodeError msg))
        ∧ requests (world_of l)
          = (requests initial_world
             + length (prompts_loaded sample_prompts_fs
                         ["reasoning"; "coding"]))%nat
    | Some k =>
        ending_of l = Uncaught no_len
        ∧ requests (world_of l) = (requests initial_world + S k)%nat
    end
  ∧ disk_of l = ∅.
Proof.
  apply (malformed_prompt_file_aborts_the_run sample_prompts_fs
           sample_probe_up sample_network sample_now "sk-test" "gpt-4"
           "http://127.0.0.1:1234" "../results" ["reasoning"; "coding"]
           initial_world ∅).
  - done.
  - vm_compute. reflexivity.
  - right. left. vm_compute. exact I.
Defined.

Lemma conclude_saved fs env client categories (dir name : string) w disk :
  name = "openai_outputs.json" ∨ name = "local_outputs.json" →
  Forall (λ category, ¬ malformed fs category) categories →
  let r :=
    conclude (MainOpenAI.run_categories fs env client categories [] w)
      (Posix.join dir name) disk in
  match first_null env (requests w) (prompts_loaded fs categories) with
  | None =>
      (dir ≠ "" → completed fs categories (Posix.join dir name) w disk r)
      ∧ (dir = "" → selected_ids fs categories ≠ [] →
         lost fs categories w disk r)
  | Some k => cut_short k w disk r
  end
  ∧ probes (world_of r) = probes w.
Proof.
  intros Hname Hall. cbv zeta.
  destruct (conclude_trace fs env client categories dir name w disk Hname)
    as [Hprobes Ht].
  cbv zeta in Hprobes, Ht. split; [|done].
  destruct (first_null env (requests w) (prompts_loaded fs categories))
    as [k|]; [done|].
  destruct Ht as (_ & _ & Hgood). by apply Hgood.
Qed.

(** A main program that found what it needs, with no malformed prompt file
    among the selected categories and a non-empty output directory, finishes
    normally when every answer has text: it has sent one request per prompt
    of the categories that have a file, skipping the others, and has saved
    one record per prompt, in order, in its results file under the output
    directory; with no prompt at all it writes nothing.  A request reported
    as a success without text cuts the run short: it ends with the uncaught
    [TypeError] after that request and saves nothing.  The local program
    has sent one probe, the hosted one none. *)
Theorem run_saves_every_record
    (fs : string → file (list Prompt.t)) (probe : string → option Z)
    (network : nat → Http.request → Http.exchange) (now : nat → string)
    (key model url output_dir : string) (categories : list string)
    (w : world) (disk : gmap string artefact) :
  key ≠ "" →
  (MainLocal.test_connection (MainLocal.LocalLMClient_init url model) probe
     w).1 = true →
  Forall (λ category, ¬ malformed fs category) categories →
  output_dir ≠ "" →
  let h :=
    MainOpenAI.main fs network now
      {| MainOpenAI.api_key := Some key; MainOpenAI.model := model;
         MainOpenAI.categories := categories;
         MainOpenAI.output_dir := output_dir |} w disk in
  let l :=
    MainLocal.main fs probe network now
      {| MainLocal.url := url; MainLocal.model := model;
         MainLocal.categories := categories;
         MainLocal.output_dir := output_dir |} w disk in
  match first_null
          (MainOpenAI.environment_of
             {| RunOpenAI.api_key := key; RunOpenAI.model := model |}
             network now)
          (requests w) (prompts_loaded fs categories) with
  | None =>
      completed fs categories (Posix.join output_dir "openai_outputs.json")
        w disk h
  | Some k => cut_short k w disk h
  end
  ∧ match first_null
            (MainLocal.environment_of
               (MainLocal.LocalLMClient_init url model) network now)
            (requests w) (prompts_loaded fs categories) with
    | None =>
        completed fs categories (Posix.join output_dir "local_outputs.json")
          w disk l
    | Some k => cut_short k w disk l
    end
  ∧ probes (world_of h) = probes w
  ∧ probes (world_of l) = S (probes w).
Proof.
  intros Hkey Hup Hall Hdir. cbv zeta.
  destruct key as [|c key]; [done|].
  rewrite hosted_main_conclude, (local_main_conclude _ _ _ _ _ _ _ _ _ _ Hup).
  cbv zeta.
  destruct (conclude_saved fs
              (MainOpenAI.environment_of
                 {| RunOpenAI.api_key := String c key;
                    RunOpenAI.model := model |} network now)
              {| RunOpenAI.api_key := String c key;
                 RunOpenAI.model := model |}
              categories output_dir "openai_outputs.json" w disk
              (or_introl eq_refl) Hall) as [Hh1 Hh2].
  destruct (conclude_saved fs
              (MainLocal.environment_of
                 (MainLocal.LocalLMClient_init url model) network now)
              {| RunOpenAI.api_key := "";
                 RunOpenAI.model :=
                   RunLocal.model_name
                     (MainLocal.LocalLMClient_init url model) |}
              categories output_dir "local_outputs.json" (after_probe w)
              disk (or_intror eq_refl) Hall) as [Hl1 Hl2].
  cbv zeta in Hh1, Hl1.
  change (requests (after_probe w)) with (requests w) in Hl1.
  split; [|split; [|split]].
  - destruct (first_null
                (MainOpenAI.environment_of
                   {| RunOpenAI.api_key := String c key;
                      RunOpenAI.model := model |} network now)
                (requests w) (prompts_loaded fs categories))
      as [k|]; [exact Hh1|]. by apply Hh1.
  - destruct (first_null
                (MainLocal.environment_of
                   (MainLocal.LocalLMClient_init url model) network now)
                (requests w) (prompts_loaded fs categories))
      as [k|]; [exact Hl1|]. by apply Hl1.
  - done.
  - done.
Qed.

Lemma run_saves_every_record_witness :
  let h :=
    MainOpenAI.main sample_prompts_fs sample_network sample_now
      {| MainOpenAI.api_key := Some "sk-test"; MainOpenAI.model := "gpt-4";
         MainOpenAI.categories := ["reasoning"; "creative"];
         MainOpenAI.output_dir := "../results" |} initial_world ∅ in
  let l :=
    MainLocal.main sample_prompts_fs sample_probe_up sample_network
      sample_now
      {| MainLocal.url := "http://127.0.0.1:1234";
         MainLocal.model := "gpt-4";
         MainLocal.categories := ["reasoning"; "creative"];
         MainLocal.output_dir := "../results" |} initial_world ∅ in
  match first_null
          (MainOpenAI.environment_of
             {| RunOpenAI.api_key := "sk-test"; RunOpenAI.model := "gpt-4" |}
             sample_network sample_now)
          (requests initial_world)
          (prompts_loaded sample_prompts_fs ["reasoning"; "creative"]) with
  | None =>
      completed sample_prompts_fs ["reasoning"; "creative"]
        (Posix.join "../results" "openai_outputs.json") initial_world ∅ h
  | Some k => cut_short k initial_world ∅ h
  end
  ∧ match first_null
            (MainLocal.environment_of
               (MainLocal.LocalLMClient_init "http://127.0.0.1:1234" "gpt-4")
               sample_network sample_now)
            (requests initial_world)
            (prompts_loaded sample_prompts_fs ["reasoning"; "creative"]) with
    | None =>
        completed sample_prompts_fs ["reasoning"; "creative"]
          (Posix.join "../results" "local_outputs.json") initial_world ∅ l
    | Some k => cut_short k initial_world ∅ l
    end
  ∧ probes (world_of h) = probes initial_world
  ∧ probes (world_of l) = S (probes initial_world).
Proof.
  apply (run_saves_every_record sample_prompts_fs sample_probe_up
           sample_network sample_now "sk-test" "gpt-4"
           "http://127.0.0.1:1234" "../results" ["reasoning"; "creative"]
           initial_world ∅).
  - done.
  - vm_compute. reflexivity.
  - repeat constructor; vm_compute; tauto.
  - done.
Defined.

(** With an empty output directory the results file has no directory part:
    a main program that ran at least one prompt, all answered with text or
    failed, then ends with an uncaught [FileNotFoundError] after all its
    requests, and nothing is saved.  A request reported as a success without
    text ends it before, with the uncaught [TypeError], and nothing is saved
    either. *)
Theorem empty_output_directory_loses_the_run
    (fs : string → file (list Prompt.t)) (probe : string → option Z)
    (network : nat → Http.request → Http.exchange) (now : nat → string)
    (key model url : string) (categories : list string)
    (w : world) (disk : gmap string artefact) :
  key ≠ "" →
  (MainLocal.test_connection (MainLocal.LocalLMClient_init url model) probe
     w).1 = true →
  Forall (λ category, ¬ malformed fs category) categories →
  selected_ids fs categories ≠ [] →
  let h :=
    MainOpenAI.main fs network now
      {| MainOpenAI.api_key := Some key; MainOpenAI.model := model;
         MainOpenAI.categories := categories;
         MainOpenAI.output_dir := "" |} w disk in
  let l :=
    MainLocal.main fs probe network now
      {| MainLocal.url := url; MainLocal.model := model;
         MainLocal.categories := categories;
         MainLocal.output_dir := "" |} w disk in
  match first_null
          (MainOpenAI.environment_of
             {| RunOpenAI.api_key := key; RunOpenAI.model := model |}
             network now)
          (requests w) (prompts_loaded fs categories) with
  | None => lost fs categories w disk h
  | Some k => cut_short k w disk h
  end
  ∧ match first_null
            (MainLocal.environment_of
               (MainLocal.LocalLMClient_init url model) network now)
            (requests w) (prompts_loaded fs categories) with
    | None => lost fs categories w disk l
    | Some k => cut_short k w disk l
    end.
Proof.
  intros Hkey Hup Hall Hids. cbv zeta.
  destruct key as [|c key]; [done|].
  rewrite hosted_main_conclude, (local_main_conclude _ _ _ _ _ _ _ _ _ _ Hup).
  cbv zeta.
  destruct (conclude_saved fs
              (MainOpenAI.environment_of
                 {| RunOpenAI.api_key := String c key;
                    RunOpenAI.model := model |} network now)
              {| RunOpenAI.api_key := String c key;
                 RunOpenAI.model := model |}
              categories "" "openai_outputs.json" w disk
              (or_introl eq_refl) Hall) as [Hh1 _].
  destruct (conclude_saved fs
              (MainLocal.environment_of
                 (MainLocal.LocalLMClient_init url model) network now)
              {| RunOpenAI.api_key := "";
                 RunOpenAI.model :=
                   RunLocal.model_name
                     (MainLocal.LocalLMClient_init url model) |}
              categories "" "local_outputs.json" (after_probe w)
              disk (or_intror eq_refl) Hall) as [Hl1 _].
  cbv zeta in Hh1, Hl1.
  change (requests (after_probe w)) with (requests w) in Hl1.
  split.
  - destruct (first_null
                (MainOpenAI.environment_of
                   {| RunOpenAI.api_key := String c key;
                      RunOpenAI.model := model |} network now)
                (requests w) (prompts_loaded fs categories))
      as [k|]; [exact Hh1|]. by apply Hh1.
  - destruct (first_null
                (MainLocal.environment_of
                   (MainLocal.LocalLMClient_init url model) network now)
                (requests w) (prompts_loaded fs categories))
      as [k|]; [exact Hl1|]. by apply Hl1.
Qed.

Lemma empty_output_directory_loses_the_run_witness :
  let h :=
    MainOpenAI.main sample_prompts_fs sample_network sample_now
      {| MainOpenAI.api_key := Some "sk-test"; MainOpenAI.model := "gpt-4";
         MainOpenAI.categories := ["reasoning"];
         MainOpenAI.output_dir := "" |} initial_world ∅ in
  let l :=
    MainLocal.main sample_prompts_fs sample_probe_up sample_network
      sample_now
      {| MainLocal.url := "http://127.0.0.1:1234";
         MainLocal.model := "gpt-4";
         MainLocal.categories := ["reasoning"];
         MainLocal.output_dir := "" |} initial_world ∅ in
  match first_null
          (MainOpenAI.environment_of
             {| RunOpenAI.api_key := "sk-test"; RunOpenAI.model := "gpt-4" |}
             sample_network sample_now)
          (requests initial_world)
          (prompts_loaded sample_prompts_fs ["reasoning"]) with
  | None => lost sample_prompts_fs ["reasoning"] initial_world ∅ h
  | Some k => cut_short k initial_world ∅ h
  end
  ∧ match first_null
            (MainLocal.environment_of
               (MainLocal.LocalLMClient_init "http://127.0.0.1:1234" "gpt-4")
               sample_network sample_now)
            (requests initial_world)
            (prompts_loaded sample_prompts_fs ["reasoning"]) with
    | None => lost sample_prompts_fs ["reasoning"] initial_world ∅ l
    | Some k => cut_short k initial_world ∅ l
    end.
Proof.
  apply (empty_output_directory_loses_the_run sample_prompts_fs
           sample_probe_up sample_network sample_now "sk-test" "gpt-4"
           "http://127.0.0.1:1234" ["reasoning"] initial_world ∅).
  - done.
  - vm_compute. reflexivity.
  - repeat constructor; vm_compute; tauto.
  - vm_compute. done.
Defined.

(** ** Worked examples of the main programs *)

Example null_content_cuts_the_hosted_main_short :
  first_null
    (MainOpenAI.environment_of
       {| RunOpenAI.api_key := "sk-test"; RunOpenAI.model := "gpt-4" |}
       (silent_network 1) sample_now)
    (requests initial_world) (prompts_loaded sample_prompts_fs ["reasoning"])
  = Some 1%nat
  ∧ cut_short 1 initial_world ∅
      (MainOpenAI.main sample_prompts_fs (silent_network 1) sample_now
         {| MainOpenAI.api_key := Some "sk-test"; MainOpenAI.model := "gpt-4";
            MainOpenAI.categories := ["reasoning"];
            MainOpenAI.output_dir := "../results" |} initial_world ∅).
Proof. split; [reflexivity|]. repeat split; vm_compute; reflexivity. Qed.

Example save_results_in_a_directory :
  UtilsFiles.save_results [] "../results/openai_outputs.json" ∅
  = Py.Return {[ "../results/openai_outputs.json" := ResultsFile [] ]}
  ∧ UtilsFiles.save_results [] "openai_outputs.json" ∅
    = Py.Raise (Py.FileNotFoundError "")
  ∧ UtilsFiles.save_results [] "../results/" ∅
    = Py.Raise (Py.IsADirectoryError "../results/")
  ∧ UtilsFiles.save_results [] "/" ∅ = Py.Raise (Py.IsADirectoryError "/")
  ∧ UtilsFiles.save_results [] "../results/.." ∅
    = Py.Raise (Py.IsADirectoryError "../results/..").
Proof. repeat split; vm_compute; reflexivity. Qed.
